(** * Run orchestration and event-driven progress tracking

    A shallow embedding of the run engine of the document-generation
    backend: [agents/base.py] (events, run state, event emitter, the stage
    execution wrapper, the orchestrator base class),
    [agents/bess_orchestrator.py] (the bus subscriber and the three-stage
    pipeline), the three stages [agents/document_processor.py],
    [agents/content_generator.py], [agents/document_assembler.py], and the
    run routes of [api/agent_routes.py].

    Conventions of the embedding.
    - Python values of type [Any] are the inductive [pyval]; a [dict] with
      string keys is a [gmap string pyval] (insertion order is not kept).
    - Python [float]s are exact rationals ([Q]); rounding is not modelled,
      nor are the infinities and NaN. Where Python raises [OverflowError]
      for want of a float the embedding raises too; a statement about a
      computed float says in its premises that the value is in range.
    - Exceptions are the inductive [exn] (instances of Python's [Exception]);
      code that may raise and mutates an object lives in the state-and-error
      monad [SE].
    - Wall-clock readings ([datetime.now()]) are explicit arguments [now].
      The [timestamp] field of an event is left out: nothing in the engine
      reads it.
    - What lies outside the engine is an oracle: what document discovery
      ends with and what the extraction of each file yields, the template
      and rendered texts, the outcome of writing the output files.
    - The three agents are shared by all the runs of an orchestrator. What
      the other runs write to an agent's fields while an invocation is
      suspended is an oracle as well ([BaseAgent.others]).
    - A stage's code writes the events it publishes, and its suspension
      points, to a trace; the orchestrator's subscriber never feeds back
      into a stage. The lifetime of a run is followed for a run that no
      other run overlaps: it is the trace of its task on agents that are
      its alone, applied to the registry and interleaved with the cancel
      requests served before the task's first step, while the task is
      suspended, and after it has ended. *)

From Stdlib Require Import ZArith QArith Qminmax Qabs Ascii String List Lia.
From stdpp Require Import gmap strings list pretty.

Open Scope string_scope.

(** ** Python values and exceptions *)

#[warnings="-register-all"]
Inductive pyval : Type :=
| PyNone
| PyBool (b : bool)
| PyInt (n : Z)
| PyFloat (q : Q)
| PyStr (s : string)
| PyList (l : list pyval)
| PyDict (d : gmap string pyval)
| PyStrOf (v : pyval).
(* [PyStrOf v] is the text [str(v)], kept symbolic. *)

Inductive exn : Type :=
| KeyError (key : string)
| ValueError (msg : string)
| TypeError (msg : string)
| OSError (msg : string)
| OverflowError (msg : string)
| Exception (msg : string)
| HTTPException (status_code : Z) (detail : string).

(** [str(e)]: a [KeyError] prints the repr of its key. *)
Definition str_exn (e : exn) : string :=
  match e with
  | KeyError key => "'" ++ key ++ "'"
  | ValueError msg | TypeError msg | OSError msg | OverflowError msg
  | Exception msg => msg
  | HTTPException _ detail => detail
  end.

Inductive result (A : Type) : Type :=
| Ok (a : A)
| Raise (e : exn).
Arguments Ok {A} a.
Arguments Raise {A} e.

(** ** State and error monad *)

Definition SE (S A : Type) : Type := S -> S * result A.

Definition ret {S A} (a : A) : SE S A := fun s => (s, Ok a).

Definition bind {S A B} (m : SE S A) (k : A -> SE S B) : SE S B :=
  fun s =>
    match m s with
    | (s', Ok a) => k a s'
    | (s', Raise e) => (s', Raise e)
    end.

Definition raise {S A} (e : exn) : SE S A := fun s => (s, Raise e).

Definition get {S} : SE S S := fun s => (s, Ok s).

Definition modify {S} (f : S -> S) : SE S unit := fun s => (f s, Ok tt).

Definition lift_result {S A} (r : result A) : SE S A := fun s => (s, r).

(** [try: m except Exception as e: h e] *)
Definition try_except {S A} (m : SE S A) (h : exn -> SE S A) : SE S A :=
  fun s =>
    match m s with
    | (s', Ok a) => (s', Ok a)
    | (s', Raise e) => h e s'
    end.

(** [try: m finally: f] for a clean-up [f] that cannot raise. *)
Definition try_finally {S A} (m : SE S A) (f : S -> S) : SE S A :=
  fun s => let '(s', r) := m s in (f s', r).

Declare Scope se_scope.
Delimit Scope se_scope with se.
Notation "x <~ m ;; k" := (bind m (fun x => k))
  (at level 100, m at next level, k at level 200, right associativity) : se_scope.
Notation "m ;; k" := (bind m (fun _ => k))
  (at level 100, k at level 200, right associativity) : se_scope.
Open Scope se_scope.

(** [for x in xs: body x] *)
Fixpoint for_each {S A} (xs : list A) (body : A -> SE S unit) : SE S unit :=
  match xs with
  | [] => ret tt
  | x :: xs' => body x ;; for_each xs' body
  end.

(** ** Events and run state ([agents/base.py]) *)

Module EventType.
Inductive t : Set :=
| STARTED
| PROGRESS
| STEP_STARTED
| STEP_COMPLETED
| WARNING
| ERROR
| COMPLETED
| FAILED.

#[global] Instance eq_dec : EqDecision t.
Proof. solve_decision. Defined.

Definition value (ty : t) : string :=
  match ty with
  | STARTED => "started"
  | PROGRESS => "progress"
  | STEP_STARTED => "step_started"
  | STEP_COMPLETED => "step_completed"
  | WARNING => "warning"
  | ERROR => "error"
  | COMPLETED => "completed"
  | FAILED => "failed"
  end.
End EventType.

Module RunStatus.
Inductive t : Set :=
| QUEUED
| RUNNING
| SUCCEEDED
| FAILED
| CANCELED.

#[global] Instance eq_dec : EqDecision t.
Proof. solve_decision. Defined.

Definition value (st : t) : string :=
  match st with
  | QUEUED => "queued"
  | RUNNING => "running"
  | SUCCEEDED => "succeeded"
  | FAILED => "failed"
  | CANCELED => "canceled"
  end.
End RunStatus.

Module AgentEvent.
Record t : Type := mk {
  run_id : string;
  agent_id : string;
  event_type : EventType.t;
  message : string;
  data : gmap string pyval;
  error : option string
}.
End AgentEvent.

Module RunState.
Record t : Type := mk {
  id : string;
  status : RunStatus.t;
  query : string;
  max_docs : Z;
  processed_docs : pyval;
  total_docs : pyval;
  current_step : pyval;
  progress : Q;
  error : option string;
  finished : bool;
  created_at : Z;
  updated_at : Z;
  result : option pyval;
  events : list AgentEvent.t
}.

(** Attribute assignments [run_state.f = v]. *)
Definition set_status v (r : t) : t :=
  mk (id r) v (query r) (max_docs r) (processed_docs r) (total_docs r)
     (current_step r) (progress r) (error r) (finished r) (created_at r)
     (updated_at r) (result r) (events r).
Definition set_processed_docs v (r : t) : t :=
  mk (id r) (status r) (query r) (max_docs r) v (total_docs r)
     (current_step r) (progress r) (error r) (finished r) (created_at r)
     (updated_at r) (result r) (events r).
Definition set_total_docs v (r : t) : t :=
  mk (id r) (status r) (query r) (max_docs r) (processed_docs r) v
     (current_step r) (progress r) (error r) (finished r) (created_at r)
     (updated_at r) (result r) (events r).
Definition set_current_step v (r : t) : t :=
  mk (id r) (status r) (query r) (max_docs r) (processed_docs r) (total_docs r)
     v (progress r) (error r) (finished r) (created_at r)
     (updated_at r) (result r) (events r).
Definition set_progress v (r : t) : t :=
  mk (id r) (status r) (query r) (max_docs r) (processed_docs r) (total_docs r)
     (current_step r) v (error r) (finished r) (created_at r)
     (updated_at r) (result r) (events r).
Definition set_error v (r : t) : t :=
  mk (id r) (status r) (query r) (max_docs r) (processed_docs r) (total_docs r)
     (current_step r) (progress r) v (finished r) (created_at r)
     (updated_at r) (result r) (events r).
Definition set_finished v (r : t) : t :=
  mk (id r) (status r) (query r) (max_docs r) (processed_docs r) (total_docs r)
     (current_step r) (progress r) (error r) v (created_at r)
     (updated_at r) (result r) (events r).
Definition set_updated_at v (r : t) : t :=
  mk (id r) (status r) (query r) (max_docs r) (processed_docs r) (total_docs r)
     (current_step r) (progress r) (error r) (finished r) (created_at r)
     v (result r) (events r).
Definition set_result v (r : t) : t :=
  mk (id r) (status r) (query r) (max_docs r) (processed_docs r) (total_docs r)
     (current_step r) (progress r) (error r) (finished r) (created_at r)
     (updated_at r) v (events r).
(** [run_state.events.append(event)] *)
Definition events_append ev (r : t) : t :=
  mk (id r) (status r) (query r) (max_docs r) (processed_docs r) (total_docs r)
     (current_step r) (progress r) (error r) (finished r) (created_at r)
     (updated_at r) (result r) (events r ++ [ev]).

(** [RunState(id=run_id, query=query, max_docs=max_docs, status=QUEUED)],
    the remaining fields at their dataclass defaults. *)
Definition new (run_id query : string) (max_docs now : Z) : t :=
  mk run_id RunStatus.QUEUED query max_docs (PyInt 0) PyNone (PyStr "")
     0%Q None false now now None [].
End RunState.

(** ** Arithmetic on payload values *)

(** The numeric reading of a value; [bool] is a subclass of [int]. *)
Definition as_number (v : pyval) : option Q :=
  match v with
  | PyInt n => Some (inject_Z n)
  | PyFloat q => Some q
  | PyBool b => Some (if b then 1%Q else 0%Q)
  | _ => None
  end.

(** [v > 0] *)
Definition py_gt_zero (v : pyval) : result bool :=
  match as_number v with
  | Some q => Ok (negb (Qle_bool q 0))
  | None => Raise (TypeError "'>' not supported between these operands")
  end.

(** The range of a float: a magnitude below [2^1024 - 2^970] rounds to a
    finite double; from there on Python raises [OverflowError] where it has
    to make a float of an integer value. *)
Definition float_limit : Q := inject_Z (2 ^ 1024 - 2 ^ 970).

Definition fits_float (q : Q) : bool := negb (Qle_bool float_limit (Qabs q)).

Definition is_int (v : pyval) : bool :=
  match v with
  | PyInt _ | PyBool _ => true
  | _ => false
  end.

(** [float(v)], for the operands of a division that involves a float. *)
Definition as_float (v : pyval) : result Q :=
  match v with
  | PyFloat q => Ok q
  | PyInt _ | PyBool _ =>
      let q := default 0%Q (as_number v) in
      if fits_float q then Ok q
      else Raise (OverflowError "int too large to convert to float")
  | _ => Raise (TypeError "unsupported operand type(s) for /")
  end.

(** [a / b], true division. Between two integers the exact quotient is
    rounded once, and [OverflowError] is raised when it does not fit a
    float; with a float on either side both operands are made floats, left
    one first, and then divided. *)
Definition py_truediv (a b : pyval) : result Q :=
  match as_number a, as_number b with
  | Some x, Some y =>
      if is_int a && is_int b then
        if Qeq_bool y 0 then Raise (Exception "division by zero")
        else if fits_float (x / y) then Ok (x / y)%Q
        else Raise (OverflowError "integer division result too large for a float")
      else
        match as_float a with
        | Raise e => Raise e
        | Ok x' =>
            match as_float b with
            | Raise e => Raise e
            | Ok y' =>
                if Qeq_bool y' 0 then Raise (Exception "division by zero")
                else Ok (x' / y')%Q
            end
        end
  | _, _ => Raise (TypeError "unsupported operand type(s) for /")
  end.

(** [max(a, b)]: the first argument unless the second is greater. *)
Definition pymax (a b : Q) : Q := if Qle_bool b a then a else b.

(** [(data["current"] / data["total"]) * weight if data["total"] > 0 else 0] *)
Definition weighted_fraction (current total : pyval) (weight : Q) : result Q :=
  match py_gt_zero total with
  | Raise e => Raise e
  | Ok true =>
      match py_truediv current total with
      | Ok q => Ok (q * weight)%Q
      | Raise e => Raise e
      end
  | Ok false => Ok 0%Q
  end.

(** ** Event bus *)

Module EventEmitter.
Definition callback (S : Type) : Type := AgentEvent.t -> SE S unit.

(** The bus works on the subscribers' state [S] and on the logger's lines. *)
Definition log_line {S} (line : string) : SE (S * list string) unit :=
  modify (fun w => (fst w, (snd w ++ [line])%list)).

Definition call {S} (c : SE S unit) : SE (S * list string) unit :=
  fun w => let '(s', r) := c (fst w) in ((s', snd w), r).

Definition emit {S} (subscribers : list (callback S)) (event : AgentEvent.t)
  : SE (S * list string) unit :=
  log_line ("[" ++ AgentEvent.run_id event ++ "] " ++ AgentEvent.agent_id event
            ++ ": " ++ EventType.value (AgentEvent.event_type event)
            ++ " - " ++ AgentEvent.message event) ;;
  for_each subscribers (fun callback =>
    try_except (call (callback event))
      (fun e => log_line ("Event callback error: " ++ str_exn e))).
End EventEmitter.

(** ** Actions of a run's task

    What the task created by [start_run] does, in order: attribute writes on
    its run object, events published on the bus, and suspension points
    ([await asyncio.sleep(..)]) at which the event loop serves requests. *)

Inductive act : Type :=
| SetRunning
| Emit (event : AgentEvent.t)
| Await
| SetCurrentStep (label : string)
| Finalize (outcome : result (gmap string pyval)).

(** ** Stage execution wrapper ([BaseAgent]) *)

(** The agents of an orchestrator are shared by all its runs. While an
    invocation of [execute] is suspended, the invocation of another run on
    the same object may enter [execute], which binds the agent to that run,
    or leave it, which clears the binding. *)
Inductive interference : Type :=
| Untouched
| Rebound (run_id : string)
| Cleared.

Module BaseAgent.
(** The fields of an agent, and [others]: what the invocations of other
    runs leave in the fields at the suspension points to come, one entry
    for each; no entry, no other run on the agent. *)
Record t : Type := mk {
  agent_id : string;
  is_running : bool;
  current_run_id : option string;
  others : list interference
}.

(** Agent code: the agent's own fields and the bus traffic so far. *)
Definition M (A : Type) : Type := SE (t * list act) A.

Definition new (agent_id : string) : t := mk agent_id false None [].

Definition perform (a : act) : M unit :=
  modify (fun w => (fst w, (snd w ++ [a])%list)).

(** The agent as a suspended invocation finds it when it resumes. *)
Definition resume (self : t) : t :=
  match others self with
  | [] => self
  | Untouched :: rest => mk (agent_id self) (is_running self) (current_run_id self) rest
  | Rebound run_id :: rest => mk (agent_id self) true (Some run_id) rest
  | Cleared :: rest => mk (agent_id self) false None rest
  end.

(** [await asyncio.sleep(..)]: the task is suspended, the event loop runs
    the other tasks and serves requests, and the task resumes. *)
Definition asyncio_sleep : M unit :=
  perform Await ;;
  modify (fun w => (resume (fst w), snd w)).

(** The run an event would be tagged with; [not self.current_run_id]
    holds for [None] and for the empty string. *)
Definition bound_run (self : t) : option string :=
  match current_run_id self with
  | Some run_id => if String.eqb run_id "" then None else Some run_id
  | None => None
  end.

Definition emit_event (event_type : EventType.t) (message : string)
  (data : gmap string pyval) (error : option string) : M unit :=
  fun w =>
    match bound_run (fst w) with
    | None => (w, Ok tt)
    | Some run_id =>
        perform (Emit (AgentEvent.mk run_id (agent_id (fst w)) event_type
                         message data error)) w
    end.

(** [message or default] *)
Definition or_default (message default : string) : string :=
  if String.eqb message "" then default else message.

Definition emit_step (step_name message : string) : M unit :=
  emit_event EventType.STEP_STARTED (or_default message ("Starting " ++ step_name))
    (<["step" := PyStr step_name]> ∅) None.

(** [(current / total) * 100 if total > 0 else 0] *)
Definition percentage (current total : Z) : result pyval :=
  if (total >? 0)%Z then
    match py_truediv (PyInt current) (PyInt total) with
    | Ok q => Ok (PyFloat (q * 100)%Q)
    | Raise e => Raise e
    end
  else Ok (PyInt 0).

Definition emit_progress (current total : Z) (message : string) : M unit :=
  progress <~ lift_result (percentage current total) ;;
  emit_event EventType.PROGRESS
    (or_default message ("Progress: " ++ pretty current ++ "/" ++ pretty total))
    (<["current" := PyInt current]>
       (<["total" := PyInt total]> (<["progress" := progress]> ∅))) None.

Definition emit_warning (message : string) (data : gmap string pyval) : M unit :=
  emit_event EventType.WARNING message data None.

(** [execute(run_id, **kwargs)] around the subclass's [_execute]. *)
Definition execute (run_id : string) (_execute : M (gmap string pyval))
  : M (gmap string pyval) :=
  modify (fun w => (mk (agent_id (fst w)) true (Some run_id) (others (fst w)), snd w)) ;;
  try_finally
    (try_except
       (self <~ get ;;
        emit_event EventType.STARTED ("Starting " ++ agent_id (fst self)) ∅ None ;;
        result <~ _execute ;;
        self <~ get ;;
        emit_event EventType.COMPLETED ("Completed " ++ agent_id (fst self))
          (<["result" := PyStrOf (PyDict result)]> ∅) None ;;
        ret result)
       (fun e =>
          self <~ get ;;
          emit_event EventType.FAILED ("Failed " ++ agent_id (fst self)) ∅
            (Some (str_exn e)) ;;
          raise e))
    (fun w => (mk (agent_id (fst w)) false None (others (fst w)), snd w)).
End BaseAgent.

(** ** Truthiness and dictionary access *)

(** [bool(v)] *)
Definition truthy (v : pyval) : bool :=
  match v with
  | PyNone => false
  | PyBool b => b
  | PyInt n => negb (n =? 0)%Z
  | PyFloat q => negb (Qeq_bool q 0)
  | PyStr s => negb (String.eqb s "")
  | PyList l => match l with [] => false | _ => true end
  | PyDict d => negb (size d =? 0)%nat
  | PyStrOf (PyStr s) => negb (String.eqb s "")
  | PyStrOf _ => true
  end.

(** [d[key]] *)
Definition getitem (d : gmap string pyval) (key : string) : result pyval :=
  match d !! key with
  | Some v => Ok v
  | None => Raise (KeyError key)
  end.

Definition opt_str (o : option string) : pyval :=
  match o with
  | Some s => PyStr s
  | None => PyNone
  end.

(** ** Orchestrator base class: registry and queries *)

Module AgentOrchestrator.
(** [RunState.to_dict]; the two timestamps print through [isoformat]. *)
Definition to_dict (r : RunState.t) : gmap string pyval :=
  <["id" := PyStr (RunState.id r)]>
 (<["status" := PyStr (RunStatus.value (RunState.status r))]>
 (<["query" := PyStr (RunState.query r)]>
 (<["max_docs" := PyInt (RunState.max_docs r)]>
 (<["processed_docs" := RunState.processed_docs r]>
 (<["total_docs" := RunState.total_docs r]>
 (<["current_step" := RunState.current_step r]>
 (<["progress" := PyFloat (RunState.progress r)]>
 (<["error" := opt_str (RunState.error r)]>
 (<["finished" := PyBool (RunState.finished r)]>
 (<["created_at" := PyStrOf (PyInt (RunState.created_at r))]>
 (<["updated_at" := PyStrOf (PyInt (RunState.updated_at r))]>
 (<["result" := default PyNone (RunState.result r)]> ∅)))))))))))).

(** [AgentEvent.to_dict] *)
Definition event_to_dict (e : AgentEvent.t) : gmap string pyval :=
  <["run_id" := PyStr (AgentEvent.run_id e)]>
 (<["agent_id" := PyStr (AgentEvent.agent_id e)]>
 (<["event_type" := PyStr (EventType.value (AgentEvent.event_type e))]>
 (<["message" := PyStr (AgentEvent.message e)]>
 (<["data" := PyDict (AgentEvent.data e)]>
 (<["error" := opt_str (AgentEvent.error e)]> ∅))))).

(** [start_run], with the fresh identifier [run_id] drawn by [uuid4];
    the scheduled task is [_execute_run] below. *)
Definition start_run (run_id query : string) (max_docs now : Z)
  (runs : gmap string RunState.t) : gmap string RunState.t :=
  <[run_id := RunState.new run_id query max_docs now]> runs.

Definition get_run_status (runs : gmap string RunState.t) (run_id : string)
  : option (gmap string pyval) :=
  match runs !! run_id with
  | None => None
  | Some r => Some (to_dict r)
  end.

Definition get_run_events (runs : gmap string RunState.t) (run_id : string)
  : list pyval :=
  match runs !! run_id with
  | None => []
  | Some r => map (fun e => PyDict (event_to_dict e)) (RunState.events r)
  end.

(** [_execute_run], as the actions of the task, around the trace and the
    outcome of the subclass's [_run_pipeline]. *)
Definition _execute_run (pipeline : list act * result (gmap string pyval))
  : list act :=
  (SetRunning :: fst pipeline ++ [Finalize (snd pipeline)])%list.

(** The attribute writes of [_execute_run] on its run object. *)
Definition set_running (now : Z) (run_state : RunState.t) : RunState.t :=
  RunState.set_updated_at now (RunState.set_status RunStatus.RUNNING run_state).

Definition finalize (outcome : result (gmap string pyval)) (now : Z)
  (run_state : RunState.t) : RunState.t :=
  RunState.set_updated_at now
    match outcome with
    | Ok result =>
        RunState.set_progress 100
          (RunState.set_result (Some (PyDict result))
             (RunState.set_finished true
                (RunState.set_status RunStatus.SUCCEEDED run_state)))
    | Raise e =>
        RunState.set_error (Some (str_exn e))
          (RunState.set_finished true
             (RunState.set_status RunStatus.FAILED run_state))
    end.
End AgentOrchestrator.

(** ** Stage 1: document processing

    The file system is an oracle: what [_find_documents] ends with (the
    files, newest first, or the [OSError] that walking the directory or
    reading a modification time raises), and for each file what
    [_extract_content] does on it (a content dictionary, [None] for a blank
    file, or the exception it raises). *)

Module DocumentProcessor.
Record doc_file : Type := mk_doc {
  path : string;
  name : string;
  extracted : result (option (gmap string pyval))
}.

Record t : Type := mk { found : result (list doc_file) }.

(** [if content: processed_files.append(..); extracted_content.append(..)] *)
Definition collect (doc_path : doc_file) (content : option (gmap string pyval))
  (acc : list pyval * list pyval) : list pyval * list pyval :=
  match content with
  | Some d =>
      if truthy (PyDict d)
      then ((fst acc ++ [PyStr (path doc_path)])%list, (snd acc ++ [PyDict d])%list)
      else acc
  | None => acc
  end.

(** [for i, doc_path in enumerate(doc_files): ...] *)
Fixpoint process (total_docs i : Z) (doc_files : list doc_file)
  (acc : list pyval * list pyval) : BaseAgent.M (list pyval * list pyval) :=
  match doc_files with
  | [] => ret acc
  | doc_path :: rest =>
      BaseAgent.emit_progress i total_docs ("Processing " ++ name doc_path) ;;
      acc' <~ try_except
                (content <~ lift_result (extracted doc_path) ;;
                 let acc' := collect doc_path content acc in
                 BaseAgent.asyncio_sleep ;;
                 ret acc')
                (fun e =>
                   BaseAgent.emit_warning
                     ("Failed to process " ++ name doc_path ++ ": " ++ str_exn e) ∅ ;;
                   ret acc) ;;
      process total_docs (i + 1) rest acc'
  end.

Definition _execute (self : t) (query : string) (max_docs : Z)
  : BaseAgent.M (gmap string pyval) :=
  BaseAgent.emit_step "scanning" "Scanning document directory" ;;
  doc_files <~ lift_result (found self) ;;
  match doc_files with
  | [] =>
      BaseAgent.emit_warning "No documents found to process" ∅ ;;
      ret (<["processed_files" := PyList []]>
             (<["extracted_content" := PyList []]> ∅))
  | _ =>
      let doc_files :=
        if (max_docs >? 0)%Z then take (Z.to_nat max_docs) doc_files else doc_files in
      let total_docs := Z.of_nat (length doc_files) in
      BaseAgent.emit_event EventType.PROGRESS
        ("Found " ++ pretty total_docs ++ " documents to process")
        (<["total_docs" := PyInt total_docs]> ∅) None ;;
      acc <~ process total_docs 0 doc_files ([], []) ;;
      BaseAgent.emit_progress total_docs total_docs "Document processing complete" ;;
      ret (<["processed_files" := PyList (fst acc)]>
          (<["extracted_content" := PyList (snd acc)]>
          (<["total_processed" := PyInt (Z.of_nat (length (fst acc)))]>
          (<["total_found" := PyInt total_docs]> ∅))))
  end.
End DocumentProcessor.

(** ** Stage 2: content generation

    The template texts of [_generate_mock_section] are a parameter; the two
    provider calls are the stubs of the source. The prompt and the content
    summary only feed those stubs, which ignore them. *)

Module ContentGenerator.
Record t : Type := mk {
  api_key : option string;
  mock_text : string -> string -> string -> string
}.

(** [self.use_mock = not self.api_key] *)
Definition use_mock (self : t) : bool :=
  match api_key self with
  | None => true
  | Some k => String.eqb k ""
  end.

Definition lower_char (c : ascii) : ascii :=
  let n := nat_of_ascii c in
  if ((65 <=? n) && (n <=? 90))%nat then ascii_of_nat (n + 32) else c.

Fixpoint lower (s : string) : string :=
  match s with
  | EmptyString => EmptyString
  | String c rest => String (lower_char c) (lower rest)
  end.

(** [needle in hay] *)
Fixpoint contains (needle hay : string) : bool :=
  String.prefix needle hay
  || match hay with
     | EmptyString => false
     | String _ rest => contains needle rest
     end.

Definition sections : list (string * string) :=
  [("executive_summary", "Executive Summary");
   ("introduction", "Introduction and Background");
   ("project_description", "Project Description");
   ("environmental_impact", "Environmental Impact Assessment");
   ("mitigation_measures", "Mitigation Measures");
   ("monitoring_plan", "Monitoring and Follow-up Plan");
   ("conclusions", "Conclusions")].

Definition _generate_mock_section (self : t) (section_id section_title query : string)
  : BaseAgent.M string :=
  ret (mock_text self section_id section_title query).

Definition _call_anthropic_api : BaseAgent.M string :=
  BaseAgent.asyncio_sleep ;;
  ret "[Real Anthropic API content would be generated here]".

Definition _call_openrouter_api : BaseAgent.M string :=
  BaseAgent.asyncio_sleep ;;
  ret "[Real OpenRouter API content would be generated here]".

Definition _generate_llm_section (self : t) (section_id section_title query : string)
  : BaseAgent.M string :=
  try_except
    (match api_key self with
     | Some k =>
         if String.eqb k "" then _generate_mock_section self section_id section_title query
         else if contains "anthropic" (lower k) then _call_anthropic_api
         else _call_openrouter_api
     | None => _generate_mock_section self section_id section_title query
     end)
    (fun e =>
       BaseAgent.emit_warning ("LLM API call failed: " ++ str_exn e) ∅ ;;
       _generate_mock_section self section_id section_title query).

Definition section_entry (title content : string) (confidence : Q) : pyval :=
  PyDict (<["title" := PyStr title]>
         (<["content" := PyStr content]>
         (<["confidence" := PyFloat confidence]> ∅))).

(** [for i, (section_id, section_title) in enumerate(sections): ...] *)
Fixpoint generate (self : t) (query : string) (total i : Z)
  (todo : list (string * string)) (generated_sections : gmap string pyval)
  : BaseAgent.M (gmap string pyval) :=
  match todo with
  | [] => ret generated_sections
  | (section_id, section_title) :: rest =>
      BaseAgent.emit_progress i total ("Generating " ++ section_title) ;;
      generated_sections' <~
        try_except
          (section_content <~
             (if use_mock self
              then _generate_mock_section self section_id section_title query
              else _generate_llm_section self section_id section_title query) ;;
           let generated_sections' :=
             <[section_id := section_entry section_title section_content
                               (if use_mock self then 3 # 10 else 85 # 100)]>
               generated_sections in
           BaseAgent.asyncio_sleep ;;
           ret generated_sections')
          (fun e =>
             BaseAgent.emit_warning
               ("Failed to generate " ++ section_title ++ ": " ++ str_exn e) ∅ ;;
             ret (<[section_id := section_entry section_title
                                    ("[Error generating section: " ++ str_exn e ++ "]") 0]>
                    generated_sections)) ;;
      generate self query total (i + 1) rest generated_sections'
  end.

Definition _generate_basic_template (document_type query : string)
  : BaseAgent.M (gmap string pyval) :=
  let basic_sections : gmap string pyval :=
    <["executive_summary" :=
        section_entry "Resumen Ejecutivo"
          ("Resumen ejecutivo para el proyecto " ++ query) (2 # 10)]>
   (<["project_description" :=
        section_entry "Descripción del Proyecto"
          ("Descripción técnica del proyecto " ++ query) (2 # 10)]> ∅) in
  ret (<["sections" := PyDict basic_sections]>
      (<["document_type" := PyStr document_type]>
      (<["source_files" := PyInt 0]>
      (<["query" := PyStr query]>
      (<["using_mock" := PyBool true]> ∅))))).

(** [len(extracted_content)] *)
Definition source_count (extracted_content : pyval) : Z :=
  match extracted_content with
  | PyList l => Z.of_nat (length l)
  | _ => 0
  end.

Definition _execute (self : t) (extracted_content : pyval)
  (query document_type : string) : BaseAgent.M (gmap string pyval) :=
  BaseAgent.emit_step "analysis" "Analyzing source content" ;;
  if negb (truthy extracted_content) then
    BaseAgent.emit_warning "No content to analyze, generating basic template" ∅ ;;
    _generate_basic_template document_type query
  else
    BaseAgent.emit_step "generation" "Generating document sections" ;;
    let total := Z.of_nat (length sections) in
    generated_sections <~ generate self query total 0 sections ∅ ;;
    BaseAgent.emit_progress total total "Content generation complete" ;;
    ret (<["sections" := PyDict generated_sections]>
        (<["document_type" := PyStr document_type]>
        (<["source_files" := PyInt (source_count extracted_content)]>
        (<["query" := PyStr query]>
        (<["using_mock" := PyBool (use_mock self)]> ∅))))).
End ContentGenerator.

(** ** Stage 3: document assembly

    Rendering is a pair of text functions; writing the files is an oracle
    that returns the paths or raises. *)

Module DocumentAssembler.
Record t : Type := mk {
  markdown_text : pyval -> gmap string pyval -> string;
  html_text : pyval -> gmap string pyval -> string;
  saved : result (gmap string pyval);
  generated_date : string;
  generated_datetime : string
}.

(** [len(sections)] *)
Definition sections_count (sections : pyval) : Z :=
  match sections with
  | PyDict d => Z.of_nat (size d)
  | PyList l => Z.of_nat (length l)
  | _ => 0
  end.

Definition _generate_metadata (self : t) (query document_type : string)
  (generated_sections : gmap string pyval) : gmap string pyval :=
  <["title" := PyStr ("Declaración de Impacto Ambiental - " ++ query)]>
 (<["project_name" := PyStr query]>
 (<["document_type" := PyStr document_type]>
 (<["generated_date" := PyStr (generated_date self)]>
 (<["generated_datetime" := PyStr (generated_datetime self)]>
 (<["source_files" := default (PyInt 0) (generated_sections !! "source_files")]>
 (<["sections_count" :=
      PyInt (sections_count (default (PyDict ∅) (generated_sections !! "sections")))]>
 (<["using_mock" := default (PyBool false) (generated_sections !! "using_mock")]>
    ∅))))))).

Definition _create_markdown_document (self : t) (sections : pyval)
  (metadata : gmap string pyval) : BaseAgent.M string :=
  BaseAgent.asyncio_sleep ;; ret (markdown_text self sections metadata).

Definition _create_html_document (self : t) (sections : pyval)
  (metadata : gmap string pyval) : BaseAgent.M string :=
  BaseAgent.asyncio_sleep ;; ret (html_text self sections metadata).

Definition _save_documents (self : t) : BaseAgent.M (gmap string pyval) :=
  file_paths <~ lift_result (saved self) ;;
  BaseAgent.asyncio_sleep ;;
  ret file_paths.

Definition _execute (self : t) (generated_sections : gmap string pyval)
  (query document_type : string) : BaseAgent.M (gmap string pyval) :=
  BaseAgent.emit_step "assembly" "Assembling final document" ;;
  let sections := default (PyDict ∅) (generated_sections !! "sections") in
  if negb (truthy sections) then raise (ValueError "No sections provided for assembly")
  else
    let metadata := _generate_metadata self query document_type generated_sections in
    BaseAgent.emit_progress 1 4 "Creating markdown version" ;;
    markdown_content <~ _create_markdown_document self sections metadata ;;
    BaseAgent.emit_progress 2 4 "Creating HTML version" ;;
    html_content <~ _create_html_document self sections metadata ;;
    BaseAgent.emit_progress 3 4 "Saving documents" ;;
    file_paths <~ _save_documents self ;;
    BaseAgent.emit_progress 4 4 "Document assembly complete" ;;
    ret (<["markdown" := PyStr markdown_content]>
        (<["html" := PyStr html_content]>
        (<["files" := PyDict file_paths]>
        (<["metadata" := PyDict metadata]>
        (<["sections_count" := PyInt (sections_count sections)]>
        (<["document_type" := PyStr document_type]> ∅)))))).
End DocumentAssembler.

(** ** The orchestrator's bus subscriber *)

Module BESSOrchestrator.
(** The two later stages share one shape:
    [progress = max(progress, base + fraction * weight)], guarded by
    ["current" in data and "total" in data]. *)
Definition in_range_update (current total : option pyval) (base weight : Q)
  : SE RunState.t unit :=
  match current, total with
  | Some current, Some total =>
      stage_progress <~ lift_result (weighted_fraction current total weight) ;;
      modify (fun rs =>
        RunState.set_progress
          (pymax (RunState.progress rs) (base + stage_progress)%Q) rs)
  | _, _ => ret tt
  end.

(** The [if]/[elif] chain on the event's kind. *)
Definition update_for (event : AgentEvent.t) : SE RunState.t unit :=
  let data := AgentEvent.data event in
  match AgentEvent.event_type event with
  | EventType.STEP_STARTED =>
      modify (RunState.set_current_step
                (default (PyStr (AgentEvent.message event)) (data !! "step")))
  | EventType.PROGRESS =>
      if String.eqb (AgentEvent.agent_id event) "document_processor" then
        match data !! "current", data !! "total" with
        | Some current, Some total =>
            modify (RunState.set_processed_docs current) ;;
            modify (RunState.set_total_docs total) ;;
            doc_progress <~ lift_result (weighted_fraction current total 40) ;;
            modify (fun rs =>
              RunState.set_progress (pymax (RunState.progress rs) doc_progress) rs)
        | _, _ => ret tt
        end ;;
        match data !! "total_docs" with
        | Some n => modify (RunState.set_total_docs n)
        | None => ret tt
        end
      else if String.eqb (AgentEvent.agent_id event) "content_generator" then
        in_range_update (data !! "current") (data !! "total") 40 50
      else if String.eqb (AgentEvent.agent_id event) "document_assembler" then
        in_range_update (data !! "current") (data !! "total") 90 10
      else ret tt
  | EventType.WARNING => ret tt
  | EventType.ERROR => modify (RunState.set_error (AgentEvent.error event))
  | _ => ret tt
  end.

(** The body of [_handle_agent_event] once [self.runs[run_id]] is at hand. *)
Definition handle_on_run (now : Z) (event : AgentEvent.t) : SE RunState.t unit :=
  modify (RunState.events_append event) ;;
  update_for event ;;
  modify (RunState.set_updated_at now).

(** [_handle_agent_event]: look the run up, mutate the object in place. *)
Definition _handle_agent_event (now : Z) (event : AgentEvent.t)
  : SE (gmap string RunState.t) unit :=
  fun runs =>
    let run_id := AgentEvent.run_id event in
    match runs !! run_id with
    | None => (runs, Ok tt)
    | Some run_state =>
        let '(run_state', r) := handle_on_run now event run_state in
        (<[run_id := run_state']> runs, r)
    end.

(** The collaborators of the three stages. *)
Record t : Type := mk {
  doc_processor : DocumentProcessor.t;
  content_generator : ContentGenerator.t;
  doc_assembler : DocumentAssembler.t
}.

(** The [BaseAgent] fields of the three registered agents. *)
Record agents : Type := mk_agents {
  doc_processor_agent : BaseAgent.t;
  content_generator_agent : BaseAgent.t;
  doc_assembler_agent : BaseAgent.t
}.

Definition registered : agents :=
  mk_agents (BaseAgent.new "document_processor")
            (BaseAgent.new "content_generator")
            (BaseAgent.new "document_assembler").

(** Pipeline code: the three agents and the task's actions so far. *)
Definition P (A : Type) : Type := SE (agents * list act) A.

Definition on_doc_processor {A} (m : BaseAgent.M A) : P A :=
  fun w =>
    let '((self', bus'), r) := m (doc_processor_agent (fst w), snd w) in
    ((mk_agents self' (content_generator_agent (fst w)) (doc_assembler_agent (fst w)),
      bus'), r).

Definition on_content_generator {A} (m : BaseAgent.M A) : P A :=
  fun w =>
    let '((self', bus'), r) := m (content_generator_agent (fst w), snd w) in
    ((mk_agents (doc_processor_agent (fst w)) self' (doc_assembler_agent (fst w)),
      bus'), r).

Definition on_doc_assembler {A} (m : BaseAgent.M A) : P A :=
  fun w =>
    let '((self', bus'), r) := m (doc_assembler_agent (fst w), snd w) in
    ((mk_agents (doc_processor_agent (fst w)) (content_generator_agent (fst w)) self',
      bus'), r).

(** [run_state.current_step = label] *)
Definition set_current_step (label : string) : P unit :=
  modify (fun w => (fst w, (snd w ++ [SetCurrentStep label])%list)).

Definition document_type : string := "environmental_study_chile_dia_v1".

(** [len(v)] *)
Definition py_len (v : pyval) : result Z :=
  match v with
  | PyDict d => Ok (Z.of_nat (size d))
  | PyList l => Ok (Z.of_nat (length l))
  | PyStr s => Ok (Z.of_nat (String.length s))
  | _ => Raise (TypeError "object has no len()")
  end.

(** The dictionary literal [final_result], its subscripts in evaluation
    order. *)
Definition final_result (query : string)
  (doc_result content_result assembly_result : gmap string pyval)
  : P (gmap string pyval) :=
  files_found <~ lift_result (getitem doc_result "total_found") ;;
  files_processed <~ lift_result (getitem doc_result "total_processed") ;;
  processed_files <~ lift_result (getitem doc_result "processed_files") ;;
  sections <~ lift_result (getitem content_result "sections") ;;
  sections_generated <~ lift_result (py_len sections) ;;
  using_mock <~ lift_result (getitem content_result "using_mock") ;;
  sections <~ lift_result (getitem content_result "sections") ;;
  markdown <~ lift_result (getitem assembly_result "markdown") ;;
  html <~ lift_result (getitem assembly_result "html") ;;
  files <~ lift_result (getitem assembly_result "files") ;;
  metadata <~ lift_result (getitem assembly_result "metadata") ;;
  source_files_processed <~ lift_result (getitem doc_result "total_processed") ;;
  sections' <~ lift_result (getitem content_result "sections") ;;
  sections_generated' <~ lift_result (py_len sections') ;;
  output_files <~ lift_result (getitem assembly_result "files") ;;
  ret (<["pipeline_completed" := PyBool true]>
      (<["document_processing" :=
           PyDict (<["files_found" := files_found]>
                  (<["files_processed" := files_processed]>
                  (<["processed_files" := processed_files]> ∅)))]>
      (<["content_generation" :=
           PyDict (<["sections_generated" := PyInt sections_generated]>
                  (<["using_mock" := using_mock]>
                  (<["sections" := sections]> ∅)))]>
      (<["document_assembly" :=
           PyDict (<["markdown" := markdown]>
                  (<["html" := html]>
                  (<["files" := files]>
                  (<["metadata" := metadata]> ∅))))]>
      (<["summary" :=
           PyDict (<["query" := PyStr query]>
                  (<["document_type" := PyStr document_type]>
                  (<["source_files_processed" := source_files_processed]>
                  (<["sections_generated" := PyInt sections_generated']>
                  (<["output_files" := output_files]> ∅)))))]> ∅))))).

Definition _run_pipeline (self : t) (run_id : string) (run_state : RunState.t)
  : P (gmap string pyval) :=
  let query := RunState.query run_state in
  let max_docs := RunState.max_docs run_state in
  try_except
    (set_current_step "Processing source documents" ;;
     doc_result <~
       on_doc_processor
         (BaseAgent.execute run_id
            (DocumentProcessor._execute (doc_processor self) query max_docs)) ;;
     set_current_step "Generating document content" ;;
     extracted_content <~ lift_result (getitem doc_result "extracted_content") ;;
     content_result <~
       on_content_generator
         (BaseAgent.execute run_id
            (ContentGenerator._execute (content_generator self) extracted_content
               query document_type)) ;;
     set_current_step "Assembling final document" ;;
     assembly_result <~
       on_doc_assembler
         (BaseAgent.execute run_id
            (DocumentAssembler._execute (doc_assembler self) content_result
               query document_type)) ;;
     result <~ final_result query doc_result content_result assembly_result ;;
     set_current_step "Generation completed successfully" ;;
     ret result)
    (fun e =>
       set_current_step ("Failed: " ++ str_exn e) ;;
       raise e).

(** The trace and the outcome of the pipeline of one run. *)
Definition pipeline (self : t) (run_id : string) (run_state : RunState.t)
  : list act * result (gmap string pyval) :=
  let '((_, trace), outcome) := _run_pipeline self run_id run_state (registered, []) in
  (trace, outcome).

(** The task [start_run] creates for a run. *)
Definition task (self : t) (run_id query : string) (max_docs now : Z) : list act :=
  AgentOrchestrator._execute_run
    (pipeline self run_id (RunState.new run_id query max_docs now)).

(** The same on the agents as the run finds them, with what the other runs
    do to them meanwhile: [pipeline] and [task] are [pipeline_on] and
    [task_on] at [registered]. *)
Definition pipeline_on (agents0 : agents) (self : t) (run_id : string)
  (run_state : RunState.t) : list act * result (gmap string pyval) :=
  let '((_, trace), outcome) := _run_pipeline self run_id run_state (agents0, []) in
  (trace, outcome).

Definition task_on (agents0 : agents) (self : t) (run_id query : string)
  (max_docs now : Z) : list act :=
  AgentOrchestrator._execute_run
    (pipeline_on agents0 self run_id (RunState.new run_id query max_docs now)).
End BESSOrchestrator.


(** ** Run routes ([api/agent_routes.py]) *)

Module Routes.
(** [not status] for the optional dictionary of [get_run_status]. *)
Definition not_status (status : option (gmap string pyval)) : bool :=
  match status with
  | None => true
  | Some d => (size d =? 0)%nat
  end.

(** [status.get('finished')] *)
Definition status_get (status : option (gmap string pyval)) (key : string) : pyval :=
  match status with
  | Some d => default PyNone (d !! key)
  | None => PyNone
  end.

Definition get_run_status (run_id : string)
  : SE (gmap string RunState.t) (gmap string pyval) :=
  fun runs =>
    let status := AgentOrchestrator.get_run_status runs run_id in
    if not_status status then (runs, Raise (HTTPException 404 "Run not found"))
    else (runs, Ok (default ∅ status)).

Definition get_run_events (run_id : string)
  : SE (gmap string RunState.t) (gmap string pyval) :=
  fun runs =>
    let events := AgentOrchestrator.get_run_events runs run_id in
    (runs, Ok (<["run_id" := PyStr run_id]> (<["events" := PyList events]> ∅))).

Definition mark_canceled (run_state : RunState.t) : RunState.t :=
  RunState.set_error (Some "Canceled by user")
    (RunState.set_finished true
       (RunState.set_status RunStatus.CANCELED run_state)).

Definition cancel_run (run_id : string)
  : SE (gmap string RunState.t) (gmap string pyval) :=
  fun runs =>
    let status := AgentOrchestrator.get_run_status runs run_id in
    if not_status status then (runs, Raise (HTTPException 404 "Run not found"))
    else if truthy (status_get status "finished")
    then (runs, Raise (HTTPException 400 "Run already finished"))
    else
      match runs !! run_id with
      | None => (runs, Raise (KeyError run_id))
      | Some run_state =>
          (<[run_id := mark_canceled run_state]> runs,
           Ok (<["message" := PyStr "Run canceled"]>
                 (<["run_id" := PyStr run_id]> ∅)))
      end.
End Routes.

(** ** Scheduling

    One event loop runs the task of a run and serves the requests.
    [start_run] only schedules the task ([asyncio.create_task]), so a cancel
    request can be served before the task's first step; after that the task
    keeps the loop from one suspension point to the next, and a cancel
    request is served at a suspension point or after the task has ended. *)
Inductive op : Type :=
| Act (now : Z) (a : act)
| CancelRequest.

Definition yields (a : act) : bool :=
  match a with
  | Await | Finalize _ => true
  | _ => false
  end.

(** [timeline idle acts ops]: [ops] carries out [acts] in order, each at
    some clock reading, with cancel requests served where the task is idle:
    not yet started, suspended, or ended. The lifetime of a run is a
    [timeline true] of its task. *)
Inductive timeline : bool -> list act -> list op -> Prop :=
| timeline_end (suspended : bool) :
    timeline suspended [] []
| timeline_act (suspended : bool) (now : Z) (a : act) (acts : list act) (ops : list op) :
    timeline (yields a) acts ops ->
    timeline suspended (a :: acts) (Act now a :: ops)
| timeline_cancel (acts : list act) (ops : list op) :
    timeline true acts ops ->
    timeline true acts (CancelRequest :: ops).

(** The subscribers of the orchestrator's bus at clock reading [now]. *)
Definition subscribers (now : Z) : list (EventEmitter.callback (gmap string RunState.t)) :=
  [BESSOrchestrator._handle_agent_event now].

(** One action of the task of run [run_id] on the registry. *)
Definition run_act (run_id : string) (now : Z) (a : act)
  (runs : gmap string RunState.t) : gmap string RunState.t :=
  match a with
  | SetRunning => alter (AgentOrchestrator.set_running now) run_id runs
  | Emit event => fst (fst (EventEmitter.emit (subscribers now) event (runs, [])))
  | Await => runs
  | SetCurrentStep label => alter (RunState.set_current_step (PyStr label)) run_id runs
  | Finalize outcome => alter (AgentOrchestrator.finalize outcome now) run_id runs
  end.

Definition apply_op (run_id : string) (o : op)
  (runs : gmap string RunState.t) : gmap string RunState.t :=
  match o with
  | Act now a => run_act run_id now a runs
  | CancelRequest => fst (Routes.cancel_run run_id runs)
  end.

(** The registry after a sequence of operations on run [run_id]. *)
Definition run_ops (run_id : string) (ops : list op)
  (runs : gmap string RunState.t) : gmap string RunState.t :=
  fold_left (fun runs o => apply_op run_id o runs) ops runs.

(** A snapshot of a run's lifetime: [start_run] has stored the run and
    created its task, and the operations [pre] have taken place since. *)
Definition snapshot (run_id query : string) (max_docs now : Z)
  (runs : gmap string RunState.t) (pre : list op) : gmap string RunState.t :=
  run_ops run_id pre (AgentOrchestrator.start_run run_id query max_docs now runs).

(** ** The spec's progress aggregator *)




(** ** Definitions used by the statements *)

(** *** Delivery on the bus *)

(** Every subscriber in turn on the state its predecessors left, whether
    or not they raised. *)
Definition deliver {S} (subscribers : list (EventEmitter.callback S))
  (event : AgentEvent.t) (s : S) : S :=
  fold_left (fun s callback => fst (callback event s)) subscribers s.

(** The lines the logger receives for the callbacks that raise. *)
Fixpoint callback_errors {S} (subscribers : list (EventEmitter.callback S))
  (event : AgentEvent.t) (s : S) : list string :=
  match subscribers with
  | [] => []
  | callback :: rest =>
      match callback event s with
      | (s', Ok _) => callback_errors rest event s'
      | (s', Raise e) =>
          ("Event callback error: " ++ str_exn e) :: callback_errors rest event s'
      end
  end.

(** *** Events of a stage invocation *)

(** Events published so far, by kind. *)
Definition is_event (ty : EventType.t) (a : act) : bool :=
  match a with
  | Emit e => bool_decide (AgentEvent.event_type e = ty)
  | _ => false
  end.

Definition count_events (ty : EventType.t) (bus : list act) : nat :=
  length (filter (fun a => is_event ty a = true) bus).

(** The lifecycle events (Started, Completed, Failed) are [execute]'s; the
    rest is the work's own. *)
Definition lifecycle (ty : EventType.t) : bool :=
  match ty with
  | EventType.STARTED | EventType.COMPLETED | EventType.FAILED => true
  | _ => false
  end.

Definition own_act (a : act) : bool :=
  match a with
  | Await => true
  | Emit e => negb (lifecycle (AgentEvent.event_type e))
  | _ => false
  end.

(** The stage contract, for one invocation. Started on the agent [self], as
    [execute] has bound it, with [bus] published so far, the work leaves
    the agent as it is: it does not write the agent's fields, and no other
    run enters or leaves [execute] on the agent while the work is
    suspended. What it publishes, [new], holds no lifecycle event. It ends
    with [r]. *)
Definition keeps_contract {A} (work : BaseAgent.M A) (self : BaseAgent.t)
  (bus new : list act) (r : result A) : Prop :=
  work (self, bus) = ((self, (bus ++ new)%list), r)
  /\ Forall (fun a => own_act a = true) new.

(** No other run is on the agent. *)
Definition alone (self : BaseAgent.t) : Prop := BaseAgent.others self = [].

(** The two lifecycle events [execute] publishes around the work. *)
Definition started_event (run_id agent_id : string) : AgentEvent.t :=
  AgentEvent.mk run_id agent_id EventType.STARTED ("Starting " ++ agent_id) ∅ None.

Definition terminal_event (run_id agent_id : string)
  (r : result (gmap string pyval)) : AgentEvent.t :=
  match r with
  | Ok result =>
      AgentEvent.mk run_id agent_id EventType.COMPLETED ("Completed " ++ agent_id)
        (<["result" := PyStrOf (PyDict result)]> ∅) None
  | Raise e =>
      AgentEvent.mk run_id agent_id EventType.FAILED ("Failed " ++ agent_id) ∅
        (Some (str_exn e))
  end.

(** The agent as [execute] binds it to a run, and as it leaves it. *)
Definition bound_to (run_id : string) (self : BaseAgent.t) : BaseAgent.t :=
  BaseAgent.mk (BaseAgent.agent_id self) true (Some run_id) (BaseAgent.others self).

Definition released (self : BaseAgent.t) : BaseAgent.t :=
  BaseAgent.mk (BaseAgent.agent_id self) false None (BaseAgent.others self).

(** *** What the stages and the pipeline publish *)

(** What a stage's own work puts on the bus through the helper operations
    [emit_step], [emit_progress] and [emit_warning]: step, warning and
    progress events, the latter with [0 <= current <= total] when they
    carry both fields, and suspension points. *)
Definition bounded_progress (e : AgentEvent.t) : bool :=
  match AgentEvent.data e !! "current", AgentEvent.data e !! "total" with
  | Some (PyInt current), Some (PyInt total) =>
      (0 <=? current)%Z && (current <=? total)%Z
  | Some _, Some _ => false
  | _, _ => true
  end.

Definition helper_kind (ty : EventType.t) : bool :=
  match ty with
  | EventType.STEP_STARTED | EventType.PROGRESS | EventType.WARNING => true
  | _ => false
  end.

Definition work_act (a : act) : bool :=
  match a with
  | Await => true
  | Emit e => helper_kind (AgentEvent.event_type e) && bounded_progress e
  | _ => false
  end.

(** The work of the three stages: on an agent that is the run's alone it
    leaves the agent's own fields as they are and puts only [work_act]s on
    the bus. *)
Definition stage_work {A} (m : BaseAgent.M A) : Prop :=
  forall self bus, alone self ->
    exists new r,
      m (self, bus) = ((self, (bus ++ new)%list), r)
      /\ Forall (fun a => work_act a = true) new.

(** What the pipeline of a run does between [SetRunning] and [Finalize]. *)
Definition benign (a : act) : bool :=
  match a with
  | Emit e =>
      negb (bool_decide (AgentEvent.event_type e = EventType.ERROR))
      && bounded_progress e
  | Await | SetCurrentStep _ => true
  | SetRunning | Finalize _ => false
  end.

Definition alone_agents (s : BESSOrchestrator.agents) : Prop :=
  alone (BESSOrchestrator.doc_processor_agent s)
  /\ alone (BESSOrchestrator.content_generator_agent s)
  /\ alone (BESSOrchestrator.doc_assembler_agent s).

(** Pipeline code, on agents that are the run's alone, puts only [benign]
    actions on the bus. *)
Definition traces {A} (m : BESSOrchestrator.P A) : Prop :=
  forall s bus, alone_agents s ->
    exists s' new r,
      m (s, bus) = ((s', (bus ++ new)%list), r)
      /\ alone_agents s'
      /\ Forall (fun a => benign a = true) new.



(** *** The run object along its lifetime *)

Definition terminal (st : RunStatus.t) : bool :=
  match st with
  | RunStatus.SUCCEEDED | RunStatus.FAILED | RunStatus.CANCELED => true
  | _ => false
  end.

(** The task's finalization is among the operations. *)
Fixpoint finalized (ops : list op) : bool :=
  match ops with
  | [] => false
  | Act _ (Finalize _) :: _ => true
  | _ :: rest => finalized rest
  end.

(** A cancel request has been accepted: one was served before the task's
    finalization. *)
Fixpoint cancel_accepted (ops : list op) : bool :=
  match ops with
  | [] => false
  | CancelRequest :: _ => true
  | Act _ (Finalize _) :: _ => false
  | Act _ _ :: rest => cancel_accepted rest
  end.

(** The effect of an operation of run [run_id] on its own run object. *)
Definition rs_act (run_id : string) (now : Z) (a : act) (rs : RunState.t) : RunState.t :=
  match a with
  | SetRunning => AgentOrchestrator.set_running now rs
  | Emit event =>
      if String.eqb (AgentEvent.run_id event) run_id
      then fst (BESSOrchestrator.handle_on_run now event rs)
      else rs
  | Await => rs
  | SetCurrentStep label => RunState.set_current_step (PyStr label) rs
  | Finalize outcome => AgentOrchestrator.finalize outcome now rs
  end.

Definition rs_op (run_id : string) (o : op) (rs : RunState.t) : RunState.t :=
  match o with
  | Act now a => rs_act run_id now a rs
  | CancelRequest => if RunState.finished rs then rs else Routes.mark_canceled rs
  end.

Definition rs_ops (run_id : string) (ops : list op) (rs : RunState.t) : RunState.t :=
  fold_left (fun rs o => rs_op run_id o rs) ops rs.

(** The task writes the run's status when it starts and when it ends. *)
Definition writes_status (o : op) : bool :=
  match o with
  | Act _ SetRunning | Act _ (Finalize _) => true
  | _ => false
  end.

(** The task has written the status of a canceled run: a cancel request
    was accepted, and the task has since set the run Running or finalized
    it. *)
Fixpoint overwritten (ops : list op) : bool :=
  match ops with
  | [] => false
  | CancelRequest :: rest => existsb writes_status rest
  | Act _ (Finalize _) :: _ => false
  | Act _ _ :: rest => overwritten rest
  end.

(** The phases of a run's task: created, under way, ended. *)
Inductive phase : Set := Created | Underway | Ended.

(** The actions still ahead of a task in each phase: all of them, the rest
    of the pipeline's trace and the finalization, nothing. *)
Definition ahead (outcome : result (gmap string pyval)) (ph : phase)
  (acts : list act) : Prop :=
  match ph with
  | Created =>
      exists trace,
        acts = (SetRunning :: trace ++ [Finalize outcome])%list
        /\ Forall (fun a => benign a = true) trace
  | Underway =>
      exists trace,
        acts = (trace ++ [Finalize outcome])%list
        /\ Forall (fun a => benign a = true) trace
  | Ended => acts = []
  end.

(** How the run object stands in each phase of its task, by whether a
    cancel request has been accepted and whether the task has written the
    status since. *)
Definition discipline (ph : phase) (pre : list op) (rs : RunState.t) : Prop :=
  let canceled :=
    RunState.finished rs = true
    /\ RunState.error rs = Some "Canceled by user"
    /\ RunState.result rs = None in
  let untouched :=
    RunState.finished rs = false
    /\ RunState.error rs = None
    /\ RunState.result rs = None in
  match ph with
  | Created =>
      finalized pre = false
      /\ overwritten pre = false
      /\ ((cancel_accepted pre = false
           /\ RunState.status rs = RunStatus.QUEUED /\ untouched)
          \/ (cancel_accepted pre = true
              /\ RunState.status rs = RunStatus.CANCELED /\ canceled))
  | Underway =>
      finalized pre = false
      /\ ((cancel_accepted pre = false /\ overwritten pre = false
           /\ RunState.status rs = RunStatus.RUNNING /\ untouched)
          \/ (cancel_accepted pre = true /\ overwritten pre = false
              /\ RunState.status rs = RunStatus.CANCELED /\ canceled)
          \/ (cancel_accepted pre = true /\ overwritten pre = true
              /\ RunState.status rs = RunStatus.RUNNING /\ canceled))
  | Ended =>
      finalized pre = true
      /\ overwritten pre = cancel_accepted pre
      /\ RunState.finished rs = true
      /\ ((RunState.status rs = RunStatus.SUCCEEDED
           /\ is_Some (RunState.result rs)
           /\ (is_Some (RunState.error rs) <-> cancel_accepted pre = true))
          \/ (RunState.status rs = RunStatus.FAILED
              /\ RunState.result rs = None
              /\ is_Some (RunState.error rs)))
  end.

(** ** Sample data for the worked examples *)

Definition sample_progress (agent_id : string) (current total : Z) : AgentEvent.t :=
  AgentEvent.mk "run-1" agent_id EventType.PROGRESS "Progress"
    (<["current" := PyInt current]> (<["total" := PyInt total]> ∅)) None.

Definition sample_run : RunState.t :=
  RunState.set_status RunStatus.RUNNING (RunState.new "run-1" "BESS" 10 0).

Definition sample_runs : gmap string RunState.t := <["run-1" := sample_run]> ∅.

(** Two subscribers that note their call; the first one then raises. *)
Definition noting (tag : string) (fails : bool) : EventEmitter.callback (list string) :=
  fun event =>
    modify (fun calls => app calls [tag ++ ":" ++ AgentEvent.message event]) ;;
    if fails then raise (ValueError ("boom in " ++ tag)) else ret tt.

Definition sample_assembler : DocumentAssembler.t :=
  DocumentAssembler.mk (fun _ _ => "# document") (fun _ _ => "<html></html>")
    (Ok (<["markdown" := PyStr "documents/bess/document.md"]>
        (<["html" := PyStr "documents/bess/document.html"]> ∅)))
    "04-11-2026" "2026-11-04T10:00:00".

Definition sample_generator : ContentGenerator.t :=
  ContentGenerator.mk None (fun _ section_title _ => section_title).

(** A documents directory without any supported file. *)
Definition empty_directory : BESSOrchestrator.t :=
  BESSOrchestrator.mk (DocumentProcessor.mk (Ok [])) sample_generator sample_assembler.

Definition sample_doc : DocumentProcessor.doc_file :=
  DocumentProcessor.mk_doc "documents/site.txt" "site.txt"
    (Ok (Some (<["file_path" := PyStr "documents/site.txt"]>
              (<["file_name" := PyStr "site.txt"]>
              (<["file_type" := PyStr ".txt"]>
              (<["content" := PyStr "BESS site survey"]>
              (<["full_length" := PyInt 16]>
              (<["relevance_score" := PyFloat 1]> ∅)))))))).

(** A documents directory with one readable text file. *)
Definition one_document : BESSOrchestrator.t :=
  BESSOrchestrator.mk (DocumentProcessor.mk (Ok [sample_doc])) sample_generator
    sample_assembler.

(** The task runs without any request in between. *)
Definition uninterrupted (acts : list act) : list op := map (Act 0) acts.

(** One cancel request, served at the task's first suspension point. *)
Fixpoint canceled_at_first_await (acts : list act) : list op :=
  match acts with
  | [] => []
  | Await :: rest => Act 0 Await :: CancelRequest :: uninterrupted rest
  | a :: rest => Act 0 a :: canceled_at_first_await rest
  end.

(** The operations up to and including the first cancel request. *)
Fixpoint through_cancel (ops : list op) : list op :=
  match ops with
  | [] => []
  | CancelRequest :: _ => [CancelRequest]
  | o :: rest => o :: through_cancel rest
  end.

(** The operations after the first cancel request. *)
Fixpoint after_cancel (ops : list op) : list op :=
  match ops with
  | [] => []
  | CancelRequest :: rest => rest
  | _ :: rest => after_cancel rest
  end.

(** A run over [one_document], canceled while its first stage sleeps. *)
Definition canceled_run : list op :=
  canceled_at_first_await (BESSOrchestrator.task one_document "run-1" "BESS" 10 0).



(** A run over [empty_directory], left alone. *)
Definition empty_run : list op :=
  uninterrupted (BESSOrchestrator.task empty_directory "run-1" "BESS" 10 0).

(** ** Further queries and routes

    [BESSOrchestrator.get_run_summary], [EventEmitter.subscribe], and the
    routes [start_generation], [get_run_summary], [get_run_result] and
    [stream_run_progress] of [api/agent_routes.py]. *)

Module Summary.
(** [len([e for e in events if e.event_type == ty])] *)
Definition count_kind (ty : EventType.t) (events : list AgentEvent.t) : Z :=
  Z.of_nat (length (filter (fun e => AgentEvent.event_type e = ty) events)).

(** [len(set(e.agent_id for e in events))] *)
Definition agents_involved (events : list AgentEvent.t) : Z :=
  Z.of_nat (size (list_to_set (map AgentEvent.agent_id events) : gset string)).

Definition summary (events : list AgentEvent.t) : gmap string pyval :=
  <["total_events" := PyInt (Z.of_nat (length events))]>
 (<["warnings" := PyInt (count_kind EventType.WARNING events)]>
 (<["errors" := PyInt (count_kind EventType.ERROR events)]>
 (<["steps_completed" := PyInt (count_kind EventType.STEP_COMPLETED events)]>
 (<["agents_involved" := PyInt (agents_involved events)]> ∅)))).

(** [BESSOrchestrator.get_run_summary] *)
Definition get_run_summary (runs : gmap string RunState.t) (run_id : string)
  : option (gmap string pyval) :=
  match runs !! run_id with
  | None => None
  | Some run_state =>
      let base_status := AgentOrchestrator.to_dict run_state in
      let events := RunState.events run_state in
      Some (<["summary" := PyDict (summary events)]> base_status)
  end.
End Summary.

Module Subscription.
(** [EventEmitter.subscribe] *)
Definition subscribe {S} (callback : EventEmitter.callback S)
  (subscribers : list (EventEmitter.callback S)) : list (EventEmitter.callback S) :=
  (subscribers ++ [callback])%list.
End Subscription.

(** A frame of the server-sent event stream: [data: ..] alone, or
    [event: name] with its [data: ..]; the JSON text is kept as the value
    it encodes. *)
Inductive frame : Type :=
| Data (payload : pyval)
| Named (event : string) (payload : pyval).

Module RunRoutes.
(** The text an f-string puts for a value; only [str] and [None] can sit
    under the key ['error'] of a status dictionary. *)
Definition format_value (v : pyval) : string :=
  match v with
  | PyStr s => s
  | PyNone => "None"
  | PyBool true => "True"
  | PyBool false => "False"
  | PyInt n => pretty n
  | _ => "..."
  end.


(** The route [get_run_summary]. *)
Definition get_run_summary (run_id : string)
  : SE (gmap string RunState.t) (gmap string pyval) :=
  fun runs =>
    let summary := Summary.get_run_summary runs run_id in
    if Routes.not_status summary then (runs, Raise (HTTPException 404 "Run not found"))
    else (runs, Ok (default ∅ summary)).

Definition get_run_result (run_id : string)
  : SE (gmap string RunState.t) pyval :=
  fun runs =>
    let status := AgentOrchestrator.get_run_status runs run_id in
    if Routes.not_status status then (runs, Raise (HTTPException 404 "Run not found"))
    else if negb (truthy (Routes.status_get status "finished"))
    then (runs, Raise (HTTPException 400 "Run not yet completed"))
    else
      match Routes.status_get status "status" with
      | PyStr "succeeded" =>
          let result := Routes.status_get status "result" in
          if negb (truthy result)
          then (runs, Raise (HTTPException 404 "No result available"))
          else (runs, Ok result)
      | _ =>
          (runs, Raise (HTTPException 400
                          ("Run failed: "
                           ++ format_value (Routes.status_get status "error"))))
      end.

(** The [while True] loop of [event_generator]: one round per wake-up, on
    the registry as it stands then; the rounds end with the wake-ups (the
    consumer has gone) or at a [break]. *)
Fixpoint poll (run_id : string) (last_event_count : nat)
  (wakeups : list (gmap string RunState.t)) : list frame :=
  match wakeups with
  | [] => []
  | runs :: rest =>
      let current_status := AgentOrchestrator.get_run_status runs run_id in
      if Routes.not_status current_status then []
      else
        let current_events := AgentOrchestrator.get_run_events runs run_id in
        let grown := (last_event_count <? length current_events)%nat in
        let new_events := if grown then drop last_event_count current_events else [] in
        let last_event_count' :=
          if grown then length current_events else last_event_count in
        (map (Named "agent_event") new_events
         ++ [Named "status_update" (PyDict (default ∅ current_status))]
         ++ if truthy (Routes.status_get current_status "finished") then []
            else poll run_id last_event_count' rest)%list
  end.

(** [event_generator] of [stream_run_progress]. *)
Definition event_generator (run_id : string) (runs : gmap string RunState.t)
  (wakeups : list (gmap string RunState.t)) : list frame :=
  let status := AgentOrchestrator.get_run_status runs run_id in
  if Routes.not_status status
  then [Data (PyDict (<["error" := PyStr "Run not found"]> ∅))]
  else
    Data (PyDict (default ∅ status))
    :: if truthy (Routes.status_get status "finished") then []
       else poll run_id (length (AgentOrchestrator.get_run_events runs run_id)) wakeups.
End RunRoutes.

(** [ContentGenerator.__init__] after [super().__init__]: the warning it
    tries to publish when no API key is set. *)
Module ContentGeneratorSetup.
Definition __init__ (self : ContentGenerator.t) : BaseAgent.M unit :=
  if ContentGenerator.use_mock self
  then BaseAgent.emit_warning "No API key found, using mock responses" ∅
  else ret tt.
End ContentGeneratorSetup.

(** A progress event whose [total] is a text. *)
Definition sample_bad_progress : AgentEvent.t :=
  AgentEvent.mk "run-1" "document_processor" EventType.PROGRESS "Progress"
    (<["current" := PyInt 1]> (<["total" := PyStr "two"]> ∅)) None.

(** ** Definitions used by the further statements *)

(** Code that ends with the result [r] from every state. *)
Definition returns {S A} (m : SE (S * list act) A) (r : result A) : Prop :=
  forall s bus, exists s' bus', m (s, bus) = ((s', bus'), r).

(** The files document discovery returned; none when it raised. *)
Definition discovered (self : DocumentProcessor.t) : list DocumentProcessor.doc_file :=
  match DocumentProcessor.found self with
  | Ok doc_files => doc_files
  | Raise _ => []
  end.

(** The files the document processor works on: all it found, or the first
    [max_docs] of them when that limit is positive. *)
Definition taken (self : DocumentProcessor.t) (max_docs : Z)
  : list DocumentProcessor.doc_file :=
  if (max_docs >? 0)%Z
  then take (Z.to_nat max_docs) (discovered self)
  else discovered self.

(** The content a file contributes, if its extraction returns one. *)
Definition readable (d : DocumentProcessor.doc_file) : option (gmap string pyval) :=
  match DocumentProcessor.extracted d with
  | Ok (Some c) => if truthy (PyDict c) then Some c else None
  | _ => None
  end.

Definition unreadable (d : DocumentProcessor.doc_file) : bool :=
  match DocumentProcessor.extracted d with
  | Raise _ => true
  | Ok _ => false
  end.

Definition files_of (docs : list DocumentProcessor.doc_file) : list pyval :=
  map (fun d => PyStr (DocumentProcessor.path d))
    (filter (fun d => is_Some (readable d)) docs).

Definition contents_of (docs : list DocumentProcessor.doc_file) : list pyval :=
  map PyDict (omap readable docs).

(** The text the content generator produces for a section: the template
    text without a key, the stub answer of the provider the key names
    otherwise. *)
Definition section_text (self : ContentGenerator.t)
  (section_id section_title query : string) : string :=
  match ContentGenerator.api_key self with
  | Some k =>
      if String.eqb k ""
      then ContentGenerator.mock_text self section_id section_title query
      else if ContentGenerator.contains "anthropic" (ContentGenerator.lower k)
      then "[Real Anthropic API content would be generated here]"
      else "[Real OpenRouter API content would be generated here]"
  | None => ContentGenerator.mock_text self section_id section_title query
  end.

Definition section_confidence (self : ContentGenerator.t) : Q :=
  if ContentGenerator.use_mock self then 3 # 10 else 85 # 100.

(** The sections dictionary the generation loop builds over [todo]. *)
Definition generated (self : ContentGenerator.t) (query : string)
  (todo : list (string * string)) (acc : gmap string pyval) : gmap string pyval :=
  fold_left
    (fun acc s =>
       <[fst s := ContentGenerator.section_entry (snd s)
                    (section_text self (fst s) (snd s) query)
                    (section_confidence self)]> acc)
    todo acc.

(** The outcome of a run's pipeline. *)
Definition outcome_of (self : BESSOrchestrator.t) (run_id query : string)
  (max_docs now : Z) : result (gmap string pyval) :=
  snd (BESSOrchestrator.pipeline self run_id (RunState.new run_id query max_docs now)).

(** The events among the operations, in order. *)
Definition emitted (ops : list op) : list AgentEvent.t :=
  omap (fun o => match o with Act _ (Emit e) => Some e | _ => None end) ops.

(** The kinds of event the agents publish. *)
Definition published_kind (ty : EventType.t) : bool :=
  helper_kind ty || lifecycle ty.

(** An event as the agent [self] tags it while bound to a run. *)
Definition tagged (self : BaseAgent.t) (a : act) : bool :=
  match a with
  | Emit e =>
      bool_decide (BaseAgent.bound_run self = Some (AgentEvent.run_id e))
      && String.eqb (AgentEvent.agent_id e) (BaseAgent.agent_id self)
      && published_kind (AgentEvent.event_type e)
  | Await => true
  | _ => false
  end.

Definition tagged_work {A} (m : BaseAgent.M A) : Prop :=
  forall self bus, alone self ->
    exists new r,
      m (self, bus) = ((self, (bus ++ new)%list), r)
      /\ Forall (fun a => tagged self a = true) new.

(** The identifiers under which the three stages are registered. *)
Definition stage_ids : list string :=
  ["document_processor"; "content_generator"; "document_assembler"].

Definition named (s : BESSOrchestrator.agents) : Prop :=
  BaseAgent.agent_id (BESSOrchestrator.doc_processor_agent s) = "document_processor"
  /\ BaseAgent.agent_id (BESSOrchestrator.content_generator_agent s) = "content_generator"
  /\ BaseAgent.agent_id (BESSOrchestrator.doc_assembler_agent s) = "document_assembler".

(** An event of run [run_id], published by one of its three stages. *)
Definition of_run (run_id : string) (e : AgentEvent.t) : bool :=
  String.eqb (AgentEvent.run_id e) run_id
  && bool_decide (AgentEvent.agent_id e ∈ stage_ids)
  && published_kind (AgentEvent.event_type e).

Definition act_of_run (run_id : string) (a : act) : bool :=
  match a with
  | Emit e => of_run run_id e
  | _ => true
  end.

Definition run_traces {A} (run_id : string) (m : BESSOrchestrator.P A) : Prop :=
  forall s bus, named s -> alone_agents s ->
    exists s' new r,
      m (s, bus) = ((s', (bus ++ new)%list), r)
      /\ named s' /\ alone_agents s'
      /\ Forall (fun a => act_of_run run_id a = true) new.

(** The payloads of the [agent_event] frames of a stream, in order. *)
Definition relayed (frames : list frame) : list pyval :=
  omap (fun f => match f with
                 | Named "agent_event" payload => Some payload
                 | _ => None
                 end) frames.

(** The status dictionaries of the [status_update] frames of a stream. *)
Definition updates (frames : list frame) : list pyval :=
  omap (fun f => match f with
                 | Named "status_update" payload => Some payload
                 | _ => None
                 end) frames.

(** The registry keeps the run and only appends to its event log: each
    wake-up finds a log that extends the one seen before. *)
Fixpoint growing (run_id : string) (log : list pyval)
  (wakeups : list (gmap string RunState.t)) : Prop :=
  match wakeups with
  | [] => True
  | runs :: rest =>
      is_Some (runs !! run_id)
      /\ log `prefix_of` AgentOrchestrator.get_run_events runs run_id
      /\ growing run_id (AgentOrchestrator.get_run_events runs run_id) rest
  end.

(** The wake-ups the stream gets to: up to the first that finds the run
    finished. *)
Fixpoint polled (run_id : string) (wakeups : list (gmap string RunState.t))
  : list (gmap string RunState.t) :=
  match wakeups with
  | [] => []
  | runs :: rest =>
      runs :: match runs !! run_id with
              | Some rs => if RunState.finished rs then [] else polled run_id rest
              | None => []
              end
  end.

(** *** What the stages return *)

(** The dictionary stage 1 returns when discovery returns. *)
Definition doc_result (self : DocumentProcessor.t) (max_docs : Z) : gmap string pyval :=
  match discovered self with
  | [] => <["processed_files" := PyList []]> (<["extracted_content" := PyList []]> ∅)
  | _ =>
      <["processed_files" := PyList (files_of (taken self max_docs))]>
     (<["extracted_content" := PyList (contents_of (taken self max_docs))]>
     (<["total_processed" := PyInt (Z.of_nat (length (files_of (taken self max_docs))))]>
     (<["total_found" := PyInt (Z.of_nat (length (taken self max_docs)))]> ∅)))
  end.

(** The dictionary stage 2 returns. *)
Definition content_result (self : ContentGenerator.t) (extracted_content : pyval)
  (query document_type : string) : gmap string pyval :=
  if truthy extracted_content
  then <["sections" := PyDict (generated self query ContentGenerator.sections ∅)]>
      (<["document_type" := PyStr document_type]>
      (<["source_files" := PyInt (ContentGenerator.source_count extracted_content)]>
      (<["query" := PyStr query]>
      (<["using_mock" := PyBool (ContentGenerator.use_mock self)]> ∅))))
  else <["sections" :=
          PyDict (<["executive_summary" :=
                     ContentGenerator.section_entry "Resumen Ejecutivo"
                       ("Resumen ejecutivo para el proyecto " ++ query) (2 # 10)]>
                 (<["project_description" :=
                     ContentGenerator.section_entry "Descripción del Proyecto"
                       ("Descripción técnica del proyecto " ++ query) (2 # 10)]> ∅))]>
      (<["document_type" := PyStr document_type]>
      (<["source_files" := PyInt 0]>
      (<["query" := PyStr query]>
      (<["using_mock" := PyBool true]> ∅)))).

(** What stage 3 ends with. *)
Definition assembled (self : DocumentAssembler.t) (generated_sections : gmap string pyval)
  (query document_type : string) : result (gmap string pyval) :=
  let sections := default (PyDict ∅) (generated_sections !! "sections") in
  if truthy sections then
    match DocumentAssembler.saved self with
    | Ok file_paths =>
        let metadata :=
          DocumentAssembler._generate_metadata self query document_type
            generated_sections in
        Ok (<["markdown" :=
                PyStr (DocumentAssembler.markdown_text self sections metadata)]>
           (<["html" := PyStr (DocumentAssembler.html_text self sections metadata)]>
           (<["files" := PyDict file_paths]>
           (<["metadata" := PyDict metadata]>
           (<["sections_count" := PyInt (DocumentAssembler.sections_count sections)]>
           (<["document_type" := PyStr document_type]> ∅))))))
    | Raise e => Raise e
    end
  else Raise (ValueError "No sections provided for assembly").

(** What the pipeline of a run ends with. *)
Definition pipeline_value (self : BESSOrchestrator.t) (query : string) (max_docs : Z)
  : result (gmap string pyval) :=
  let d := doc_result (BESSOrchestrator.doc_processor self) max_docs in
  let extracted_content :=
    PyList (contents_of (taken (BESSOrchestrator.doc_processor self) max_docs)) in
  let c :=
    content_result (BESSOrchestrator.content_generator self) extracted_content query
      BESSOrchestrator.document_type in
  match DocumentProcessor.found (BESSOrchestrator.doc_processor self) with
  | Raise e => Raise e
  | Ok _ =>
      match assembled (BESSOrchestrator.doc_assembler self) c query
              BESSOrchestrator.document_type with
      | Ok a =>
          snd (BESSOrchestrator.final_result query d c a
                 (BESSOrchestrator.registered, []))
      | Raise e => Raise e
      end
  end.

(** An operation of a run's lifetime whose events, if any, belong to the
    run. *)
Definition op_of_run (run_id : string) (o : op) : Prop :=
  match o with
  | Act _ a => act_of_run run_id a = true
  | CancelRequest => True
  end.

(** The log a stream has caught up with after its wake-ups: the one of the
    last wake-up it got to, or the one it started from. *)
Definition caught_up (run_id : string) (log : list pyval)
  (wakeups : list (gmap string RunState.t)) : list pyval :=
  match last (polled run_id wakeups) with
  | Some runs => AgentOrchestrator.get_run_events runs run_id
  | None => log
  end.

(** Two wake-ups of a stream on [sample_runs]: after a progress event, and
    after the run has succeeded. *)
Definition sample_wakeups : list (gmap string RunState.t) :=
  let first :=
    run_ops "run-1" [Act 1 (Emit (sample_progress "document_processor" 1 2))]
      sample_runs in
  [first; run_ops "run-1" [Act 2 (Finalize (Ok ∅))] first].

(** A file whose extraction raises. *)
Definition sample_broken_doc : DocumentProcessor.doc_file :=
  DocumentProcessor.mk_doc "documents/scan.pdf" "scan.pdf"
    (Raise (Exception "Failed to extract from scan.pdf: EOF marker not found")).

(** ** The content summary ([ContentGenerator._summarize_content])

    Stage 2 summarizes the first five items of the extracted content before
    it generates anything. The text only feeds the provider stubs, which
    ignore it, so it is kept as the values it is formatted from; what
    matters is whether building it raises. *)

Module ContentSummary.
(** [item[key]] for a text key. *)
Definition item_get (item : pyval) (key : string) : result pyval :=
  match item with
  | PyDict d => getitem d key
  | PyList _ => Raise (TypeError "list indices must be integers or slices, not str")
  | PyStr _ | PyStrOf _ => Raise (TypeError "string indices must be integers, not 'str'")
  | _ => Raise (TypeError "object is not subscriptable")
  end.

(** Whether [v[:500]] can be taken; slicing a dictionary raises
    [TypeError] up to Python 3.11. *)
Definition check_slice (v : pyval) : result unit :=
  match v with
  | PyStr _ | PyList _ | PyStrOf _ => Ok tt
  | PyDict _ => Raise (TypeError "unhashable type: 'slice'")
  | _ => Raise (TypeError "object is not subscriptable")
  end.

(** [f"From {item['file_name']} ({item['file_type']}): {item['content'][:500]}..."] *)
Definition summarize_item (item : pyval) : result pyval :=
  match item_get item "file_name" with
  | Raise e => Raise e
  | Ok file_name =>
      match item_get item "file_type" with
      | Raise e => Raise e
      | Ok file_type =>
          match item_get item "content" with
          | Raise e => Raise e
          | Ok content =>
              match check_slice content with
              | Raise e => Raise e
              | Ok _ => Ok (PyStrOf (PyList [file_name; file_type; content]))
              end
          end
      end
  end.

(** [for item in ..: summary_parts.append(..)] *)
Fixpoint summarize_items (items : list pyval) : result (list pyval) :=
  match items with
  | [] => Ok []
  | item :: rest =>
      match summarize_item item with
      | Raise e => Raise e
      | Ok part =>
          match summarize_items rest with
          | Raise e => Raise e
          | Ok parts => Ok (part :: parts)
          end
      end
  end.

Definition _summarize_content (extracted_content : list pyval) : result pyval :=
  match summarize_items (take 5 extracted_content) with
  | Raise e => Raise e
  | Ok summary_parts => Ok (PyStrOf (PyList summary_parts))
  end.
End ContentSummary.

(** [ContentGenerator._execute] on a list of extracted contents, with the
    summary step in its place. *)
Module ContentGeneration.
Definition _execute (self : ContentGenerator.t) (extracted_content : list pyval)
  (query document_type : string) : BaseAgent.M (gmap string pyval) :=
  BaseAgent.emit_step "analysis" "Analyzing source content" ;;
  match extracted_content with
  | [] =>
      BaseAgent.emit_warning "No content to analyze, generating basic template" ∅ ;;
      ContentGenerator._generate_basic_template document_type query
  | _ =>
      content_summary <~
        lift_result (ContentSummary._summarize_content extracted_content) ;;
      BaseAgent.emit_step "generation" "Generating document sections" ;;
      let total := Z.of_nat (length ContentGenerator.sections) in
      generated_sections <~
        ContentGenerator.generate self query total 0 ContentGenerator.sections ∅ ;;
      BaseAgent.emit_progress total total "Content generation complete" ;;
      ret (<["sections" := PyDict generated_sections]>
          (<["document_type" := PyStr document_type]>
          (<["source_files" := PyInt (Z.of_nat (length extracted_content))]>
          (<["query" := PyStr query]>
          (<["using_mock" := PyBool (ContentGenerator.use_mock self)]> ∅)))))
  end.
End ContentGeneration.

(** An extracted content as [_extract_content] returns it, as far as the
    summary reads it: a dictionary with a file name, a file type and a
    content that can be sliced. *)
Definition summarizable (item : pyval) : bool :=
  match item with
  | PyDict d =>
      match d !! "file_name", d !! "file_type", d !! "content" with
      | Some _, Some _, Some (PyStr _ | PyList _ | PyStrOf _) => true
      | _, _, _ => false
      end
  | _ => false
  end.

(** A section as the renderers read it: a dictionary with a text title and
    a text content. *)
Definition renderable (section : pyval) : bool :=
  match section with
  | PyDict d =>
      match d !! "title", d !! "content" with
      | Some (PyStr _), Some (PyStr _) => true
      | _, _ => false
      end
  | _ => false
  end.

(** The input of stage 3 has no sections, or empty ones, or a dictionary of
    sections the renderers can read. *)
Definition sections_ok (generated_sections : gmap string pyval) : bool :=
  match generated_sections !! "sections" with
  | None => true
  | Some (PyDict d) => forallb (fun kv => renderable (snd kv)) (map_to_list d)
  | Some v => negb (truthy v)
  end.

(** The exceptions of a failed subscript. *)
Definition lookup_error (e : exn) : bool :=
  match e with
  | KeyError _ | TypeError _ => true
  | _ => false
  end.

(** * Properties *)

(** ** Helper facts about the monad and the payload arithmetic *)


Lemma pymax_ge_l (a b : Q) : (a <= pymax a b)%Q.
Proof.
  unfold pymax. destruct (Qle_bool b a) eqn:E.
  - apply Qle_refl.
  - apply Qlt_le_weak, Qnot_le_lt. intros H. apply Qle_bool_iff in H. congruence.
Qed.

Lemma fits_float_unit (q : Q) : (0 <= q <= 1)%Q -> fits_float q = true.
Proof.
  intros [H0 H1]. unfold fits_float. apply negb_true_iff.
  destruct (Qle_bool float_limit (Qabs q)) eqn:E; [|reflexivity].
  apply Qle_bool_iff in E. rewrite (Qabs_pos q H0) in E.
  assert (H : (float_limit <= 1)%Q) by (eapply Qle_trans; eassumption).
  exfalso. revert H. apply Qlt_not_le. reflexivity.
Qed.


Lemma positive_not_zero (q : Q) : Qle_bool q 0 = false -> Qeq_bool q 0 = false.
Proof.
  intros E. destruct (Qeq_bool q 0) eqn:E0; [|reflexivity].
  apply Qeq_bool_iff in E0. assert (H : (q <= 0)%Q) by (rewrite E0; apply Qle_refl).
  apply Qle_bool_iff in H. congruence.
Qed.


(** ** Event bus *)

Lemma for_each_callbacks {S} (subscribers : list (EventEmitter.callback S))
  (event : AgentEvent.t) (s : S) (log : list string) :
  for_each subscribers (fun callback =>
    try_except (EventEmitter.call (callback event))
      (fun e => EventEmitter.log_line ("Event callback error: " ++ str_exn e)))
    (s, log)
  = ((deliver subscribers event s, (log ++ callback_errors subscribers event s)%list),
     Ok tt).
Proof.
  revert s log. induction subscribers as [|cb rest IH]; intros s log; simpl.
  - unfold ret. now rewrite app_nil_r.
  - unfold bind at 1. unfold try_except at 1, EventEmitter.call at 1. simpl.
    unfold deliver. simpl.
    destruct (cb event s) as [s' [[]|e]]; simpl.
    + apply IH.
    + unfold EventEmitter.log_line, modify. simpl. rewrite IH.
      unfold deliver. now rewrite <- app_assoc.
Qed.

(** C7. Publishing an event calls every subscriber once, in subscription
    order, each on the state left by the ones before it; a callback that
    raises is logged and skipped over, and the publisher gets a normal
    return. *)
Theorem emit_reaches_every_subscriber {S}
  (subscribers : list (EventEmitter.callback S)) (event : AgentEvent.t)
  (s : S) (log : list string) :
  exists info,
    EventEmitter.emit subscribers event (s, log)
    = ((deliver subscribers event s,
        (log ++ [info] ++ callback_errors subscribers event s)%list), Ok tt).
Proof.
  eexists. unfold EventEmitter.emit, bind.
  unfold EventEmitter.log_line at 1, modify at 1. simpl.
  rewrite for_each_callbacks. now rewrite <- app_assoc.
Qed.

(** A raising first subscriber does not keep the second from being called,
    and the publisher returns normally. *)
Example emit_past_a_raising_subscriber :
  EventEmitter.emit [noting "first" true; noting "second" false]
    (sample_progress "document_processor" 1 2) ([], [])
  = ((["first:Progress"; "second:Progress"],
      ["[run-1] document_processor: progress - Progress";
       "Event callback error: boom in first"]), Ok tt).
Proof. reflexivity. Qed.

(** ** The bus subscriber *)





(** C10. A Progress event whose agent identifier is none of the three
    registered stages leaves [progress], [processed_docs] and [total_docs]
    of its run as they were; the event is appended to the log and
    [updated_at] is refreshed. *)
Theorem foreign_progress_event_is_framed
  (now : Z) (event : AgentEvent.t) (runs : gmap string RunState.t) (rs : RunState.t) :
  runs !! AgentEvent.run_id event = Some rs ->
  AgentEvent.event_type event = EventType.PROGRESS ->
  AgentEvent.agent_id event <> "document_processor" ->
  AgentEvent.agent_id event <> "content_generator" ->
  AgentEvent.agent_id event <> "document_assembler" ->
  exists runs' rs',
    BESSOrchestrator._handle_agent_event now event runs = (runs', Ok tt)
    /\ runs' !! AgentEvent.run_id event = Some rs'
    /\ RunState.progress rs' = RunState.progress rs
    /\ RunState.processed_docs rs' = RunState.processed_docs rs
    /\ RunState.total_docs rs' = RunState.total_docs rs
    /\ RunState.events rs' = (RunState.events rs ++ [event])%list
    /\ RunState.updated_at rs' = now.
Proof.
  intros Hrun Hty H1 H2 H3.
  unfold BESSOrchestrator._handle_agent_event. rewrite Hrun.
  unfold BESSOrchestrator.handle_on_run, BESSOrchestrator.update_for. rewrite Hty.
  apply String.eqb_neq in H1, H2, H3. rewrite H1, H2, H3.
  do 2 eexists. split; [reflexivity|]. rewrite lookup_insert_eq.
  split; [reflexivity|]. simpl. repeat split.
Qed.

Lemma foreign_progress_event_is_framed_witness :
  exists runs' rs',
    BESSOrchestrator._handle_agent_event 5 (sample_progress "quality_reviewer" 3 7)
      sample_runs = (runs', Ok tt)
    /\ runs' !! "run-1" = Some rs'
    /\ RunState.progress rs' = RunState.progress sample_run
    /\ RunState.processed_docs rs' = RunState.processed_docs sample_run
    /\ RunState.total_docs rs' = RunState.total_docs sample_run
    /\ RunState.events rs'
       = (RunState.events sample_run ++ [sample_progress "quality_reviewer" 3 7])%list
    /\ RunState.updated_at rs' = 5%Z.
Proof.
  apply (foreign_progress_event_is_framed 5
           (sample_progress "quality_reviewer" 3 7) sample_runs sample_run);
    [reflexivity | reflexivity | discriminate | discriminate | discriminate].
Defined.

(** ** Registry queries and cancellation *)

Lemma to_dict_not_empty (r : RunState.t) :
  (size (AgentOrchestrator.to_dict r) =? 0)%nat = false.
Proof.
  apply Nat.eqb_neq. intros H. apply map_size_empty_iff in H.
  assert (L : AgentOrchestrator.to_dict r !! "id" = Some (PyStr (RunState.id r)))
    by apply lookup_insert_eq.
  rewrite H in L. now rewrite lookup_empty in L.
Qed.

Lemma to_dict_finished (r : RunState.t) :
  AgentOrchestrator.to_dict r !! "finished" = Some (PyBool (RunState.finished r)).
Proof. unfold AgentOrchestrator.to_dict. now simplify_map_eq. Qed.

(** C8. Cancel answers 404 for an unknown run; for a finished run it answers
    400 and leaves the registry, hence every field of the run, as it was;
    otherwise the run gets status Canceled, [finished = True] and the error
    text "Canceled by user", all other fields kept. *)
Theorem cancel_run_outcomes (run_id : string) (runs : gmap string RunState.t) :
  match runs !! run_id with
  | None =>
      Routes.cancel_run run_id runs = (runs, Raise (HTTPException 404 "Run not found"))
  | Some rs =>
      if RunState.finished rs
      then Routes.cancel_run run_id runs
           = (runs, Raise (HTTPException 400 "Run already finished"))
      else exists response,
          Routes.cancel_run run_id runs
          = (<[run_id := Routes.mark_canceled rs]> runs, Ok response)
          /\ RunState.status (Routes.mark_canceled rs) = RunStatus.CANCELED
          /\ RunState.finished (Routes.mark_canceled rs) = true
          /\ RunState.error (Routes.mark_canceled rs) = Some "Canceled by user"
  end.
Proof.
  unfold Routes.cancel_run, AgentOrchestrator.get_run_status.
  destruct (runs !! run_id) as [rs|] eqn:E; [|reflexivity].
  simpl. rewrite to_dict_not_empty, to_dict_finished. simpl.
  destruct (RunState.finished rs); [reflexivity|].
  eexists. repeat split.
Qed.

(** C9. For an identifier that is not in the registry the status route
    answers 404 and the events route returns an empty list; both leave the
    registry untouched. *)
Theorem unknown_run_queries (run_id : string) (runs : gmap string RunState.t) :
  runs !! run_id = None ->
  Routes.get_run_status run_id runs = (runs, Raise (HTTPException 404 "Run not found"))
  /\ Routes.get_run_events run_id runs
     = (runs, Ok (<["run_id" := PyStr run_id]> (<["events" := PyList []]> ∅))).
Proof.
  intros H.
  unfold Routes.get_run_status, Routes.get_run_events,
    AgentOrchestrator.get_run_status, AgentOrchestrator.get_run_events.
  rewrite H. split; reflexivity.
Qed.

Lemma unknown_run_queries_witness :
  Routes.get_run_status "no-such-run" sample_runs
  = (sample_runs, Raise (HTTPException 404 "Run not found"))
  /\ Routes.get_run_events "no-such-run" sample_runs
     = (sample_runs,
        Ok (<["run_id" := PyStr "no-such-run"]> (<["events" := PyList []]> ∅))).
Proof. apply (unknown_run_queries "no-such-run" sample_runs). reflexivity. Defined.

(** ** Stage work *)

Lemma percentage_in_range (current total : Z) :
  (total <= 0 \/ 0 <= current <= total)%Z ->
  exists progress, BaseAgent.percentage current total = Ok progress.
Proof.
  intros H. unfold BaseAgent.percentage.
  destruct (total >? 0)%Z eqn:E; [|now eexists].
  assert (Hc : (0 <= current)%Z) by lia. assert (Ht : (current <= total)%Z) by lia.
  clear H.
  apply Z.gtb_lt in E. unfold py_truediv. cbn [as_number is_int andb].
  assert (E0 : Qeq_bool (inject_Z total) 0 = false).
  { apply positive_not_zero. destruct (Qle_bool (inject_Z total) 0) eqn:E1; [|reflexivity].
    apply Qle_bool_iff in E1. change 0%Q with (inject_Z 0) in E1.
    rewrite <- Zle_Qle in E1. lia. }
  rewrite E0, fits_float_unit; [now eexists|].
  split.
  - apply Qle_shift_div_l; [change 0%Q with (inject_Z 0); rewrite <- Zlt_Qlt; lia|].
    rewrite Qmult_0_l. change 0%Q with (inject_Z 0). rewrite <- Zle_Qle. lia.
  - apply Qle_shift_div_r; [change 0%Q with (inject_Z 0); rewrite <- Zlt_Qlt; lia|].
    rewrite Qmult_1_l. rewrite <- Zle_Qle. lia.
Qed.

Lemma percentage_bounded (current total : Z) :
  (0 <= current <= total)%Z ->
  exists progress, BaseAgent.percentage current total = Ok progress.
Proof. intros H. apply percentage_in_range. now right. Qed.

Lemma stage_work_ret {A} (a : A) : stage_work (ret a).
Proof. intros self bus _. exists [], (Ok a). now rewrite app_nil_r. Qed.

Lemma stage_work_raise {A} (e : exn) : stage_work (@raise _ A e).
Proof. intros self bus _. exists [], (Raise e). now rewrite app_nil_r. Qed.

Lemma stage_work_lift_result {A} (r : result A) : stage_work (lift_result r).
Proof. intros self bus _. exists [], r. now rewrite app_nil_r. Qed.

Lemma stage_work_bind {A B} (m : BaseAgent.M A) (k : A -> BaseAgent.M B) :
  stage_work m -> (forall a, stage_work (k a)) -> stage_work (bind m k).
Proof.
  intros Hm Hk self bus Hq. unfold bind.
  destruct (Hm self bus Hq) as (new & r & -> & Hnew).
  destruct r as [a|e].
  - destruct (Hk a self (bus ++ new)%list Hq) as (new' & r' & -> & Hnew').
    exists (new ++ new')%list, r'. rewrite app_assoc. split; [reflexivity|].
    now apply Forall_app.
  - now exists new, (Raise e).
Qed.

Lemma stage_work_try_except {A} (m : BaseAgent.M A) (h : exn -> BaseAgent.M A) :
  stage_work m -> (forall e, stage_work (h e)) -> stage_work (try_except m h).
Proof.
  intros Hm Hh self bus Hq. unfold try_except.
  destruct (Hm self bus Hq) as (new & r & -> & Hnew).
  destruct r as [a|e].
  - now exists new, (Ok a).
  - destruct (Hh e self (bus ++ new)%list Hq) as (new' & r' & -> & Hnew').
    exists (new ++ new')%list, r'. rewrite app_assoc. split; [reflexivity|].
    now apply Forall_app.
Qed.

(** An invocation on an agent that is the run's alone resumes on the agent
    as it left it. *)
Lemma sleep_alone (self : BaseAgent.t) (bus : list act) :
  alone self ->
  BaseAgent.asyncio_sleep (self, bus) = ((self, (bus ++ [Await])%list), Ok tt).
Proof.
  intros Hq. unfold BaseAgent.asyncio_sleep, BaseAgent.perform, bind, modify.
  cbn [fst snd]. unfold BaseAgent.resume. now rewrite Hq.
Qed.

Lemma stage_work_sleep : stage_work BaseAgent.asyncio_sleep.
Proof.
  intros self bus Hq. exists [Await], (Ok tt). split; [now apply sleep_alone|].
  now repeat constructor.
Qed.

Lemma stage_work_emit_event ty message data error :
  helper_kind ty = true ->
  bounded_progress (AgentEvent.mk "" "" ty message data error) = true ->
  stage_work (BaseAgent.emit_event ty message data error).
Proof.
  intros Hk Hb self bus _. unfold BaseAgent.emit_event. simpl.
  destruct (BaseAgent.bound_run self) as [run_id|].
  - eexists [_], (Ok tt). split; [reflexivity|].
    constructor; [|constructor]. simpl. rewrite Hk. exact Hb.
  - exists [], (Ok tt). now rewrite app_nil_r.
Qed.

Lemma stage_work_emit_step step_name message :
  stage_work (BaseAgent.emit_step step_name message).
Proof. apply stage_work_emit_event; reflexivity. Qed.

Lemma stage_work_emit_warning message :
  stage_work (BaseAgent.emit_warning message ∅).
Proof. apply stage_work_emit_event; reflexivity. Qed.

Lemma stage_work_emit_progress current total message :
  (0 <= current <= total)%Z ->
  stage_work (BaseAgent.emit_progress current total message).
Proof.
  intros H. unfold BaseAgent.emit_progress.
  apply stage_work_bind; [apply stage_work_lift_result|]. intros progress.
  apply stage_work_emit_event; [reflexivity|].
  unfold bounded_progress. simpl.
  rewrite lookup_insert_eq, lookup_insert_ne, lookup_insert_eq by discriminate.
  apply andb_true_iff. split; apply Z.leb_le; lia.
Qed.

Create HintDb stage.
#[local] Hint Resolve stage_work_ret stage_work_raise stage_work_lift_result
  stage_work_sleep stage_work_emit_step stage_work_emit_warning : stage.

Ltac stage_step :=
  first
    [ solve [auto with stage]
    | apply stage_work_emit_progress; simpl; lia
    | apply stage_work_try_except; [|intros ?]
    | apply stage_work_bind; [|intros ?] ].

Lemma process_stage_work total_docs doc_files :
  forall i acc,
    (0 <= i)%Z -> (i + Z.of_nat (length doc_files) <= total_docs)%Z ->
    stage_work (DocumentProcessor.process total_docs i doc_files acc).
Proof.
  induction doc_files as [|doc rest IH]; intros i acc Hi Hlen; simpl.
  - auto with stage.
  - simpl in Hlen. apply stage_work_bind.
    + apply stage_work_emit_progress. lia.
    + intros _. apply stage_work_bind.
      * repeat stage_step.
      * intros acc'. apply IH; lia.
Qed.

Lemma document_processor_stage_work self query max_docs :
  stage_work (DocumentProcessor._execute self query max_docs).
Proof.
  unfold DocumentProcessor._execute.
  apply stage_work_bind; [auto with stage|]. intros _.
  apply stage_work_bind; [auto with stage|]. intros [|doc rest].
  - repeat stage_step.
  - apply stage_work_bind.
    + apply stage_work_emit_event; reflexivity.
    + intros _. apply stage_work_bind.
      * apply process_stage_work; lia.
      * intros acc. apply stage_work_bind; [|auto with stage].
        apply stage_work_emit_progress. lia.
Qed.

Lemma generate_llm_section_stage_work self section_id section_title query :
  stage_work (ContentGenerator._generate_llm_section self section_id section_title query).
Proof.
  unfold ContentGenerator._generate_llm_section, ContentGenerator._generate_mock_section,
    ContentGenerator._call_anthropic_api, ContentGenerator._call_openrouter_api.
  apply stage_work_try_except.
  - destruct (ContentGenerator.api_key self) as [k|]; [|auto with stage].
    destruct (String.eqb k ""); [auto with stage|].
    destruct (ContentGenerator.contains _ _); repeat stage_step.
  - intros e. repeat stage_step.
Qed.

Lemma generate_stage_work self query total todo :
  forall i generated,
    (0 <= i)%Z -> (i + Z.of_nat (length todo) <= total)%Z ->
    stage_work (ContentGenerator.generate self query total i todo generated).
Proof.
  induction todo as [|[section_id section_title] rest IH]; intros i generated Hi Hlen; simpl.
  - auto with stage.
  - simpl in Hlen. apply stage_work_bind.
    + apply stage_work_emit_progress. lia.
    + intros _. apply stage_work_bind.
      * apply stage_work_try_except.
        -- apply stage_work_bind.
           ++ destruct (ContentGenerator.use_mock self).
              ** unfold ContentGenerator._generate_mock_section. auto with stage.
              ** apply generate_llm_section_stage_work.
           ++ intros content. repeat stage_step.
        -- intros e. repeat stage_step.
      * intros generated'. apply IH; lia.
Qed.

Lemma content_generator_stage_work self extracted_content query document_type :
  stage_work (ContentGenerator._execute self extracted_content query document_type).
Proof.
  unfold ContentGenerator._execute.
  apply stage_work_bind; [auto with stage|]. intros _.
  destruct (negb (truthy extracted_content)).
  - unfold ContentGenerator._generate_basic_template. repeat stage_step.
  - apply stage_work_bind; [auto with stage|]. intros _.
    apply stage_work_bind.
    + apply generate_stage_work; simpl; lia.
    + intros generated. apply stage_work_bind; [|auto with stage].
      apply stage_work_emit_progress. simpl. lia.
Qed.

Lemma document_assembler_stage_work self generated_sections query document_type :
  stage_work (DocumentAssembler._execute self generated_sections query document_type).
Proof.
  unfold DocumentAssembler._execute, DocumentAssembler._create_markdown_document,
    DocumentAssembler._create_html_document, DocumentAssembler._save_documents.
  apply stage_work_bind; [auto with stage|]. intros _.
  destruct (negb (truthy _)); [auto with stage|].
  repeat stage_step.
Qed.

(** ** The execution wrapper *)

Lemma execute_unfold run_id work self bus new r :
  run_id <> "" ->
  work (bound_to run_id self,
        (bus ++ [Emit (started_event run_id (BaseAgent.agent_id self))])%list)
  = ((bound_to run_id self,
      ((bus ++ [Emit (started_event run_id (BaseAgent.agent_id self))]) ++ new)%list), r) ->
  BaseAgent.execute run_id work (self, bus)
  = ((released self,
      (bus ++ [Emit (started_event run_id (BaseAgent.agent_id self))] ++ new
           ++ [Emit (terminal_event run_id (BaseAgent.agent_id self) r)])%list), r).
Proof.
  intros Hid Hwork. apply String.eqb_neq in Hid.
  unfold BaseAgent.execute. unfold bind at 1. unfold modify at 1.
  unfold try_finally, try_except. simpl.
  unfold bind at 1. unfold get at 1. unfold bind at 1.
  unfold BaseAgent.emit_event at 1, BaseAgent.bound_run. simpl. rewrite Hid.
  unfold BaseAgent.perform at 1, modify at 1. simpl.
  unfold bind at 1. unfold bound_to, started_event in Hwork. rewrite Hwork.
  destruct r as [result|e].
  - unfold bind, get, BaseAgent.emit_event, BaseAgent.bound_run, BaseAgent.perform,
      modify, ret. simpl. rewrite Hid. simpl.
    unfold released. simpl. now rewrite <- !app_assoc.
  - unfold bind, get, BaseAgent.emit_event, BaseAgent.bound_run, BaseAgent.perform,
      modify, raise. simpl. rewrite Hid. simpl.
    unfold released. simpl. now rewrite <- !app_assoc.
Qed.

Lemma execute_unbound work self bus new r :
  work (bound_to "" self, bus) = ((bound_to "" self, (bus ++ new)%list), r) ->
  BaseAgent.execute "" work (self, bus) = ((released self, (bus ++ new)%list), r).
Proof.
  intros Hwork.
  unfold BaseAgent.execute. unfold bind at 1. unfold modify at 1.
  unfold try_finally, try_except. simpl.
  unfold bind at 1. unfold get at 1. unfold bind at 1.
  unfold BaseAgent.emit_event at 1, BaseAgent.bound_run. simpl.
  unfold bind at 1. unfold bound_to in Hwork. rewrite Hwork.
  destruct r as [result|e].
  - unfold bind, get, BaseAgent.emit_event, BaseAgent.bound_run, ret. simpl.
    reflexivity.
  - unfold bind, get, BaseAgent.emit_event, BaseAgent.bound_run, raise. simpl.
    reflexivity.
Qed.

Lemma count_events_app ty (l1 l2 : list act) :
  count_events ty (l1 ++ l2) = (count_events ty l1 + count_events ty l2)%nat.
Proof. unfold count_events. now rewrite filter_app, length_app. Qed.


Lemma work_act_own (a : act) : work_act a = true -> own_act a = true.
Proof.
  destruct a; simpl; try congruence.
  intros Ha. apply andb_true_iff in Ha as [Hk _].
  destruct (AgentEvent.event_type event); simpl in *; congruence.
Qed.

(** The work of the three stages keeps the stage contract on an agent that
    is the run's alone. *)
Lemma stage_work_contract {A} (m : BaseAgent.M A) (run_id : string)
  (self : BaseAgent.t) (bus : list act) :
  stage_work m -> alone self ->
  exists new r, keeps_contract m (bound_to run_id self) bus new r.
Proof.
  intros H Hq. destruct (H (bound_to run_id self) bus Hq) as (new & r & E & Hnew).
  exists new, r. split; [exact E|].
  eapply Forall_impl; [exact Hnew|]. apply work_act_own.
Qed.


(** ** The pipeline's trace *)

Lemma traces_ret {A} (a : A) : traces (ret a).
Proof. intros s bus Hq. exists s, [], (Ok a). now rewrite app_nil_r. Qed.

Lemma traces_raise {A} (e : exn) : traces (@raise _ A e).
Proof. intros s bus Hq. exists s, [], (Raise e). now rewrite app_nil_r. Qed.

Lemma traces_lift_result {A} (r : result A) : traces (lift_result r).
Proof. intros s bus Hq. exists s, [], r. now rewrite app_nil_r. Qed.

Lemma traces_bind {A B} (m : BESSOrchestrator.P A) (k : A -> BESSOrchestrator.P B) :
  traces m -> (forall a, traces (k a)) -> traces (bind m k).
Proof.
  intros Hm Hk s bus Hq. unfold bind.
  destruct (Hm s bus Hq) as (s' & new & r & -> & Hq' & Hnew).
  destruct r as [a|e].
  - destruct (Hk a s' (bus ++ new)%list Hq') as (s'' & new' & r' & -> & Hq'' & Hnew').
    exists s'', (new ++ new')%list, r'. rewrite app_assoc. split; [reflexivity|].
    split; [assumption|]. now apply Forall_app.
  - now exists s', new, (Raise e).
Qed.

Lemma traces_try_except {A} (m : BESSOrchestrator.P A) (h : exn -> BESSOrchestrator.P A) :
  traces m -> (forall e, traces (h e)) -> traces (try_except m h).
Proof.
  intros Hm Hh s bus Hq. unfold try_except.
  destruct (Hm s bus Hq) as (s' & new & r & -> & Hq' & Hnew).
  destruct r as [a|e].
  - now exists s', new, (Ok a).
  - destruct (Hh e s' (bus ++ new)%list Hq') as (s'' & new' & r' & -> & Hq'' & Hnew').
    exists s'', (new ++ new')%list, r'. rewrite app_assoc. split; [reflexivity|].
    split; [assumption|]. now apply Forall_app.
Qed.

Lemma traces_set_current_step label : traces (BESSOrchestrator.set_current_step label).
Proof.
  intros s bus Hq. exists s, [SetCurrentStep label], (Ok tt).
  split; [reflexivity|]. split; [assumption|]. now repeat constructor.
Qed.

Lemma work_act_benign (a : act) : work_act a = true -> benign a = true.
Proof.
  destruct a; simpl; try congruence.
  intros H. apply andb_true_iff in H as [Hk Hb]. rewrite Hb, andb_true_r.
  destruct (AgentEvent.event_type event); simpl in *; congruence.
Qed.

Lemma execute_benign run_id (work : BaseAgent.M (gmap string pyval)) self bus :
  stage_work work -> alone self ->
  exists new r,
    BaseAgent.execute run_id work (self, bus) = ((released self, (bus ++ new)%list), r)
    /\ Forall (fun a => benign a = true) new.
Proof.
  intros Hwork Hq. destruct (String.eqb run_id "") eqn:E.
  - apply String.eqb_eq in E. subst run_id.
    destruct (Hwork (bound_to "" self) bus Hq) as (new & r & Hrun & Hnew).
    exists new, r. split; [now apply execute_unbound|].
    eapply Forall_impl; [exact Hnew|]. apply work_act_benign.
  - apply String.eqb_neq in E.
    destruct (Hwork (bound_to run_id self)
                (bus ++ [Emit (started_event run_id (BaseAgent.agent_id self))])%list Hq)
      as (new & r & Hrun & Hnew).
    eexists _, r. split; [apply execute_unfold; eassumption|].
    apply Forall_app. split; [now repeat constructor|].
    apply Forall_app. split.
    + eapply Forall_impl; [exact Hnew|]. apply work_act_benign.
    + destruct r; now repeat constructor.
Qed.

Lemma traces_on_doc_processor run_id (work : BaseAgent.M (gmap string pyval)) :
  stage_work work ->
  traces (BESSOrchestrator.on_doc_processor (BaseAgent.execute run_id work)).
Proof.
  intros Hwork s bus (H1 & H2 & H3). unfold BESSOrchestrator.on_doc_processor. simpl.
  destruct (execute_benign run_id work (BESSOrchestrator.doc_processor_agent s) bus Hwork H1)
    as (new & r & -> & Hnew).
  eexists _, new, r. split; [reflexivity|]. split; [|exact Hnew]. now repeat split.
Qed.

Lemma traces_on_content_generator run_id (work : BaseAgent.M (gmap string pyval)) :
  stage_work work ->
  traces (BESSOrchestrator.on_content_generator (BaseAgent.execute run_id work)).
Proof.
  intros Hwork s bus (H1 & H2 & H3). unfold BESSOrchestrator.on_content_generator. simpl.
  destruct (execute_benign run_id work (BESSOrchestrator.content_generator_agent s) bus
              Hwork H2)
    as (new & r & -> & Hnew).
  eexists _, new, r. split; [reflexivity|]. split; [|exact Hnew]. now repeat split.
Qed.

Lemma traces_on_doc_assembler run_id (work : BaseAgent.M (gmap string pyval)) :
  stage_work work ->
  traces (BESSOrchestrator.on_doc_assembler (BaseAgent.execute run_id work)).
Proof.
  intros Hwork s bus (H1 & H2 & H3). unfold BESSOrchestrator.on_doc_assembler. simpl.
  destruct (execute_benign run_id work (BESSOrchestrator.doc_assembler_agent s) bus
              Hwork H3)
    as (new & r & -> & Hnew).
  eexists _, new, r. split; [reflexivity|]. split; [|exact Hnew]. now repeat split.
Qed.

Ltac trace_step :=
  first
    [ apply traces_bind; [|intros ?]
    | apply traces_try_except; [|intros ?]
    | apply traces_set_current_step
    | apply traces_lift_result
    | apply traces_ret
    | apply traces_raise ].

Lemma run_pipeline_traces self run_id run_state :
  traces (BESSOrchestrator._run_pipeline self run_id run_state).
Proof.
  unfold BESSOrchestrator._run_pipeline, BESSOrchestrator.final_result.
  apply traces_try_except; [|intros e; repeat trace_step].
  apply traces_bind; [apply traces_set_current_step|]. intros _.
  apply traces_bind;
    [apply traces_on_doc_processor, document_processor_stage_work|]. intros doc_result.
  apply traces_bind; [apply traces_set_current_step|]. intros _.
  apply traces_bind; [apply traces_lift_result|]. intros extracted_content.
  apply traces_bind;
    [apply traces_on_content_generator, content_generator_stage_work|].
  intros content_result.
  apply traces_bind; [apply traces_set_current_step|]. intros _.
  apply traces_bind;
    [apply traces_on_doc_assembler, document_assembler_stage_work|].
  intros assembly_result.
  repeat trace_step.
Qed.

Lemma registered_alone : alone_agents BESSOrchestrator.registered.
Proof. now repeat split. Qed.

Lemma pipeline_benign self run_id run_state :
  Forall (fun a => benign a = true)
    (fst (BESSOrchestrator.pipeline self run_id run_state)).
Proof.
  unfold BESSOrchestrator.pipeline.
  destruct (run_pipeline_traces self run_id run_state BESSOrchestrator.registered []
              registered_alone)
    as (s' & new & r & -> & _ & Hnew).
  exact Hnew.
Qed.

(** ** The subscriber on one run object *)

Lemma pymax_le (a b c : Q) : (a <= c)%Q -> (b <= c)%Q -> (pymax a b <= c)%Q.
Proof. intros Ha Hb. unfold pymax. now destruct (Qle_bool b a). Qed.

Lemma weighted_fraction_bounded (c t : Z) (w : Q) :
  (0 <= c <= t)%Z -> (0 <= w)%Q ->
  exists q, weighted_fraction (PyInt c) (PyInt t) w = Ok q /\ (0 <= q <= w)%Q.
Proof.
  intros [Hc Ht] Hw. unfold weighted_fraction, py_gt_zero, py_truediv. simpl.
  destruct (Qle_bool (inject_Z t) 0) eqn:E; simpl.
  - exists 0%Q. split; [reflexivity|]. split; [apply Qle_refl | exact Hw].
  - assert (Hpos : (0 < inject_Z t)%Q).
    { apply Qnot_le_lt. intros H. apply Qle_bool_iff in H. congruence. }
    destruct (Qeq_bool (inject_Z t) 0) eqn:E0.
    + apply Qeq_bool_iff in E0. rewrite E0 in Hpos. now apply Qlt_irrefl in Hpos.
    + assert (H0 : (0 <= inject_Z c / inject_Z t)%Q).
      { apply Qle_shift_div_l; [exact Hpos|]. rewrite Qmult_0_l.
        change 0%Q with (inject_Z 0). now rewrite <- Zle_Qle. }
      assert (H1 : (inject_Z c / inject_Z t <= 1)%Q).
      { apply Qle_shift_div_r; [exact Hpos|]. rewrite Qmult_1_l.
        now rewrite <- Zle_Qle. }
      rewrite fits_float_unit by (now split).
      eexists. split; [reflexivity|].
      split.
      * now apply Qmult_le_0_compat.
      * rewrite <- (Qmult_1_l w) at 2. now apply Qmult_le_compat_r.
Qed.

Lemma in_range_update_effect (c t : option pyval) (base weight : Q) (rs : RunState.t) :
  let rs' := fst (BESSOrchestrator.in_range_update c t base weight rs) in
  RunState.status rs' = RunState.status rs
  /\ RunState.finished rs' = RunState.finished rs
  /\ RunState.result rs' = RunState.result rs
  /\ RunState.error rs' = RunState.error rs
  /\ (RunState.progress rs <= RunState.progress rs')%Q.
Proof.
  unfold BESSOrchestrator.in_range_update.
  destruct c as [c|], t as [t|]; simpl; try (repeat split; apply Qle_refl).
  unfold bind, lift_result. destruct (weighted_fraction c t weight); simpl.
  - repeat split. apply pymax_ge_l.
  - repeat split. apply Qle_refl.
Qed.

Lemma in_range_update_bounded (c t : Z) (base weight : Q) (rs : RunState.t) :
  (0 <= c <= t)%Z -> (0 <= weight)%Q -> (base + weight <= 100)%Q ->
  (RunState.progress rs <= 100)%Q ->
  (RunState.progress
     (fst (BESSOrchestrator.in_range_update (Some (PyInt c)) (Some (PyInt t)) base weight rs))
   <= 100)%Q.
Proof.
  intros Hct Hw Hbw Hp. unfold BESSOrchestrator.in_range_update, bind, lift_result.
  destruct (weighted_fraction_bounded c t weight Hct Hw) as (q & -> & Hq0 & Hq).
  simpl. apply pymax_le; [exact Hp|].
  eapply Qle_trans; [|exact Hbw]. now apply Qplus_le_r.
Qed.

Lemma update_for_effect (e : AgentEvent.t) (rs : RunState.t) :
  let rs' := fst (BESSOrchestrator.update_for e rs) in
  RunState.status rs' = RunState.status rs
  /\ RunState.finished rs' = RunState.finished rs
  /\ RunState.result rs' = RunState.result rs
  /\ (AgentEvent.event_type e <> EventType.ERROR -> RunState.error rs' = RunState.error rs)
  /\ (RunState.progress rs <= RunState.progress rs')%Q.
Proof.
  unfold BESSOrchestrator.update_for.
  destruct (AgentEvent.event_type e) eqn:Ety;
    try (simpl; repeat split; solve [apply Qle_refl | congruence]).
  destruct (String.eqb (AgentEvent.agent_id e) "document_processor").
  - destruct (AgentEvent.data e !! "current") as [c|],
      (AgentEvent.data e !! "total") as [t|];
      destruct (AgentEvent.data e !! "total_docs");
      unfold bind, modify, lift_result, ret; simpl;
      try (repeat split; apply Qle_refl);
      destruct (weighted_fraction c t 40); simpl;
      repeat split; solve [apply Qle_refl | apply pymax_ge_l].
  - destruct (String.eqb (AgentEvent.agent_id e) "content_generator");
      [|destruct (String.eqb (AgentEvent.agent_id e) "document_assembler")].
    + pose proof (in_range_update_effect (AgentEvent.data e !! "current")
                    (AgentEvent.data e !! "total") 40 50 rs) as H.
      simpl in H. repeat split; try apply H. intros _. apply H.
    + pose proof (in_range_update_effect (AgentEvent.data e !! "current")
                    (AgentEvent.data e !! "total") 90 10 rs) as H.
      simpl in H. repeat split; try apply H. intros _. apply H.
    + simpl. repeat split. apply Qle_refl.
Qed.

Lemma update_for_bounded (e : AgentEvent.t) (rs : RunState.t) :
  bounded_progress e = true ->
  (RunState.progress rs <= 100)%Q ->
  (RunState.progress (fst (BESSOrchestrator.update_for e rs)) <= 100)%Q.
Proof.
  intros Hb Hp. unfold BESSOrchestrator.update_for. unfold bounded_progress in Hb.
  destruct (AgentEvent.event_type e); try exact Hp.
  destruct (String.eqb (AgentEvent.agent_id e) "document_processor").
  - destruct (AgentEvent.data e !! "current") as [c|],
      (AgentEvent.data e !! "total") as [t|];
      destruct (AgentEvent.data e !! "total_docs");
      unfold bind, modify, lift_result, ret; simpl; try exact Hp;
      destruct c; try discriminate; destruct t; try discriminate;
      apply andb_true_iff in Hb as [H0 H1]; apply Z.leb_le in H0, H1;
      destruct (weighted_fraction_bounded n n0 40 (conj H0 H1)) as (q & -> & Hq0 & Hq);
      try discriminate; simpl; apply pymax_le; try exact Hp;
      (eapply Qle_trans; [exact Hq|discriminate]).
  - destruct (String.eqb (AgentEvent.agent_id e) "content_generator");
      [|destruct (String.eqb (AgentEvent.agent_id e) "document_assembler")];
      try exact Hp;
      destruct (AgentEvent.data e !! "current") as [c|],
        (AgentEvent.data e !! "total") as [t|]; try exact Hp;
      try (destruct c; exact Hp);
      destruct c; try discriminate; destruct t; try discriminate;
      apply andb_true_iff in Hb as [H0 H1]; apply Z.leb_le in H0, H1;
      apply in_range_update_bounded; try exact Hp; try (split; assumption);
      discriminate.
Qed.

Lemma handle_on_run_effect (now : Z) (e : AgentEvent.t) (rs : RunState.t) :
  let rs' := fst (BESSOrchestrator.handle_on_run now e rs) in
  RunState.status rs' = RunState.status rs
  /\ RunState.finished rs' = RunState.finished rs
  /\ RunState.result rs' = RunState.result rs
  /\ (AgentEvent.event_type e <> EventType.ERROR -> RunState.error rs' = RunState.error rs)
  /\ (RunState.progress rs <= RunState.progress rs')%Q
  /\ (bounded_progress e = true -> (RunState.progress rs <= 100)%Q ->
      (RunState.progress rs' <= 100)%Q).
Proof.
  unfold BESSOrchestrator.handle_on_run, bind, modify.
  pose proof (update_for_effect e (RunState.events_append e rs)) as H.
  pose proof (update_for_bounded e (RunState.events_append e rs)) as Hb.
  destruct (BESSOrchestrator.update_for e (RunState.events_append e rs))
    as [rs1 [[]|ex]]; simpl in *;
    destruct H as (H1 & H2 & H3 & H4 & H5); repeat split; auto.
Qed.

(** ** From the registry to the run object *)

Lemma cancel_run_known (run_id : string) (runs : gmap string RunState.t) (rs : RunState.t) :
  runs !! run_id = Some rs ->
  Routes.cancel_run run_id runs
  = if RunState.finished rs
    then (runs, Raise (HTTPException 400 "Run already finished"))
    else (<[run_id := Routes.mark_canceled rs]> runs,
          Ok (<["message" := PyStr "Run canceled"]> (<["run_id" := PyStr run_id]> ∅))).
Proof.
  intros E. unfold Routes.cancel_run, AgentOrchestrator.get_run_status. rewrite E.
  simpl. rewrite to_dict_not_empty, to_dict_finished. simpl.
  now destruct (RunState.finished rs).
Qed.

Lemma emit_to_subscriber (now : Z) (e : AgentEvent.t) (runs : gmap string RunState.t) :
  fst (fst (EventEmitter.emit (subscribers now) e (runs, [])))
  = fst (BESSOrchestrator._handle_agent_event now e runs).
Proof.
  unfold EventEmitter.emit. unfold bind at 1.
  unfold EventEmitter.log_line at 1, modify at 1. cbn [fst snd].
  rewrite for_each_callbacks. reflexivity.
Qed.

Lemma apply_op_lookup (run_id : string) (o : op) (runs : gmap string RunState.t)
  (rs : RunState.t) :
  runs !! run_id = Some rs ->
  apply_op run_id o runs !! run_id = Some (rs_op run_id o rs).
Proof.
  intros E. destruct o as [now a|]; simpl.
  - destruct a; simpl.
    + rewrite lookup_alter_eq, E. reflexivity.
    + rewrite emit_to_subscriber. unfold BESSOrchestrator._handle_agent_event.
      destruct (String.eqb (AgentEvent.run_id event) run_id) eqn:Eid.
      * apply String.eqb_eq in Eid. rewrite Eid, E.
        destruct (BESSOrchestrator.handle_on_run now event rs) as [rs' r]. simpl.
        apply lookup_insert_eq.
      * apply String.eqb_neq in Eid.
        destruct (runs !! AgentEvent.run_id event) as [other|]; [|exact E].
        destruct (BESSOrchestrator.handle_on_run now event other) as [other' r]. simpl.
        now rewrite lookup_insert_ne.
    + exact E.
    + rewrite lookup_alter_eq, E. reflexivity.
    + rewrite lookup_alter_eq, E. reflexivity.
  - rewrite (cancel_run_known run_id runs rs E).
    destruct (RunState.finished rs); simpl; [exact E | apply lookup_insert_eq].
Qed.

Lemma run_ops_lookup (run_id : string) (ops : list op) :
  forall (runs : gmap string RunState.t) (rs : RunState.t),
    runs !! run_id = Some rs ->
    run_ops run_id ops runs !! run_id = Some (rs_ops run_id ops rs).
Proof.
  induction ops as [|o rest IH]; intros runs rs E; simpl; [exact E|].
  apply IH. now apply apply_op_lookup.
Qed.

Lemma snapshot_lookup (run_id query : string) (max_docs now : Z)
  (runs : gmap string RunState.t) (pre : list op) :
  snapshot run_id query max_docs now runs pre !! run_id
  = Some (rs_ops run_id pre (RunState.new run_id query max_docs now)).
Proof.
  unfold snapshot. apply run_ops_lookup.
  unfold AgentOrchestrator.start_run. apply lookup_insert_eq.
Qed.

Lemma rs_ops_app (run_id : string) (l1 l2 : list op) (rs : RunState.t) :
  rs_ops run_id (l1 ++ l2) rs = rs_ops run_id l2 (rs_ops run_id l1 rs).
Proof. unfold rs_ops. apply fold_left_app. Qed.

(** ** Operations on the run object *)

Lemma rs_act_benign (run_id : string) (now : Z) (a : act) (rs : RunState.t) :
  benign a = true ->
  let rs' := rs_act run_id now a rs in
  RunState.status rs' = RunState.status rs
  /\ RunState.finished rs' = RunState.finished rs
  /\ RunState.result rs' = RunState.result rs
  /\ RunState.error rs' = RunState.error rs
  /\ (RunState.progress rs <= RunState.progress rs')%Q
  /\ ((RunState.progress rs <= 100)%Q -> (RunState.progress rs' <= 100)%Q).
Proof.
  intros Hb. destruct a; simpl in *; try discriminate;
    try (repeat split; solve [apply Qle_refl | auto]).
  apply andb_true_iff in Hb as [Hty Hbd].
  apply negb_true_iff, bool_decide_eq_false in Hty.
  destruct (String.eqb (AgentEvent.run_id event) run_id);
    [|repeat split; solve [apply Qle_refl | auto]].
  destruct (handle_on_run_effect now event rs) as (H1 & H2 & H3 & H4 & H5 & H6).
  repeat split; auto.
Qed.

Lemma timeline_ops (P : act -> Prop) (suspended : bool) (acts : list act) (ops : list op) :
  timeline suspended acts ops ->
  Forall P acts ->
  Forall (fun o => match o with Act _ a => P a | CancelRequest => True end) ops.
Proof.
  induction 1 as [b|b now a acts ops _ IH|acts ops _ IH]; intros HP.
  - constructor.
  - inversion HP; subst. constructor; [assumption|]. now apply IH.
  - constructor; [exact I|]. now apply IH.
Qed.

(** Induction along the timeline of a task. *)
Lemma timeline_invariant (run_id : string) (outcome : result (gmap string pyval))
  (Inv : phase -> list op -> RunState.t -> Prop) :
  (forall pre rs now, Inv Created pre rs ->
     Inv Underway (pre ++ [Act now SetRunning])%list
       (AgentOrchestrator.set_running now rs)) ->
  (forall pre rs now a, benign a = true -> Inv Underway pre rs ->
     Inv Underway (pre ++ [Act now a])%list (rs_act run_id now a rs)) ->
  (forall pre rs now, Inv Underway pre rs ->
     Inv Ended (pre ++ [Act now (Finalize outcome)])%list
       (AgentOrchestrator.finalize outcome now rs)) ->
  (forall ph pre rs, Inv ph pre rs ->
     Inv ph (pre ++ [CancelRequest])%list (rs_op run_id CancelRequest rs)) ->
  forall idle acts ops, timeline idle acts ops ->
  forall ph, ahead outcome ph acts ->
  forall pre0 rs, Inv ph pre0 rs ->
  forall pre post, ops = (pre ++ post)%list ->
  exists ph', Inv ph' (pre0 ++ pre)%list (rs_ops run_id pre rs).
Proof.
  intros Hrun Hact Hfin Hcancel idle acts ops Htl.
  induction Htl as [b|b now a acts ops _ IH|acts ops _ IH];
    intros ph Hahead pre0 rs HI pre post Hsplit.
  - symmetry in Hsplit. apply app_eq_nil in Hsplit as [-> _].
    exists ph. now rewrite app_nil_r.
  - destruct pre as [|o pre'].
    { exists ph. now rewrite app_nil_r. }
    simpl in Hsplit. injection Hsplit as <- Hrest.
    replace (pre0 ++ Act now a :: pre')%list
      with ((pre0 ++ [Act now a]) ++ pre')%list by now rewrite <- app_assoc.
    change (rs_ops run_id (Act now a :: pre') rs)
      with (rs_ops run_id pre' (rs_act run_id now a rs)).
    destruct ph.
    + destruct Hahead as (trace & Hacts & Htrace). injection Hacts as -> ->.
      eapply (IH Underway); [now exists trace | apply Hrun, HI | exact Hrest].
    + destruct Hahead as (trace & Hacts & Htrace).
      destruct trace as [|a' trace'].
      * simpl in Hacts. injection Hacts as -> ->.
        eapply (IH Ended); [reflexivity | apply Hfin, HI | exact Hrest].
      * simpl in Hacts. injection Hacts as <- ->.
        inversion Htrace; subst.
        eapply (IH Underway); [now exists trace' | now apply Hact | reflexivity].
    + discriminate Hahead.
  - destruct pre as [|o pre'].
    { exists ph. now rewrite app_nil_r. }
    simpl in Hsplit. injection Hsplit as <- Hrest.
    replace (pre0 ++ CancelRequest :: pre')%list
      with ((pre0 ++ [CancelRequest]) ++ pre')%list by now rewrite <- app_assoc.
    change (rs_ops run_id (CancelRequest :: pre') rs)
      with (rs_ops run_id pre' (rs_op run_id CancelRequest rs)).
    eapply (IH ph); [exact Hahead | apply Hcancel, HI | exact Hrest].
Qed.

Lemma task_ahead (self : BESSOrchestrator.t) (run_id query : string) (max_docs now : Z) :
  ahead (snd (BESSOrchestrator.pipeline self run_id
                (RunState.new run_id query max_docs now)))
    Created (BESSOrchestrator.task self run_id query max_docs now).
Proof.
  unfold BESSOrchestrator.task, AgentOrchestrator._execute_run.
  eexists. split; [reflexivity|]. apply pipeline_benign.
Qed.

(** Induction over the snapshots of a run's lifetime: from the run as
    [start_run] stores it, through the task's first step, the pipeline's
    actions and the finalization, with cancel requests in any phase. *)
Lemma lifetime_invariant (self : BESSOrchestrator.t) (run_id query : string)
  (max_docs now : Z) (Inv : phase -> list op -> RunState.t -> Prop) :
  Inv Created [] (RunState.new run_id query max_docs now) ->
  (forall pre rs now1, Inv Created pre rs ->
     Inv Underway (pre ++ [Act now1 SetRunning])%list
       (AgentOrchestrator.set_running now1 rs)) ->
  (forall pre rs now a, benign a = true -> Inv Underway pre rs ->
     Inv Underway (pre ++ [Act now a])%list (rs_act run_id now a rs)) ->
  (forall pre rs now1, Inv Underway pre rs ->
     Inv Ended
       (pre ++ [Act now1 (Finalize (snd (BESSOrchestrator.pipeline self run_id
                                           (RunState.new run_id query max_docs now))))])%list
       (AgentOrchestrator.finalize
          (snd (BESSOrchestrator.pipeline self run_id
                  (RunState.new run_id query max_docs now))) now1 rs)) ->
  (forall ph pre rs, Inv ph pre rs ->
     Inv ph (pre ++ [CancelRequest])%list (rs_op run_id CancelRequest rs)) ->
  forall ops pre post,
    timeline true (BESSOrchestrator.task self run_id query max_docs now) ops ->
    ops = (pre ++ post)%list ->
    exists ph, Inv ph pre (rs_ops run_id pre (RunState.new run_id query max_docs now)).
Proof.
  intros Hnew Hrun Hact Hfin Hcancel ops pre post Htl Hsplit.
  apply (timeline_invariant run_id _ Inv Hrun Hact Hfin Hcancel true _ ops Htl Created
           (task_ahead self run_id query max_docs now) [] _ Hnew pre post Hsplit).
Qed.

Lemma finalized_snoc (pre : list op) (o : op) :
  finalized (pre ++ [o])
  = finalized pre || match o with Act _ (Finalize _) => true | _ => false end.
Proof.
  induction pre as [|o' pre IH]; simpl.
  - destruct o as [? []|]; reflexivity.
  - destruct o' as [? []|]; simpl; auto.
Qed.

Lemma cancel_accepted_snoc (pre : list op) (o : op) :
  cancel_accepted (pre ++ [o])
  = cancel_accepted pre
    || (negb (finalized pre) && match o with CancelRequest => true | _ => false end).
Proof.
  induction pre as [|o' pre IH]; simpl.
  - destruct o as [? []|]; reflexivity.
  - destruct o' as [? []|]; simpl; auto.
Qed.

Lemma overwritten_snoc (pre : list op) (o : op) :
  overwritten (pre ++ [o]) = overwritten pre || (cancel_accepted pre && writes_status o).
Proof.
  induction pre as [|o' pre IH]; simpl.
  - destruct o as [? []|]; reflexivity.
  - destruct o' as [? []|]; simpl; auto.
    rewrite existsb_app. simpl. now rewrite orb_false_r.
Qed.

(** The operations of a whole timeline include the finalization. *)
Lemma timeline_finalized (outcome : result (gmap string pyval))
  (idle : bool) (acts : list act) (ops : list op) :
  timeline idle acts ops ->
  forall ph, ahead outcome ph acts -> ph <> Ended -> finalized ops = true.
Proof.
  induction 1 as [b|b now a acts ops _ IH|acts ops _ IH]; intros ph Hahead Hph.
  - destruct ph; [| |congruence]; destruct Hahead as (trace & Hacts & _);
      [discriminate | now destruct trace].
  - destruct ph; [| |congruence]; destruct Hahead as (trace & Hacts & Htrace).
    + injection Hacts as -> ->. simpl. apply (IH Underway); [now exists trace | discriminate].
    + destruct trace as [|a' trace']; simpl in Hacts.
      * injection Hacts as -> ->. reflexivity.
      * injection Hacts as <- ->. inversion Htrace; subst.
        assert (Hrest : finalized ops = true)
          by (apply (IH Underway); [now exists trace' | discriminate]).
        destruct a; simpl in *; congruence.
  - simpl. now apply (IH ph).
Qed.

Lemma whole_timeline_finalized (self : BESSOrchestrator.t) (run_id query : string)
  (max_docs now : Z) (ops : list op) :
  timeline true (BESSOrchestrator.task self run_id query max_docs now) ops ->
  finalized ops = true.
Proof.
  intros Htl.
  apply (timeline_finalized _ _ _ _ Htl Created (task_ahead self run_id query max_docs now)).
  discriminate.
Qed.

(** ** Invariants of a run's lifetime *)





(** How the run object stands at every snapshot of a lifetime. *)
Lemma discipline_holds (self : BESSOrchestrator.t) (run_id query : string)
  (max_docs now : Z) (ops pre post : list op) :
  timeline true (BESSOrchestrator.task self run_id query max_docs now) ops ->
  ops = (pre ++ post)%list ->
  exists ph,
    discipline ph pre (rs_ops run_id pre (RunState.new run_id query max_docs now)).
Proof.
  apply lifetime_invariant; unfold discipline.
  - split; [reflexivity|]. split; [reflexivity|]. left. now repeat split.
  - intros pre0 rs now1 (Hf & Ho & HI).
    rewrite finalized_snoc, overwritten_snoc, cancel_accepted_snoc, Hf, Ho.
    cbn [writes_status orb andb negb].
    rewrite ?andb_true_r, ?andb_false_r, ?orb_false_r.
    split; [reflexivity|].
    destruct HI as [(Hc & Hs & H) | (Hc & Hs & H)]; rewrite Hc.
    + left. now repeat split.
    + right. right. now repeat split.
  - intros pre0 rs now0 a Hb (Hf & HI).
    destruct (rs_act_benign run_id now0 a rs Hb) as (E1 & E2 & E3 & E4 & _).
    assert (Hw : writes_status (Act now0 a) = false) by (destruct a; simpl in *; congruence).
    rewrite finalized_snoc, overwritten_snoc, cancel_accepted_snoc, Hf, Hw, E1, E2, E3, E4.
    rewrite ?andb_false_r, ?orb_false_r.
    split; [destruct a; simpl in *; congruence|]. exact HI.
  - intros pre0 rs now1 (Hf & HI).
    rewrite finalized_snoc, overwritten_snoc, cancel_accepted_snoc, Hf.
    cbn [writes_status orb andb negb].
    rewrite ?andb_true_r, ?andb_false_r, ?orb_false_r.
    split; [reflexivity|].
    assert (Hc : overwritten pre0 || cancel_accepted pre0 = cancel_accepted pre0
                 /\ (RunState.error rs = None /\ cancel_accepted pre0 = false
                     \/ is_Some (RunState.error rs) /\ cancel_accepted pre0 = true)
                 /\ RunState.result rs = None).
    { destruct HI as [(Hc & Ho & _ & _ & He & Hr)
                     | [(Hc & Ho & _ & _ & He & Hr) | (Hc & Ho & _ & _ & He & Hr)]];
        rewrite Hc, Ho, He; repeat split; eauto. }
    destruct Hc as (Hc & He & Hr). rewrite Hc. split; [reflexivity|].
    destruct (snd (BESSOrchestrator.pipeline _ _ _)) as [result|e]; simpl.
    + split; [reflexivity|]. left. split; [reflexivity|]. split; [eauto|].
      destruct He as [[-> ->] | [He ->]].
      * split; [intros [? ?]; discriminate | discriminate].
      * split; [reflexivity | intros _; exact He].
    + split; [reflexivity|]. right. split; [reflexivity|]. split; [exact Hr | eauto].
  - intros ph pre0 rs HI.
    rewrite finalized_snoc, overwritten_snoc, cancel_accepted_snoc.
    cbn [writes_status rs_op].
    rewrite ?andb_true_r, ?andb_false_r, ?orb_false_r.
    destruct ph.
    + destruct HI as (Hf & Ho & HI). rewrite Hf. cbn [negb]. rewrite orb_true_r.
      split; [reflexivity|]. split; [exact Ho|]. right. split; [reflexivity|].
      destruct HI as [(_ & _ & -> & _ & Hr) | (_ & Hs & Hfin & He & Hr)].
      * now repeat split.
      * rewrite Hfin. now repeat split.
    + destruct HI as (Hf & HI). rewrite Hf. cbn [negb]. rewrite orb_true_r.
      split; [reflexivity|].
      destruct HI as [(_ & Ho & _ & -> & _ & Hr)
                     | [(_ & Ho & Hs & Hfin & He & Hr) | (_ & Ho & Hs & Hfin & He & Hr)]].
      * right. left. now repeat split.
      * right. left. rewrite Hfin. now repeat split.
      * right. right. rewrite Hfin. now repeat split.
    + destruct HI as (Hf & Ho & Hfin & HI). rewrite Hf, Hfin. cbn [negb].
      rewrite orb_false_r. now repeat split.
Qed.

Ltac settle :=
  repeat split; intros;
  repeat match goal with
         | H : is_Some None |- _ => destruct (is_Some_None H)
         | H : _ /\ _ |- _ => destruct H
         | H : _ \/ _ |- _ => destruct H
         end;
  try discriminate; try congruence; eauto.

(** C1 (amended). At every point of a run's lifetime at which the run's
    task has not written the status of a canceled run (after a cancel
    request was accepted it has neither set the run Running nor finalized
    it), [result] is set exactly when the status is Succeeded and [error]
    is set exactly when the status is Failed or Canceled (cancel records
    "Canceled by user"); while the run is Queued or Running neither is
    set. *)
Theorem result_and_error_discipline (self : BESSOrchestrator.t) (run_id query : string)
  (max_docs now : Z) (runs : gmap string RunState.t) (ops pre post : list op) :
  timeline true (BESSOrchestrator.task self run_id query max_docs now) ops ->
  ops = (pre ++ post)%list ->
  overwritten pre = false ->
  exists rs,
    snapshot run_id query max_docs now runs pre !! run_id = Some rs
    /\ (is_Some (RunState.result rs) <-> RunState.status rs = RunStatus.SUCCEEDED)
    /\ (is_Some (RunState.error rs)
        <-> RunState.status rs = RunStatus.FAILED
            \/ RunState.status rs = RunStatus.CANCELED)
    /\ (RunState.status rs = RunStatus.QUEUED \/ RunState.status rs = RunStatus.RUNNING ->
        RunState.result rs = None /\ RunState.error rs = None).
Proof.
  intros Htl Hsplit Hover. eexists. split; [apply snapshot_lookup|].
  destruct (discipline_holds self run_id query max_docs now ops pre post Htl Hsplit)
    as [ph HI].
  unfold discipline in HI. destruct ph.
  - destruct HI as (_ & _ & [(_ & Hs & _ & He & Hr) | (_ & Hs & _ & He & Hr)]);
      rewrite Hs, He, Hr; settle.
  - destruct HI as (_ & [(_ & _ & Hs & _ & He & Hr)
                        | [(_ & _ & Hs & _ & He & Hr) | (_ & Ho & _)]]);
      [| |congruence]; rewrite Hs, He, Hr; settle.
  - destruct HI as (_ & Ho & _ & [(Hs & Hr & He) | (Hs & Hr & He)]); rewrite Hs.
    + rewrite <- Ho, Hover in He.
      destruct (RunState.error _) as [msg|]; [|settle].
      destruct He as [He _]. discriminate He. eauto.
    + rewrite Hr. settle.
Qed.


Lemma no_documents_outcome (self : BESSOrchestrator.t) (run_id : string)
  (run_state : RunState.t) :
  DocumentProcessor.found (BESSOrchestrator.doc_processor self) = Ok [] ->
  snd (BESSOrchestrator.pipeline self run_id run_state)
  = Raise match DocumentAssembler.saved (BESSOrchestrator.doc_assembler self) with
          | Ok _ => KeyError "total_found"
          | Raise e => e
          end.
Proof.
  destruct self as [[found] gen [md html saved date datetime]]. simpl.
  intros ->. destruct run_id as [|c rest], saved as [paths|e]; vm_compute; reflexivity.
Qed.

(** C2 (what the code does). When document discovery finds no file, the
    first stage does return its empty result and the later stages do run,
    but the first-stage result lacks the keys ["total_found"] and
    ["total_processed"] that [_run_pipeline] reads for the final result:
    the pipeline raises, no snapshot of the run is ever Succeeded, and the
    run ends Failed, with the error text ['total_found'] when the files
    could be written. *)
Theorem no_documents_run_fails (self : BESSOrchestrator.t) (run_id query : string)
  (max_docs now : Z) (runs : gmap string RunState.t) (ops pre post : list op) :
  DocumentProcessor.found (BESSOrchestrator.doc_processor self) = Ok [] ->
  timeline true (BESSOrchestrator.task self run_id query max_docs now) ops ->
  ops = (pre ++ post)%list ->
  exists rs,
    snapshot run_id query max_docs now runs pre !! run_id = Some rs
    /\ RunState.status rs <> RunStatus.SUCCEEDED
    /\ (post = [] ->
        RunState.status rs = RunStatus.FAILED
        /\ RunState.finished rs = true
        /\ RunState.result rs = None
        /\ (forall paths,
              DocumentAssembler.saved (BESSOrchestrator.doc_assembler self) = Ok paths ->
              RunState.error rs = Some "'total_found'")).
Proof.
  intros Hfound Htl Hsplit. eexists. split; [apply snapshot_lookup|].
  set (s0 := RunState.new run_id query max_docs now).
  pose proof (no_documents_outcome self run_id s0 Hfound) as Hout.
  pose (Inv := fun (ph : phase) (pre : list op) (rs : RunState.t) =>
    RunState.result rs = None
    /\ match ph with
       | Created =>
           finalized pre = false
           /\ (RunState.status rs = RunStatus.QUEUED
               \/ RunState.status rs = RunStatus.CANCELED)
       | Underway =>
           finalized pre = false
           /\ (RunState.status rs = RunStatus.RUNNING
               \/ RunState.status rs = RunStatus.CANCELED)
       | Ended =>
           finalized pre = true
           /\ RunState.status rs = RunStatus.FAILED
           /\ RunState.finished rs = true
           /\ (forall paths,
                 DocumentAssembler.saved (BESSOrchestrator.doc_assembler self) = Ok paths ->
                 RunState.error rs = Some "'total_found'")
       end).
  assert (H : exists ph, Inv ph pre (rs_ops run_id pre s0)).
  { apply (lifetime_invariant self run_id query max_docs now Inv) with (ops := ops) (post := post);
      auto; unfold Inv.
    - repeat split. now left.
    - intros pre0 rs now1 (Hr & Hf & Hs). rewrite finalized_snoc, Hf.
      repeat split; auto.
    - intros pre0 rs now0 a Hb (Hr & Hf & Hs).
      destruct (rs_act_benign run_id now0 a rs Hb) as (E1 & E2 & E3 & E4 & _).
      rewrite finalized_snoc, Hf, E1, E3.
      split; [exact Hr|]. split; [destruct a; simpl in *; congruence | exact Hs].
    - intros pre0 rs now1 (Hr & Hf & Hs). fold s0. rewrite Hout.
      rewrite finalized_snoc, Hf. simpl. repeat split; auto.
      intros paths ->. reflexivity.
    - intros ph pre0 rs (Hr & HI). rewrite finalized_snoc, orb_false_r. cbn [rs_op].
      destruct ph.
      + destruct HI as (Hf & Hs).
        destruct (RunState.finished rs); cbn iota; [now repeat split|].
        repeat split; auto.
      + destruct HI as (Hf & Hs).
        destruct (RunState.finished rs); cbn iota; [now repeat split|].
        repeat split; auto.
      + destruct HI as (Hf & Hs & Hfin & He). rewrite Hfin. now repeat split. }
  destruct H as [ph (Hr & HI)].
  split.
  - destruct ph.
    + destruct HI as (_ & [-> | ->]); discriminate.
    + destruct HI as (_ & [-> | ->]); discriminate.
    + destruct HI as (_ & -> & _). discriminate.
  - intros ->. rewrite app_nil_r in Hsplit. subst ops.
    pose proof (whole_timeline_finalized _ _ _ _ _ _ Htl) as Hdone.
    destruct ph.
    + destruct HI as (Hf & _). congruence.
    + destruct HI as (Hf & _). congruence.
    + destruct HI as (_ & Hs & Hfin & He). auto.
Qed.

(** ** Worked examples *)

Lemma timeline_uninterrupted (acts : list act) :
  forall idle, timeline idle acts (uninterrupted acts).
Proof.
  induction acts as [|a rest IH]; intros idle; simpl; constructor. apply IH.
Qed.

Lemma timeline_canceled_at_first_await (acts : list act) :
  forall idle, timeline idle acts (canceled_at_first_await acts).
Proof.
  induction acts as [|a rest IH]; intros idle; simpl; [constructor|].
  destruct a; try (constructor; apply IH).
  constructor. simpl. constructor. apply timeline_uninterrupted.
Qed.

Lemma through_and_after_cancel (ops : list op) :
  ops = (through_cancel ops ++ after_cancel ops)%list.
Proof.
  induction ops as [|o rest IH]; [reflexivity|].
  destruct o; simpl; [now rewrite <- IH | reflexivity].
Qed.

Lemma canceled_run_timeline :
  timeline true (BESSOrchestrator.task one_document "run-1" "BESS" 10 0) canceled_run.
Proof. apply timeline_canceled_at_first_await. Qed.


Lemma empty_run_timeline :
  timeline true (BESSOrchestrator.task empty_directory "run-1" "BESS" 10 0) empty_run.
Proof. apply timeline_uninterrupted. Qed.

Lemma result_and_error_discipline_witness :
  exists rs,
    snapshot "run-1" "BESS" 10 0 ∅ (through_cancel canceled_run) !! "run-1" = Some rs
    /\ (is_Some (RunState.result rs) <-> RunState.status rs = RunStatus.SUCCEEDED)
    /\ (is_Some (RunState.error rs)
        <-> RunState.status rs = RunStatus.FAILED
            \/ RunState.status rs = RunStatus.CANCELED)
    /\ (RunState.status rs = RunStatus.QUEUED \/ RunState.status rs = RunStatus.RUNNING ->
        RunState.result rs = None /\ RunState.error rs = None).
Proof.
  apply (result_and_error_discipline one_document "run-1" "BESS" 10 0 ∅
           canceled_run (through_cancel canceled_run) (after_cancel canceled_run)).
  - exact canceled_run_timeline.
  - apply through_and_after_cancel.
  - vm_compute. reflexivity.
Defined.

(** C1 (as stated) fails: a run canceled at its first suspension point is
    finished, with status Canceled, not Failed, and with the error text
    that [cancel_run] stores. *)
Lemma canceled_run_carries_error :
  timeline true (BESSOrchestrator.task one_document "run-1" "BESS" 10 0) canceled_run
  /\ canceled_run = (through_cancel canceled_run ++ after_cancel canceled_run)%list
  /\ exists rs,
       snapshot "run-1" "BESS" 10 0 ∅ (through_cancel canceled_run) !! "run-1" = Some rs
       /\ RunState.finished rs = true
       /\ RunState.status rs = RunStatus.CANCELED
       /\ RunState.error rs = Some "Canceled by user"
       /\ ~ (is_Some (RunState.error rs) <-> RunState.status rs = RunStatus.FAILED).
Proof.
  split; [exact canceled_run_timeline|].
  split; [apply through_and_after_cancel|].
  eexists. split; [apply snapshot_lookup|].
  split; [vm_compute; reflexivity|]. split; [vm_compute; reflexivity|].
  split; [vm_compute; reflexivity|].
  intros [H _].
  assert (E : RunState.status
                (rs_ops "run-1" (through_cancel canceled_run)
                   (RunState.new "run-1" "BESS" 10 0)) = RunStatus.CANCELED)
    by (vm_compute; reflexivity).
  rewrite E in H. discriminate H. vm_compute. eauto.
Qed.




Lemma no_documents_run_fails_witness :
  exists rs,
    snapshot "run-1" "BESS" 10 0 ∅ empty_run !! "run-1" = Some rs
    /\ RunState.status rs <> RunStatus.SUCCEEDED
    /\ (@nil op = [] ->
        RunState.status rs = RunStatus.FAILED
        /\ RunState.finished rs = true
        /\ RunState.result rs = None
        /\ (forall paths,
              DocumentAssembler.saved (BESSOrchestrator.doc_assembler empty_directory)
              = Ok paths ->
              RunState.error rs = Some "'total_found'")).
Proof.
  apply (no_documents_run_fails empty_directory "run-1" "BESS" 10 0 ∅
           empty_run empty_run []).
  - reflexivity.
  - exact empty_run_timeline.
  - symmetry. apply app_nil_r.
Defined.

(** Scenario B on [empty_directory], evaluated: the first stage publishes
    its Warning and a Completed event, all three stages start, and the run
    ends Failed on the missing key. *)
Example empty_directory_run :
  exists rs,
    snapshot "run-1" "BESS" 10 0 ∅ empty_run !! "run-1" = Some rs
    /\ map (fun e => (AgentEvent.agent_id e, AgentEvent.event_type e))
         (filter (fun e => AgentEvent.event_type e <> EventType.PROGRESS
                           /\ AgentEvent.event_type e <> EventType.STEP_STARTED)
            (RunState.events rs))
       = [("document_processor", EventType.STARTED);
          ("document_processor", EventType.WARNING);
          ("document_processor", EventType.COMPLETED);
          ("content_generator", EventType.STARTED);
          ("content_generator", EventType.WARNING);
          ("content_generator", EventType.COMPLETED);
          ("document_assembler", EventType.STARTED);
          ("document_assembler", EventType.COMPLETED)]
    /\ RunState.status rs = RunStatus.FAILED
    /\ RunState.error rs = Some "'total_found'"
    /\ RunState.result rs = None.
Proof.
  eexists. split; [apply snapshot_lookup|]. vm_compute. repeat split.
Qed.



(** * Further properties *)

(** ** The subscriber *)

Lemma event_of_unknown_run_is_ignored (now : Z) (event : AgentEvent.t)
  (runs : gmap string RunState.t) :
  runs !! AgentEvent.run_id event = None ->
  BESSOrchestrator._handle_agent_event now event runs = (runs, Ok tt).
Proof.
  intros H. unfold BESSOrchestrator._handle_agent_event. now rewrite H.
Qed.

Lemma in_range_update_keeps (c t : option pyval) (base weight : Q) (rs : RunState.t) :
  let rs' := fst (BESSOrchestrator.in_range_update c t base weight rs) in
  RunState.id rs' = RunState.id rs
  /\ RunState.query rs' = RunState.query rs
  /\ RunState.max_docs rs' = RunState.max_docs rs
  /\ RunState.created_at rs' = RunState.created_at rs
  /\ RunState.events rs' = RunState.events rs.
Proof.
  unfold BESSOrchestrator.in_range_update.
  destruct c as [c|], t as [t|]; simpl; try solve [repeat split].
  unfold bind, lift_result. destruct (weighted_fraction c t weight); simpl; repeat split.
Qed.

Lemma update_for_keeps (e : AgentEvent.t) (rs : RunState.t) :
  let rs' := fst (BESSOrchestrator.update_for e rs) in
  RunState.id rs' = RunState.id rs
  /\ RunState.query rs' = RunState.query rs
  /\ RunState.max_docs rs' = RunState.max_docs rs
  /\ RunState.created_at rs' = RunState.created_at rs
  /\ RunState.events rs' = RunState.events rs.
Proof.
  unfold BESSOrchestrator.update_for.
  destruct (AgentEvent.event_type e); try solve [simpl; repeat split].
  destruct (String.eqb (AgentEvent.agent_id e) "document_processor").
  - destruct (AgentEvent.data e !! "current") as [c|],
      (AgentEvent.data e !! "total") as [t|];
      destruct (AgentEvent.data e !! "total_docs");
      unfold bind, modify, lift_result, ret; simpl; try solve [repeat split];
      destruct (weighted_fraction c t 40); simpl; repeat split.
  - destruct (String.eqb (AgentEvent.agent_id e) "content_generator");
      [|destruct (String.eqb (AgentEvent.agent_id e) "document_assembler")];
      try apply in_range_update_keeps.
    simpl. repeat split.
Qed.

Lemma handle_on_run_keeps (now : Z) (e : AgentEvent.t) (rs : RunState.t) :
  let rs' := fst (BESSOrchestrator.handle_on_run now e rs) in
  RunState.id rs' = RunState.id rs
  /\ RunState.query rs' = RunState.query rs
  /\ RunState.max_docs rs' = RunState.max_docs rs
  /\ RunState.created_at rs' = RunState.created_at rs
  /\ RunState.events rs' = (RunState.events rs ++ [e])%list.
Proof.
  unfold BESSOrchestrator.handle_on_run, bind, modify.
  pose proof (update_for_keeps e (RunState.events_append e rs)) as H.
  destruct (BESSOrchestrator.update_for e (RunState.events_append e rs))
    as [rs1 [[]|ex]]; simpl in *;
    destruct H as (H1 & H2 & H3 & H4 & H5); repeat split; auto.
Qed.

(** X1. Handling an event of a registered run appends exactly that event
    to the run's log and never touches the run's status, [finished] flag,
    result, identifier, query, document limit or creation time, whether the
    handler returns or raises; every other run is left as it was. *)
Theorem subscriber_only_annotates (now : Z) (event : AgentEvent.t)
  (runs : gmap string RunState.t) (rs : RunState.t) :
  runs !! AgentEvent.run_id event = Some rs ->
  exists rs',
    fst (BESSOrchestrator._handle_agent_event now event runs) !! AgentEvent.run_id event
    = Some rs'
    /\ RunState.events rs' = (RunState.events rs ++ [event])%list
    /\ RunState.status rs' = RunState.status rs
    /\ RunState.finished rs' = RunState.finished rs
    /\ RunState.result rs' = RunState.result rs
    /\ RunState.id rs' = RunState.id rs
    /\ RunState.query rs' = RunState.query rs
    /\ RunState.max_docs rs' = RunState.max_docs rs
    /\ RunState.created_at rs' = RunState.created_at rs
    /\ (forall other, other <> AgentEvent.run_id event ->
          fst (BESSOrchestrator._handle_agent_event now event runs) !! other
          = runs !! other).
Proof.
  intros H. unfold BESSOrchestrator._handle_agent_event. rewrite H.
  pose proof (handle_on_run_keeps now event rs) as (K1 & K2 & K3 & K4 & K5).
  pose proof (handle_on_run_effect now event rs) as (E1 & E2 & E3 & _).
  destruct (BESSOrchestrator.handle_on_run now event rs) as [rs' r]. simpl in *.
  exists rs'. rewrite lookup_insert_eq. repeat split; auto.
  intros other Hne. now rewrite lookup_insert_ne.
Qed.

Lemma subscriber_only_annotates_witness :
  exists rs',
    fst (BESSOrchestrator._handle_agent_event 5
           (sample_progress "document_processor" 1 2) sample_runs) !! "run-1"
    = Some rs'
    /\ RunState.events rs'
       = (RunState.events sample_run ++ [sample_progress "document_processor" 1 2])%list
    /\ RunState.status rs' = RunState.status sample_run
    /\ RunState.finished rs' = RunState.finished sample_run
    /\ RunState.result rs' = RunState.result sample_run
    /\ RunState.id rs' = RunState.id sample_run
    /\ RunState.query rs' = RunState.query sample_run
    /\ RunState.max_docs rs' = RunState.max_docs sample_run
    /\ RunState.created_at rs' = RunState.created_at sample_run
    /\ (forall other, other <> "run-1" ->
          fst (BESSOrchestrator._handle_agent_event 5
                 (sample_progress "document_processor" 1 2) sample_runs) !! other
          = sample_runs !! other).
Proof.
  apply (subscriber_only_annotates 5 (sample_progress "document_processor" 1 2)
           sample_runs sample_run).
  reflexivity.
Defined.

(** X2. A Progress event of the document processor whose [total] is not
    a number makes the subscriber raise a [TypeError] after it has appended
    the event and overwritten [processed_docs] and [total_docs]; progress
    and [updated_at] keep their values, and the bus swallows the error. *)
Theorem non_numeric_total_stops_the_update (now : Z) (event : AgentEvent.t)
  (runs : gmap string RunState.t) (rs : RunState.t) (current total : pyval) :
  runs !! AgentEvent.run_id event = Some rs ->
  AgentEvent.event_type event = EventType.PROGRESS ->
  AgentEvent.agent_id event = "document_processor" ->
  AgentEvent.data event !! "current" = Some current ->
  AgentEvent.data event !! "total" = Some total ->
  as_number total = None ->
  exists rs' e,
    BESSOrchestrator._handle_agent_event now event runs
    = (<[AgentEvent.run_id event := rs']> runs, Raise (TypeError e))
    /\ RunState.events rs' = (RunState.events rs ++ [event])%list
    /\ RunState.processed_docs rs' = current
    /\ RunState.total_docs rs' = total
    /\ RunState.progress rs' = RunState.progress rs
    /\ RunState.updated_at rs' = RunState.updated_at rs
    /\ fst (fst (EventEmitter.emit (subscribers now) event (runs, [])))
       = <[AgentEvent.run_id event := rs']> runs
    /\ snd (EventEmitter.emit (subscribers now) event (runs, [])) = Ok tt.
Proof.
  intros Hrun Hty Hid Hc Ht Hnum.
  assert (E : BESSOrchestrator.handle_on_run now event rs
              = (RunState.set_total_docs total
                   (RunState.set_processed_docs current (RunState.events_append event rs)),
                 Raise (TypeError "'>' not supported between these operands"))).
  { unfold BESSOrchestrator.handle_on_run, BESSOrchestrator.update_for.
    rewrite Hty, Hid, Hc, Ht. simpl.
    unfold bind, modify, lift_result, weighted_fraction, py_gt_zero. simpl.
    now rewrite Hnum. }
  assert (E' : BESSOrchestrator._handle_agent_event now event runs
               = (<[AgentEvent.run_id event :=
                      RunState.set_total_docs total
                        (RunState.set_processed_docs current
                           (RunState.events_append event rs))]> runs,
                  Raise (TypeError "'>' not supported between these operands"))).
  { unfold BESSOrchestrator._handle_agent_event. now rewrite Hrun, E. }
  eexists _, _. split; [exact E'|]. repeat split.
  - rewrite emit_to_subscriber, E'. reflexivity.
  - unfold EventEmitter.emit. unfold bind at 1.
    unfold EventEmitter.log_line at 1, modify at 1. cbn [fst snd].
    now rewrite for_each_callbacks.
Qed.

Lemma non_numeric_total_stops_the_update_witness :
  exists rs' e,
    BESSOrchestrator._handle_agent_event 5 sample_bad_progress sample_runs
    = (<["run-1" := rs']> sample_runs, Raise (TypeError e))
    /\ RunState.events rs' = (RunState.events sample_run ++ [sample_bad_progress])%list
    /\ RunState.processed_docs rs' = PyInt 1
    /\ RunState.total_docs rs' = PyStr "two"
    /\ RunState.progress rs' = RunState.progress sample_run
    /\ RunState.updated_at rs' = RunState.updated_at sample_run
    /\ fst (fst (EventEmitter.emit (subscribers 5) sample_bad_progress (sample_runs, [])))
       = <["run-1" := rs']> sample_runs
    /\ snd (EventEmitter.emit (subscribers 5) sample_bad_progress (sample_runs, [])) = Ok tt.
Proof.
  apply (non_numeric_total_stops_the_update 5 sample_bad_progress sample_runs sample_run
           (PyInt 1) (PyStr "two")); reflexivity.
Defined.

(** ** Starting, cancelling and reading a run *)

Lemma to_dict_status (r : RunState.t) :
  AgentOrchestrator.to_dict r !! "status"
  = Some (PyStr (RunStatus.value (RunState.status r))).
Proof. unfold AgentOrchestrator.to_dict. now simplify_map_eq. Qed.

Lemma to_dict_result (r : RunState.t) :
  AgentOrchestrator.to_dict r !! "result" = Some (default PyNone (RunState.result r)).
Proof. unfold AgentOrchestrator.to_dict. now simplify_map_eq. Qed.

Lemma to_dict_error (r : RunState.t) :
  AgentOrchestrator.to_dict r !! "error" = Some (opt_str (RunState.error r)).
Proof. unfold AgentOrchestrator.to_dict. now simplify_map_eq. Qed.


(** X4. Cancelling an unfinished run keeps its progress, event log,
    current step, counters, result and [updated_at], leaves every other
    run alone, and makes any further cancel of the same run answer 400. *)
Theorem cancel_keeps_the_record (run_id : string) (runs : gmap string RunState.t)
  (rs : RunState.t) :
  runs !! run_id = Some rs ->
  RunState.finished rs = false ->
  exists runs' response rs',
    Routes.cancel_run run_id runs = (runs', Ok response)
    /\ runs' !! run_id = Some rs'
    /\ RunState.progress rs' = RunState.progress rs
    /\ RunState.events rs' = RunState.events rs
    /\ RunState.current_step rs' = RunState.current_step rs
    /\ RunState.processed_docs rs' = RunState.processed_docs rs
    /\ RunState.total_docs rs' = RunState.total_docs rs
    /\ RunState.result rs' = RunState.result rs
    /\ RunState.updated_at rs' = RunState.updated_at rs
    /\ (forall other, other <> run_id -> runs' !! other = runs !! other)
    /\ Routes.cancel_run run_id runs'
       = (runs', Raise (HTTPException 400 "Run already finished")).
Proof.
  intros Hrun Hfin. rewrite (cancel_run_known run_id runs rs Hrun), Hfin.
  eexists _, _, _. split; [reflexivity|]. split; [apply lookup_insert_eq|].
  repeat split.
  - intros other Hne. now rewrite lookup_insert_ne.
  - rewrite (cancel_run_known run_id _ (Routes.mark_canceled rs)) by apply lookup_insert_eq.
    reflexivity.
Qed.

Lemma cancel_keeps_the_record_witness :
  exists runs' response rs',
    Routes.cancel_run "run-1" sample_runs = (runs', Ok response)
    /\ runs' !! "run-1" = Some rs'
    /\ RunState.progress rs' = RunState.progress sample_run
    /\ RunState.events rs' = RunState.events sample_run
    /\ RunState.current_step rs' = RunState.current_step sample_run
    /\ RunState.processed_docs rs' = RunState.processed_docs sample_run
    /\ RunState.total_docs rs' = RunState.total_docs sample_run
    /\ RunState.result rs' = RunState.result sample_run
    /\ RunState.updated_at rs' = RunState.updated_at sample_run
    /\ (forall other, other <> "run-1" -> runs' !! other = sample_runs !! other)
    /\ Routes.cancel_run "run-1" runs'
       = (runs', Raise (HTTPException 400 "Run already finished")).
Proof.
  apply (cancel_keeps_the_record "run-1" sample_runs sample_run); reflexivity.
Defined.

(** X5. The result route answers 404 for an unknown run, 400 "Run not
    yet completed" for an unfinished one, 400 "Run failed: <error>" for a
    finished run that is not Succeeded (a Canceled run included), 404 "No
    result available" for a Succeeded run whose result is missing or
    empty, and the result otherwise; it never changes the registry. *)
Theorem get_run_result_outcomes (run_id : string) (runs : gmap string RunState.t) :
  match runs !! run_id with
  | None =>
      RunRoutes.get_run_result run_id runs
      = (runs, Raise (HTTPException 404 "Run not found"))
  | Some rs =>
      if negb (RunState.finished rs) then
        RunRoutes.get_run_result run_id runs
        = (runs, Raise (HTTPException 400 "Run not yet completed"))
      else
        match RunState.status rs with
        | RunStatus.SUCCEEDED =>
            match RunState.result rs with
            | Some result =>
                if truthy result
                then RunRoutes.get_run_result run_id runs = (runs, Ok result)
                else RunRoutes.get_run_result run_id runs
                     = (runs, Raise (HTTPException 404 "No result available"))
            | None =>
                RunRoutes.get_run_result run_id runs
                = (runs, Raise (HTTPException 404 "No result available"))
            end
        | _ =>
            RunRoutes.get_run_result run_id runs
            = (runs, Raise (HTTPException 400
                              ("Run failed: "
                               ++ match RunState.error rs with
                                  | Some text => text
                                  | None => "None"
                                  end)))
        end
  end.
Proof.
  unfold RunRoutes.get_run_result, AgentOrchestrator.get_run_status.
  destruct (runs !! run_id) as [rs|]; [|reflexivity].
  cbn [Routes.not_status Routes.status_get].
  rewrite to_dict_not_empty, to_dict_finished, to_dict_status, to_dict_result,
    to_dict_error. simpl.
  destruct (RunState.finished rs); [|reflexivity]. simpl.
  destruct (RunState.status rs); simpl;
    try (destruct (RunState.error rs); reflexivity).
  destruct (RunState.result rs) as [result|]; simpl; [|reflexivity].
  now destruct (truthy result).
Qed.

(** ** Summary and subscription *)

Lemma count_kind_le (ty : EventType.t) (events : list AgentEvent.t) :
  (0 <= Summary.count_kind ty events <= Z.of_nat (length events))%Z.
Proof.
  unfold Summary.count_kind. split; [lia|].
  apply inj_le, length_filter.
Qed.

Lemma three_kinds_le (events : list AgentEvent.t) :
  (Summary.count_kind EventType.WARNING events
   + Summary.count_kind EventType.ERROR events
   + Summary.count_kind EventType.STEP_COMPLETED events
   <= Z.of_nat (length events))%Z.
Proof.
  unfold Summary.count_kind. induction events as [|e rest IH]; simpl; [lia|].
  rewrite !filter_cons.
  destruct (AgentEvent.event_type e);
    repeat case_decide; try congruence; simpl length; lia.
Qed.

Lemma agents_involved_le (events : list AgentEvent.t) :
  (0 <= Summary.agents_involved events <= Z.of_nat (length events))%Z.
Proof.
  unfold Summary.agents_involved. split; [lia|]. apply inj_le.
  induction events as [|e rest IH]; simpl; [reflexivity|].
  destruct (decide (AgentEvent.agent_id e
                    ∈ (list_to_set (map AgentEvent.agent_id rest) : gset string))).
  - rewrite (subseteq_union_1_L {[AgentEvent.agent_id e]}) by
      (now apply singleton_subseteq_l).
    lia.
  - rewrite size_union by (now apply disjoint_singleton_l).
    rewrite size_singleton. lia.
Qed.

(** X6. The summary route answers 404 for an unknown run; otherwise it
    returns the status dictionary extended by a summary whose
    [total_events] is the length of the log, whose warning, error and
    completed-step counts are non-negative and together at most that
    length, and whose count of distinct agents is at most that length. *)
Theorem summary_counts (run_id : string) (runs : gmap string RunState.t) :
  match runs !! run_id with
  | None =>
      RunRoutes.get_run_summary run_id runs
      = (runs, Raise (HTTPException 404 "Run not found"))
  | Some rs =>
      exists d s,
        RunRoutes.get_run_summary run_id runs = (runs, Ok d)
        /\ d !! "summary" = Some (PyDict s)
        /\ (forall key, key <> "summary" ->
              d !! key = AgentOrchestrator.to_dict rs !! key)
        /\ s !! "total_events" = Some (PyInt (Z.of_nat (length (RunState.events rs))))
        /\ exists warnings errors steps agents,
            s !! "warnings" = Some (PyInt warnings)
            /\ s !! "errors" = Some (PyInt errors)
            /\ s !! "steps_completed" = Some (PyInt steps)
            /\ s !! "agents_involved" = Some (PyInt agents)
            /\ (0 <= warnings)%Z /\ (0 <= errors)%Z /\ (0 <= steps)%Z
            /\ (warnings + errors + steps <= Z.of_nat (length (RunState.events rs)))%Z
            /\ (0 <= agents <= Z.of_nat (length (RunState.events rs)))%Z
  end.
Proof.
  unfold RunRoutes.get_run_summary, Summary.get_run_summary.
  destruct (runs !! run_id) as [rs|]; [|reflexivity].
  assert (N : (size (<["summary" := PyDict (Summary.summary (RunState.events rs))]>
                        (AgentOrchestrator.to_dict rs)) =? 0)%nat = false).
  { apply Nat.eqb_neq. intros H. apply map_size_empty_iff in H.
    apply (f_equal (fun m => m !! "summary")) in H.
    rewrite lookup_insert_eq, lookup_empty in H. discriminate. }
  simpl. rewrite N. eexists _, _. split; [reflexivity|].
  split; [apply lookup_insert_eq|].
  split; [intros key Hne; now rewrite lookup_insert_ne|].
  split; [reflexivity|].
  eexists _, _, _, _. repeat split; try reflexivity;
    try apply count_kind_le; try apply three_kinds_le; apply agents_involved_le.
Qed.

Lemma deliver_app {S} (l1 l2 : list (EventEmitter.callback S))
  (event : AgentEvent.t) (s : S) :
  deliver (l1 ++ l2) event s = deliver l2 event (deliver l1 event s).
Proof. unfold deliver. apply fold_left_app. Qed.

Lemma emit_result {S} (subscribers : list (EventEmitter.callback S))
  (event : AgentEvent.t) (s : S) (log : list string) :
  fst (fst (EventEmitter.emit subscribers event (s, log))) = deliver subscribers event s
  /\ snd (EventEmitter.emit subscribers event (s, log)) = Ok tt.
Proof.
  split; unfold EventEmitter.emit; unfold bind at 1;
    unfold EventEmitter.log_line at 1, modify at 1; cbn [fst snd];
    rewrite for_each_callbacks; reflexivity.
Qed.

(** X7. A callback subscribed later is called after all earlier
    subscribers, on the state they leave, and publishing still returns
    normally. *)
Theorem late_subscriber_is_called_last {S} (callback : EventEmitter.callback S)
  (subscribers : list (EventEmitter.callback S)) (event : AgentEvent.t)
  (s : S) (log : list string) :
  fst (fst (EventEmitter.emit (Subscription.subscribe callback subscribers) event (s, log)))
  = fst (callback event
           (fst (fst (EventEmitter.emit subscribers event (s, log)))))
  /\ snd (EventEmitter.emit (Subscription.subscribe callback subscribers) event (s, log))
     = Ok tt.
Proof.
  destruct (emit_result (Subscription.subscribe callback subscribers) event s log)
    as [-> ->].
  destruct (emit_result subscribers event s log) as [-> _].
  unfold Subscription.subscribe. rewrite deliver_app. split; reflexivity.
Qed.

(** ** The execution wrapper, further *)

Lemma execute_shape (run_id : string)
  (work : BaseAgent.M (gmap string pyval)) (self : BaseAgent.t) (bus : list act) :
  exists self1 bus1 r,
    BaseAgent.execute run_id work (self, bus) = ((released self1, bus1), r).
Proof.
  unfold BaseAgent.execute. unfold bind at 1. unfold modify at 1.
  unfold try_finally.
  destruct (try_except _ _ _) as [[self1 bus1] r]. now exists self1, bus1, r.
Qed.

(** X8. Whatever the work does, even if it rewrites the agent's fields or
    raises, [execute] leaves the agent not running and bound to no run:
    the [finally] clause always runs. *)
Theorem execute_always_releases (run_id : string)
  (work : BaseAgent.M (gmap string pyval)) (self : BaseAgent.t) (bus : list act) :
  BaseAgent.is_running (fst (fst (BaseAgent.execute run_id work (self, bus)))) = false
  /\ BaseAgent.current_run_id (fst (fst (BaseAgent.execute run_id work (self, bus))))
     = None
  /\ BaseAgent.bound_run (fst (fst (BaseAgent.execute run_id work (self, bus)))) = None.
Proof.
  destruct (execute_shape run_id work self bus) as (self1 & bus1 & r & ->).
  repeat split.
Qed.

Lemma emit_event_unbound (self : BaseAgent.t) (bus : list act)
  (ty : EventType.t) (message : string) (data : gmap string pyval)
  (error : option string) :
  BaseAgent.bound_run self = None ->
  BaseAgent.emit_event ty message data error (self, bus) = ((self, bus), Ok tt).
Proof. intros H. unfold BaseAgent.emit_event. simpl. now rewrite H. Qed.

(** X9. Outside an invocation the helper operations publish nothing: after
    any [execute] has returned, [emit_step], [emit_progress] and
    [emit_warning] leave the agent and the bus as they are ([emit_progress]
    raises instead of returning when [current / total] is too large for a
    float); and so does the warning the content generator tries to publish
    from its constructor when no API key is set, since a fresh agent is
    bound to no run. *)
Theorem helpers_outside_execute_are_silent (run_id : string)
  (work : BaseAgent.M (gmap string pyval)) (self : BaseAgent.t) (bus : list act)
  (step_name message : string) (current total : Z) (cfg : ContentGenerator.t) :
  let after := fst (BaseAgent.execute run_id work (self, bus)) in
  BaseAgent.emit_step step_name message after = (after, Ok tt)
  /\ BaseAgent.emit_progress current total message after
     = (after, match BaseAgent.percentage current total with
               | Ok _ => Ok tt
               | Raise e => Raise e
               end)
  /\ ((total <= 0 \/ 0 <= current <= total)%Z ->
      BaseAgent.emit_progress current total message after = (after, Ok tt))
  /\ BaseAgent.emit_warning message ∅ after = (after, Ok tt)
  /\ ContentGeneratorSetup.__init__ cfg (BaseAgent.new "content_generator", bus)
     = ((BaseAgent.new "content_generator", bus), Ok tt).
Proof.
  destruct (execute_shape run_id work self bus) as (self1 & bus1 & r & ->).
  cbn [fst].
  assert (Hp : BaseAgent.emit_progress current total message (released self1, bus1)
               = ((released self1, bus1),
                  match BaseAgent.percentage current total with
                  | Ok _ => Ok tt
                  | Raise e => Raise e
                  end)).
  { unfold BaseAgent.emit_progress, bind, lift_result.
    destruct (BaseAgent.percentage current total); [|reflexivity].
    now apply emit_event_unbound. }
  unfold BaseAgent.emit_step, BaseAgent.emit_warning.
  rewrite !emit_event_unbound by reflexivity.
  split; [reflexivity|]. split; [exact Hp|]. split.
  - intros H. rewrite Hp.
    destruct (percentage_in_range current total H) as [progress ->]. reflexivity.
  - split; [reflexivity|].
    unfold ContentGeneratorSetup.__init__, BaseAgent.emit_warning.
    destruct (ContentGenerator.use_mock cfg); [|reflexivity].
    now apply emit_event_unbound.
Qed.

(** X10. For a non-empty run identifier and an invocation in which the
    stage contract is kept (the agent's fields are left alone while the
    work runs, by the work and by the other runs, and the work publishes no
    lifecycle event of its own), the bus traffic of [execute] is framed:
    first the Started event, then what the work publishes, last the
    terminal event; nothing already on the bus is changed; the outcome of
    the work is passed on unchanged (its result returned, its exception
    re-raised); the Completed event carries the text of the result under
    ["result"], the Failed event carries [str(e)] as its error. *)
Theorem execute_frames_the_work (run_id : string)
  (work : BaseAgent.M (gmap string pyval)) (self : BaseAgent.t) (bus new : list act)
  (r : result (gmap string pyval)) :
  run_id <> "" ->
  keeps_contract work (bound_to run_id self)
    (bus ++ [Emit (started_event run_id (BaseAgent.agent_id self))])%list new r ->
  BaseAgent.execute run_id work (self, bus)
  = ((released self,
      (bus ++ [Emit (started_event run_id (BaseAgent.agent_id self))] ++ new
           ++ [Emit (terminal_event run_id (BaseAgent.agent_id self) r)])%list), r)
  /\ Forall (fun a => own_act a = true) new
  /\ match r with
     | Ok result =>
         AgentEvent.data (terminal_event run_id (BaseAgent.agent_id self) r) !! "result"
         = Some (PyStrOf (PyDict result))
     | Raise e =>
         AgentEvent.error (terminal_event run_id (BaseAgent.agent_id self) r)
         = Some (str_exn e)
     end.
Proof.
  intros Hid [Hrun Hnew].
  split; [now apply execute_unfold|]. split; [exact Hnew|].
  destruct r; reflexivity.
Qed.

Lemma execute_frames_the_work_witness :
  exists new r,
    BaseAgent.execute "run-1"
      (DocumentProcessor._execute (DocumentProcessor.mk (Ok [sample_doc])) "BESS" 10)
      (BaseAgent.new "document_processor", [])
    = ((released (BaseAgent.new "document_processor"),
        ([] ++ [Emit (started_event "run-1"
                        (BaseAgent.agent_id (BaseAgent.new "document_processor")))]
            ++ new
            ++ [Emit (terminal_event "run-1"
                        (BaseAgent.agent_id (BaseAgent.new "document_processor")) r)])%list),
       r)
    /\ Forall (fun a => own_act a = true) new
    /\ match r with
       | Ok result =>
           AgentEvent.data
             (terminal_event "run-1"
                (BaseAgent.agent_id (BaseAgent.new "document_processor")) r) !! "result"
           = Some (PyStrOf (PyDict result))
       | Raise e =>
           AgentEvent.error
             (terminal_event "run-1"
                (BaseAgent.agent_id (BaseAgent.new "document_processor")) r)
           = Some (str_exn e)
       end.
Proof.
  destruct (stage_work_contract
              (DocumentProcessor._execute (DocumentProcessor.mk (Ok [sample_doc])) "BESS" 10)
              "run-1" (BaseAgent.new "document_processor")
              ([] ++ [Emit (started_event "run-1"
                              (BaseAgent.agent_id (BaseAgent.new "document_processor")))])
              (document_processor_stage_work _ _ _) eq_refl)
    as (new & r & Hkeeps).
  exists new, r.
  apply (execute_frames_the_work "run-1"
           (DocumentProcessor._execute (DocumentProcessor.mk (Ok [sample_doc])) "BESS" 10)
           (BaseAgent.new "document_processor") [] new r).
  - discriminate.
  - exact Hkeeps.
Defined.

(** ** What the stages return *)

Lemma returns_ret {S A} (a : A) : returns (@ret (S * list act) A a) (Ok a).
Proof. intros s bus. now exists s, bus. Qed.

Lemma returns_raise {S A} (e : exn) : returns (@raise (S * list act) A e) (Raise e).
Proof. intros s bus. now exists s, bus. Qed.

Lemma returns_lift_result {S A} (r : result A) :
  returns (@lift_result (S * list act) A r) r.
Proof. intros s bus. now exists s, bus. Qed.

Lemma returns_bind {S A B} (m : SE (S * list act) A) (k : A -> SE (S * list act) B)
  (a : A) (r : result B) :
  returns m (Ok a) -> returns (k a) r -> returns (bind m k) r.
Proof.
  intros Hm Hk s bus. unfold bind.
  destruct (Hm s bus) as (s1 & bus1 & ->). apply Hk.
Qed.

Lemma returns_bind_raise {S A B} (m : SE (S * list act) A)
  (k : A -> SE (S * list act) B) (e : exn) :
  returns m (Raise e) -> returns (bind m k) (Raise e).
Proof.
  intros Hm s bus. unfold bind.
  destruct (Hm s bus) as (s1 & bus1 & ->). now exists s1, bus1.
Qed.

Lemma returns_try_ok {S A} (m : SE (S * list act) A) (h : exn -> SE (S * list act) A)
  (a : A) :
  returns m (Ok a) -> returns (try_except m h) (Ok a).
Proof.
  intros Hm s bus. unfold try_except.
  destruct (Hm s bus) as (s1 & bus1 & ->). now exists s1, bus1.
Qed.

Lemma returns_try_raise {S A} (m : SE (S * list act) A) (h : exn -> SE (S * list act) A)
  (e : exn) (r : result A) :
  returns m (Raise e) -> returns (h e) r -> returns (try_except m h) r.
Proof.
  intros Hm Hh s bus. unfold try_except.
  destruct (Hm s bus) as (s1 & bus1 & ->). apply Hh.
Qed.

Lemma returns_emit_event ty message data error :
  returns (BaseAgent.emit_event ty message data error) (Ok tt).
Proof.
  intros s bus. unfold BaseAgent.emit_event. simpl.
  destruct (BaseAgent.bound_run s); eexists _, _; reflexivity.
Qed.

Lemma returns_emit_step step_name message :
  returns (BaseAgent.emit_step step_name message) (Ok tt).
Proof. apply returns_emit_event. Qed.

Lemma returns_emit_warning message data :
  returns (BaseAgent.emit_warning message data) (Ok tt).
Proof. apply returns_emit_event. Qed.

Lemma returns_emit_progress current total message :
  (0 <= current <= total)%Z ->
  returns (BaseAgent.emit_progress current total message) (Ok tt).
Proof.
  intros H. unfold BaseAgent.emit_progress.
  destruct (percentage_bounded current total H) as [progress ->].
  eapply returns_bind; [apply returns_lift_result | apply returns_emit_event].
Qed.

Lemma returns_sleep : returns BaseAgent.asyncio_sleep (Ok tt).
Proof. intros s bus. eexists _, _. reflexivity. Qed.

Lemma returns_execute (run_id : string) (work : BaseAgent.M (gmap string pyval))
  (r : result (gmap string pyval)) :
  returns work r -> returns (BaseAgent.execute run_id work) r.
Proof.
  intros Hwork s bus. unfold BaseAgent.execute. unfold bind at 1. unfold modify at 1.
  unfold try_finally, try_except. cbn [fst snd].
  unfold bind at 1. unfold get at 1. unfold bind at 1.
  destruct (returns_emit_event EventType.STARTED
              ("Starting " ++ BaseAgent.agent_id (bound_to run_id s))
              ∅ None (bound_to run_id s) bus)
    as (s1 & bus1 & E1).
  cbn [fst]. fold (bound_to run_id s). rewrite E1. unfold bind at 1.
  destruct (Hwork s1 bus1) as (s2 & bus2 & ->).
  destruct r as [result|e].
  - unfold bind at 1. unfold get at 1. unfold bind at 1. cbn [fst].
    destruct (returns_emit_event EventType.COMPLETED
                ("Completed " ++ BaseAgent.agent_id s2)
                (<["result" := PyStrOf (PyDict result)]> ∅) None s2 bus2)
      as (s3 & bus3 & ->).
    unfold ret. eexists _, _. reflexivity.
  - unfold bind at 1. unfold get at 1. unfold bind at 1. cbn [fst].
    destruct (returns_emit_event EventType.FAILED
                ("Failed " ++ BaseAgent.agent_id s2) ∅ (Some (str_exn e)) s2 bus2)
      as (s3 & bus3 & ->).
    unfold raise. eexists _, _. reflexivity.
Qed.

(** *** Document processing *)

Lemma files_of_cons (d : DocumentProcessor.doc_file)
  (rest : list DocumentProcessor.doc_file) :
  files_of (d :: rest)
  = match readable d with
    | Some _ => PyStr (DocumentProcessor.path d) :: files_of rest
    | None => files_of rest
    end.
Proof.
  unfold files_of. rewrite filter_cons.
  destruct (readable d) eqn:E; case_decide as H; simpl; try reflexivity.
  - exfalso. apply H. eauto.
  - destruct H as [? H]. discriminate.
Qed.

Lemma contents_of_cons (d : DocumentProcessor.doc_file)
  (rest : list DocumentProcessor.doc_file) :
  contents_of (d :: rest)
  = match readable d with
    | Some c => PyDict c :: contents_of rest
    | None => contents_of rest
    end.
Proof. unfold contents_of. simpl. now destruct (readable d). Qed.

Lemma files_contents_length (docs : list DocumentProcessor.doc_file) :
  length (files_of docs) = length (contents_of docs)
  /\ (length (files_of docs) <= length docs)%nat.
Proof.
  induction docs as [|d rest [IH1 IH2]]; [split; reflexivity|].
  rewrite files_of_cons, contents_of_cons.
  destruct (readable d); simpl; split; lia.
Qed.

Lemma process_returns (total_docs : Z) (docs : list DocumentProcessor.doc_file) :
  forall i acc,
    (0 <= i)%Z -> (i + Z.of_nat (length docs) <= total_docs)%Z ->
    returns (DocumentProcessor.process total_docs i docs acc)
      (Ok ((fst acc ++ files_of docs)%list, (snd acc ++ contents_of docs)%list)).
Proof.
  induction docs as [|d rest IH]; intros i [files contents] Hi Hlen; simpl.
  - unfold files_of, contents_of. simpl. rewrite !app_nil_r. apply returns_ret.
  - simpl in Hlen.
    eapply returns_bind; [apply returns_emit_progress; lia|].
    rewrite files_of_cons, contents_of_cons. unfold readable.
    destruct (DocumentProcessor.extracted d) as [content|e] eqn:E.
    + eapply returns_bind.
      * apply returns_try_ok.
        eapply returns_bind; [apply returns_lift_result|].
        eapply returns_bind; [apply returns_sleep|]. apply returns_ret.
      * unfold DocumentProcessor.collect.
        destruct content as [c|]; [destruct (truthy (PyDict c))|]; simpl.
        -- replace (files ++ PyStr (DocumentProcessor.path d) :: files_of rest)%list
             with ((files ++ [PyStr (DocumentProcessor.path d)]) ++ files_of rest)%list
             by now rewrite <- app_assoc.
           replace (contents ++ PyDict c :: contents_of rest)%list
             with ((contents ++ [PyDict c]) ++ contents_of rest)%list
             by now rewrite <- app_assoc.
           apply (IH (i + 1)%Z ((files ++ [PyStr (DocumentProcessor.path d)])%list,
                                (contents ++ [PyDict c])%list)); lia.
        -- apply (IH (i + 1)%Z (files, contents)); lia.
        -- apply (IH (i + 1)%Z (files, contents)); lia.
    + eapply returns_bind.
      * eapply returns_try_raise.
        -- apply returns_bind_raise, returns_lift_result.
        -- eapply returns_bind; [apply returns_emit_warning|]. apply returns_ret.
      * apply (IH (i + 1)%Z (files, contents)); lia.
Qed.

(** What stage 1 ends with: the exception of document discovery, or its
    dictionary. *)
Lemma document_processor_returns (self : DocumentProcessor.t) (query : string)
  (max_docs : Z) :
  returns (DocumentProcessor._execute self query max_docs)
    match DocumentProcessor.found self with
    | Ok _ => Ok (doc_result self max_docs)
    | Raise e => Raise e
    end.
Proof.
  unfold DocumentProcessor._execute, doc_result, taken, discovered.
  eapply returns_bind; [apply returns_emit_step|].
  destruct (DocumentProcessor.found self) as [[|d rest]|e].
  - eapply returns_bind; [apply returns_lift_result|].
    eapply returns_bind; [apply returns_emit_warning|]. apply returns_ret.
  - eapply returns_bind; [apply returns_lift_result|].
    eapply returns_bind; [apply returns_emit_event|].
    eapply returns_bind; [apply (process_returns _ _ 0%Z ([], [])); lia|].
    eapply returns_bind; [apply returns_emit_progress; lia|].
    simpl. apply returns_ret.
  - apply returns_bind_raise, returns_lift_result.
Qed.

(** X11. Document processing raises when document discovery raises (walking
    the directory or reading a modification time can raise [OSError]), with
    the exception of the discovery, and returns a result otherwise: a file
    whose extraction raises costs a Warning event only. The files worked on
    are those found, cut to the first [max_docs] when that limit is
    positive (zero or a negative limit means no limit). ["processed_files"]
    and ["extracted_content"] list, in order, the paths and the contents of
    the files whose extraction returned a non-empty content, so the two
    lists have the same length, at most the number of files worked on.
    ["total_found"] and ["total_processed"] are the number of files worked
    on and of files processed; both keys are missing when no file was
    found. *)
Theorem document_processor_result (self : DocumentProcessor.t) (query : string)
  (max_docs : Z) :
  match DocumentProcessor.found self with
  | Raise e => returns (DocumentProcessor._execute self query max_docs) (Raise e)
  | Ok found =>
      let docs := if (max_docs >? 0)%Z then take (Z.to_nat max_docs) found else found in
      exists result,
        returns (DocumentProcessor._execute self query max_docs) (Ok result)
        /\ result !! "processed_files" = Some (PyList (files_of docs))
        /\ result !! "extracted_content" = Some (PyList (contents_of docs))
        /\ result !! "total_found"
           = match found with
             | [] => None
             | _ => Some (PyInt (Z.of_nat (length docs)))
             end
        /\ result !! "total_processed"
           = match found with
             | [] => None
             | _ => Some (PyInt (Z.of_nat (length (files_of docs))))
             end
        /\ length docs
           = (if (max_docs >? 0)%Z
              then Nat.min (Z.to_nat max_docs) (length found)
              else length found)
        /\ length (files_of docs) = length (contents_of docs)
        /\ (length (files_of docs) <= length docs)%nat
  end.
Proof.
  pose proof (document_processor_returns self query max_docs) as Hret.
  unfold doc_result, taken, discovered in Hret.
  destruct (DocumentProcessor.found self) as [found|e]; [|exact Hret].
  intros docs. fold docs in Hret.
  eexists. split; [exact Hret|].
  assert (Hdocs : found = [] -> docs = []).
  { intros H. unfold docs. rewrite H.
    destruct (max_docs >? 0)%Z; [apply take_nil | reflexivity]. }
  destruct (files_contents_length docs) as [Hlen Hle].
  assert (Htake : length docs
                  = (if (max_docs >? 0)%Z
                     then Nat.min (Z.to_nat max_docs) (length found)
                     else length found)).
  { unfold docs. destruct (max_docs >? 0)%Z; [apply length_take | reflexivity]. }
  destruct found as [|d rest] eqn:E.
  - rewrite (Hdocs eq_refl) in *. repeat split; auto.
  - repeat split; auto.
Qed.

(** *** Content generation *)

Lemma section_content_returns (self : ContentGenerator.t)
  (section_id section_title query : string) :
  returns (if ContentGenerator.use_mock self
           then ContentGenerator._generate_mock_section self section_id section_title query
           else ContentGenerator._generate_llm_section self section_id section_title query)
    (Ok (section_text self section_id section_title query)).
Proof.
  unfold ContentGenerator.use_mock, ContentGenerator._generate_llm_section,
    ContentGenerator._generate_mock_section, section_text,
    ContentGenerator._call_anthropic_api, ContentGenerator._call_openrouter_api.
  destruct (ContentGenerator.api_key self) as [k|]; [|apply returns_ret].
  destruct (String.eqb k ""); [apply returns_ret|].
  apply returns_try_ok.
  destruct (ContentGenerator.contains _ _);
    (eapply returns_bind; [apply returns_sleep | apply returns_ret]).
Qed.

Lemma generate_returns (self : ContentGenerator.t) (query : string) (total : Z)
  (todo : list (string * string)) :
  forall i acc,
    (0 <= i)%Z -> (i + Z.of_nat (length todo) <= total)%Z ->
    returns (ContentGenerator.generate self query total i todo acc)
      (Ok (generated self query todo acc)).
Proof.
  induction todo as [|[section_id section_title] rest IH]; intros i acc Hi Hlen; simpl.
  - apply returns_ret.
  - simpl in Hlen. eapply returns_bind; [apply returns_emit_progress; lia|].
    eapply returns_bind; [|apply IH; lia].
    apply returns_try_ok.
    eapply returns_bind; [apply section_content_returns|].
    eapply returns_bind; [apply returns_sleep|].
    apply returns_ret.
Qed.

Lemma content_generator_returns (self : ContentGenerator.t) (extracted_content : pyval)
  (query document_type : string) :
  returns (ContentGenerator._execute self extracted_content query document_type)
    (Ok (content_result self extracted_content query document_type)).
Proof.
  unfold ContentGenerator._execute, content_result.
  eapply returns_bind; [apply returns_emit_step|].
  destruct (truthy extracted_content); cbn [negb].
  - eapply returns_bind; [apply returns_emit_step|].
    eapply returns_bind; [apply generate_returns; simpl; lia|].
    eapply returns_bind; [apply returns_emit_progress; simpl; lia|].
    apply returns_ret.
  - eapply returns_bind; [apply returns_emit_warning|].
    apply returns_ret.
Qed.

Lemma summarize_item_ok (item : pyval) :
  summarizable item = true -> exists part, ContentSummary.summarize_item item = Ok part.
Proof.
  unfold summarizable, ContentSummary.summarize_item, ContentSummary.item_get, getitem.
  destruct item as [| | | | | |d|]; try discriminate.
  destruct (d !! "file_name"); [|discriminate].
  destruct (d !! "file_type"); [|discriminate].
  destruct (d !! "content") as [[]|]; try discriminate; intros _; eexists; reflexivity.
Qed.

Lemma summarize_item_fails (item : pyval) :
  summarizable item = false ->
  exists e, ContentSummary.summarize_item item = Raise e /\ lookup_error e = true.
Proof.
  unfold summarizable, ContentSummary.summarize_item, ContentSummary.item_get, getitem.
  destruct item as [| | | | | |d|]; try (intros _; eexists; split; reflexivity).
  destruct (d !! "file_name"); [|intros _; eexists; split; reflexivity].
  destruct (d !! "file_type"); [|intros _; eexists; split; reflexivity].
  destruct (d !! "content") as [[]|]; try discriminate;
    intros _; eexists; split; reflexivity.
Qed.

Lemma summarize_items_ok (items : list pyval) :
  forallb summarizable items = true ->
  exists parts, ContentSummary.summarize_items items = Ok parts.
Proof.
  induction items as [|item rest IH]; simpl; [now eexists|].
  intros H. apply andb_true_iff in H as [Hitem Hrest].
  destruct (summarize_item_ok item Hitem) as [part ->].
  destruct (IH Hrest) as [parts ->]. now eexists.
Qed.

Lemma summarize_items_fail (items : list pyval) :
  forallb summarizable items = false ->
  exists e, ContentSummary.summarize_items items = Raise e /\ lookup_error e = true.
Proof.
  induction items as [|item rest IH]; simpl; [discriminate|].
  destruct (summarizable item) eqn:Hitem; simpl.
  - intros Hrest. destruct (summarize_item_ok item Hitem) as [part ->].
    destruct (IH Hrest) as (e & -> & He). now exists e.
  - intros _. destruct (summarize_item_fails item Hitem) as (e & -> & He). now exists e.
Qed.

Lemma bind_ext {S A B} (m : SE S A) (k k' : A -> SE S B) :
  (forall a w, k a w = k' a w) -> forall w, bind m k w = bind m k' w.
Proof.
  intros H w. unfold bind. destruct (m w) as [w1 [a|e]]; [apply H | reflexivity].
Qed.

Lemma content_generation_agrees (self : ContentGenerator.t)
  (extracted_content : list pyval) (query document_type : string) :
  forallb summarizable (take 5 extracted_content) = true ->
  forall w,
    ContentGeneration._execute self extracted_content query document_type w
    = ContentGenerator._execute self (PyList extracted_content) query document_type w.
Proof.
  intros Hok w.
  unfold ContentGeneration._execute, ContentGenerator._execute,
    ContentSummary._summarize_content.
  destruct (summarize_items_ok _ Hok) as [parts ->].
  apply bind_ext. intros _ w1.
  destruct extracted_content as [|item rest]; reflexivity.
Qed.

(** X12. For extracted contents whose first five items can be summarized
    (dictionaries with a file name, a file type and a sliceable content, as
    [_extract_content] returns them), content generation returns a result,
    and its work is the one the pipeline model runs, which leaves the
    summary out. Without any content it returns the basic template: two
    sections, [using_mock] true and zero source files, whatever the API
    key. Otherwise it returns exactly the seven sections of the outline,
    each with its title, the text of the provider the key selects (the
    template text without a key) and confidence 0.3 in mock mode, 0.85
    otherwise; the error placeholder is never produced, since neither the
    template nor the provider stubs raise. In both cases the sections are
    ones stage 3 can render. *)
Theorem content_generator_result (self : ContentGenerator.t)
  (extracted_content : list pyval) (query document_type : string) :
  forallb summarizable (take 5 extracted_content) = true ->
  exists result sections,
    returns (ContentGeneration._execute self extracted_content query document_type)
      (Ok result)
    /\ (forall w,
          ContentGeneration._execute self extracted_content query document_type w
          = ContentGenerator._execute self (PyList extracted_content) query
              document_type w)
    /\ result !! "sections" = Some (PyDict sections)
    /\ result !! "query" = Some (PyStr query)
    /\ result !! "document_type" = Some (PyStr document_type)
    /\ sections_ok result = true
    /\ match extracted_content with
       | [] =>
           result !! "using_mock" = Some (PyBool true)
           /\ result !! "source_files" = Some (PyInt 0)
           /\ size sections = 2%nat
           /\ sections !! "executive_summary"
              = Some (ContentGenerator.section_entry "Resumen Ejecutivo"
                        ("Resumen ejecutivo para el proyecto " ++ query) (2 # 10))
           /\ sections !! "project_description"
              = Some (ContentGenerator.section_entry "Descripción del Proyecto"
                        ("Descripción técnica del proyecto " ++ query) (2 # 10))
       | _ =>
           result !! "using_mock" = Some (PyBool (ContentGenerator.use_mock self))
           /\ result !! "source_files"
              = Some (PyInt (Z.of_nat (length extracted_content)))
           /\ size sections = 7%nat
           /\ Forall (fun s =>
                sections !! fst s
                = Some (ContentGenerator.section_entry (snd s)
                          (section_text self (fst s) (snd s) query)
                          (section_confidence self)))
                ContentGenerator.sections
       end.
Proof.
  intros Hok.
  pose proof (content_generation_agrees self extracted_content query document_type Hok)
    as Hagree.
  assert (Hret : returns (ContentGeneration._execute self extracted_content query
                            document_type)
                   (Ok (content_result self (PyList extracted_content) query
                          document_type))).
  { intros s bus. rewrite Hagree. apply content_generator_returns. }
  destruct extracted_content as [|item rest];
    (eexists _, _; split; [exact Hret|]; split; [exact Hagree|]);
    unfold content_result; cbn [truthy];
    (split; [apply lookup_insert_eq|]).
  - repeat split; solve [now simplify_map_eq | reflexivity].
  - repeat split; try solve [now simplify_map_eq | reflexivity].
    repeat constructor; simpl; now simplify_map_eq.
Qed.

Lemma content_generator_result_witness :
  exists result sections,
    returns (ContentGeneration._execute sample_generator (contents_of [sample_doc]) "BESS"
               BESSOrchestrator.document_type)
      (Ok result)
    /\ (forall w,
          ContentGeneration._execute sample_generator (contents_of [sample_doc]) "BESS"
            BESSOrchestrator.document_type w
          = ContentGenerator._execute sample_generator (PyList (contents_of [sample_doc]))
              "BESS" BESSOrchestrator.document_type w)
    /\ result !! "sections" = Some (PyDict sections)
    /\ result !! "query" = Some (PyStr "BESS")
    /\ result !! "document_type" = Some (PyStr BESSOrchestrator.document_type)
    /\ sections_ok result = true
    /\ match contents_of [sample_doc] with
       | [] =>
           result !! "using_mock" = Some (PyBool true)
           /\ result !! "source_files" = Some (PyInt 0)
           /\ size sections = 2%nat
           /\ sections !! "executive_summary"
              = Some (ContentGenerator.section_entry "Resumen Ejecutivo"
                        ("Resumen ejecutivo para el proyecto " ++ "BESS") (2 # 10))
           /\ sections !! "project_description"
              = Some (ContentGenerator.section_entry "Descripción del Proyecto"
                        ("Descripción técnica del proyecto " ++ "BESS") (2 # 10))
       | _ =>
           result !! "using_mock"
           = Some (PyBool (ContentGenerator.use_mock sample_generator))
           /\ result !! "source_files"
              = Some (PyInt (Z.of_nat (length (contents_of [sample_doc]))))
           /\ size sections = 7%nat
           /\ Forall (fun s =>
                sections !! fst s
                = Some (ContentGenerator.section_entry (snd s)
                          (section_text sample_generator (fst s) (snd s) "BESS")
                          (section_confidence sample_generator)))
                ContentGenerator.sections
       end.
Proof.
  apply (content_generator_result sample_generator (contents_of [sample_doc]) "BESS"
           BESSOrchestrator.document_type).
  reflexivity.
Defined.

(** X13. When one of the first five extracted contents cannot be
    summarized, content generation raises the [KeyError] or [TypeError] of
    the summary step, after the "analysis" step event and before anything
    else is published or generated. *)
Theorem content_generator_rejects_unreadable_content (self : ContentGenerator.t)
  (extracted_content : list pyval) (query document_type : string) :
  forallb summarizable (take 5 extracted_content) = false ->
  exists e,
    lookup_error e = true
    /\ forall w,
        ContentGeneration._execute self extracted_content query document_type w
        = (fst (BaseAgent.emit_step "analysis" "Analyzing source content" w), Raise e).
Proof.
  intros Hbad.
  destruct (summarize_items_fail _ Hbad) as (e & He & Hkind).
  exists e. split; [exact Hkind|]. intros w.
  unfold ContentGeneration._execute, ContentSummary._summarize_content. rewrite He.
  unfold bind at 1.
  pose proof (returns_emit_step "analysis" "Analyzing source content" (fst w) (snd w))
    as (s1 & bus1 & Hstep).
  destruct w as [s bus]. cbn [fst snd] in Hstep. rewrite Hstep. cbn [fst].
  destruct extracted_content as [|item rest]; [discriminate Hbad|]. reflexivity.
Qed.

Lemma content_generator_rejects_unreadable_content_witness :
  exists e,
    lookup_error e = true
    /\ forall w,
        ContentGeneration._execute sample_generator [PyDict ∅] "BESS"
          BESSOrchestrator.document_type w
        = (fst (BaseAgent.emit_step "analysis" "Analyzing source content" w), Raise e).
Proof.
  apply (content_generator_rejects_unreadable_content sample_generator [PyDict ∅] "BESS"
           BESSOrchestrator.document_type).
  reflexivity.
Defined.

(** *** Document assembly *)

Lemma document_assembler_returns (self : DocumentAssembler.t)
  (generated_sections : gmap string pyval) (query document_type : string) :
  returns (DocumentAssembler._execute self generated_sections query document_type)
    (assembled self generated_sections query document_type).
Proof.
  unfold DocumentAssembler._execute, assembled,
    DocumentAssembler._create_markdown_document, DocumentAssembler._create_html_document,
    DocumentAssembler._save_documents.
  eapply returns_bind; [apply returns_emit_step|].
  destruct (truthy _); cbn [negb]; [|apply returns_raise].
  eapply returns_bind; [apply returns_emit_progress; lia|].
  eapply returns_bind;
    [eapply returns_bind; [apply returns_sleep | apply returns_ret]|].
  eapply returns_bind; [apply returns_emit_progress; lia|].
  eapply returns_bind;
    [eapply returns_bind; [apply returns_sleep | apply returns_ret]|].
  eapply returns_bind; [apply returns_emit_progress; lia|].
  destruct (DocumentAssembler.saved self) as [file_paths|e].
  - eapply returns_bind.
    + eapply returns_bind; [apply returns_lift_result|].
      eapply returns_bind; [apply returns_sleep | apply returns_ret].
    + eapply returns_bind; [apply returns_emit_progress; lia | apply returns_ret].
  - apply returns_bind_raise, returns_bind_raise, returns_lift_result.
Qed.

(** X14. For an input whose sections, if any, are ones the renderers can
    read, document assembly raises [ValueError("No sections provided for
    assembly")] when that input has no ["sections"] or an empty one;
    otherwise it re-raises what saving the files raises; otherwise it
    returns the two rendered texts, the saved paths and the metadata. The
    section count, in the result and in the metadata, is that of the input;
    the metadata's [source_files] and [using_mock] are copied from the
    input, 0 and [False] when the input lacks them. *)
Theorem document_assembler_outcomes (self : DocumentAssembler.t)
  (generated_sections : gmap string pyval) (query document_type : string) :
  sections_ok generated_sections = true ->
  let sections := default (PyDict ∅) (generated_sections !! "sections") in
  exists r,
    returns (DocumentAssembler._execute self generated_sections query document_type) r
    /\ if truthy sections then
         match DocumentAssembler.saved self with
         | Ok file_paths =>
             exists result metadata,
               r = Ok result
               /\ result !! "files" = Some (PyDict file_paths)
               /\ result !! "metadata" = Some (PyDict metadata)
               /\ result !! "markdown"
                  = Some (PyStr (DocumentAssembler.markdown_text self sections metadata))
               /\ result !! "html"
                  = Some (PyStr (DocumentAssembler.html_text self sections metadata))
               /\ result !! "sections_count"
                  = Some (PyInt (DocumentAssembler.sections_count sections))
               /\ metadata !! "sections_count"
                  = Some (PyInt (DocumentAssembler.sections_count sections))
               /\ metadata !! "project_name" = Some (PyStr query)
               /\ metadata !! "source_files"
                  = Some (default (PyInt 0) (generated_sections !! "source_files"))
               /\ metadata !! "using_mock"
                  = Some (default (PyBool false) (generated_sections !! "using_mock"))
         | Raise e => r = Raise e
         end
       else r = Raise (ValueError "No sections provided for assembly").
Proof.
  intros _ sections. eexists. split; [apply document_assembler_returns|].
  unfold assembled. fold sections.
  destruct (truthy sections); [|reflexivity].
  destruct (DocumentAssembler.saved self) as [file_paths|e]; [|reflexivity].
  eexists _, _. split; [reflexivity|].
  unfold DocumentAssembler._generate_metadata. fold sections.
  repeat split; now simplify_map_eq.
Qed.

Lemma document_assembler_outcomes_witness :
  let generated_sections :=
    content_result sample_generator (PyList []) "BESS" BESSOrchestrator.document_type in
  let sections := default (PyDict ∅) (generated_sections !! "sections") in
  exists r,
    returns (DocumentAssembler._execute sample_assembler generated_sections "BESS"
               BESSOrchestrator.document_type) r
    /\ if truthy sections then
         match DocumentAssembler.saved sample_assembler with
         | Ok file_paths =>
             exists result metadata,
               r = Ok result
               /\ result !! "files" = Some (PyDict file_paths)
               /\ result !! "metadata" = Some (PyDict metadata)
               /\ result !! "markdown"
                  = Some (PyStr (DocumentAssembler.markdown_text sample_assembler sections
                                   metadata))
               /\ result !! "html"
                  = Some (PyStr (DocumentAssembler.html_text sample_assembler sections
                                   metadata))
               /\ result !! "sections_count"
                  = Some (PyInt (DocumentAssembler.sections_count sections))
               /\ metadata !! "sections_count"
                  = Some (PyInt (DocumentAssembler.sections_count sections))
               /\ metadata !! "project_name" = Some (PyStr "BESS")
               /\ metadata !! "source_files"
                  = Some (default (PyInt 0) (generated_sections !! "source_files"))
               /\ metadata !! "using_mock"
                  = Some (default (PyBool false) (generated_sections !! "using_mock"))
         | Raise e => r = Raise e
         end
       else r = Raise (ValueError "No sections provided for assembly").
Proof.
  apply (document_assembler_outcomes sample_assembler
           (content_result sample_generator (PyList []) "BESS"
              BESSOrchestrator.document_type)
           "BESS" BESSOrchestrator.document_type).
  reflexivity.
Defined.

(** *** The pipeline *)

Lemma returns_set_current_step (label : string) :
  returns (BESSOrchestrator.set_current_step label) (Ok tt).
Proof. intros s bus. eexists _, _. reflexivity. Qed.

Lemma returns_on_doc_processor {A} (m : BaseAgent.M A) (r : result A) :
  returns m r -> returns (BESSOrchestrator.on_doc_processor m) r.
Proof.
  intros H s bus. unfold BESSOrchestrator.on_doc_processor. cbn [fst snd].
  destruct (H (BESSOrchestrator.doc_processor_agent s) bus) as (s' & bus' & ->).
  eexists _, _. reflexivity.
Qed.

Lemma returns_on_content_generator {A} (m : BaseAgent.M A) (r : result A) :
  returns m r -> returns (BESSOrchestrator.on_content_generator m) r.
Proof.
  intros H s bus. unfold BESSOrchestrator.on_content_generator. cbn [fst snd].
  destruct (H (BESSOrchestrator.content_generator_agent s) bus) as (s' & bus' & ->).
  eexists _, _. reflexivity.
Qed.

Lemma returns_on_doc_assembler {A} (m : BaseAgent.M A) (r : result A) :
  returns m r -> returns (BESSOrchestrator.on_doc_assembler m) r.
Proof.
  intros H s bus. unfold BESSOrchestrator.on_doc_assembler. cbn [fst snd].
  destruct (H (BESSOrchestrator.doc_assembler_agent s) bus) as (s' & bus' & ->).
  eexists _, _. reflexivity.
Qed.

Lemma returns_bind_result {S A B} (m : SE (S * list act) A)
  (k : A -> SE (S * list act) B) (r : result A) (rk : A -> result B) :
  returns m r -> (forall a, returns (k a) (rk a)) ->
  returns (bind m k) match r with Ok a => rk a | Raise e => Raise e end.
Proof.
  intros Hm Hk. destruct r as [a|e].
  - eapply returns_bind; [exact Hm | apply Hk].
  - now apply returns_bind_raise.
Qed.

Lemma returns_reraise {A} (body : BESSOrchestrator.P A) (label : exn -> string)
  (r : result A) :
  returns body r ->
  returns (try_except body
             (fun e => BESSOrchestrator.set_current_step (label e) ;; raise e)) r.
Proof.
  intros H. destruct r as [a|e].
  - now apply returns_try_ok.
  - eapply returns_try_raise; [exact H|].
    eapply returns_bind; [apply returns_set_current_step | apply returns_raise].
Qed.

(** Code that only computes: it leaves the state alone and its result does
    not depend on it. *)
Lemma pure_bind {S A B} (m : SE S A) (k : A -> SE S B) :
  (exists r, forall w, m w = (w, r)) ->
  (forall a, exists r, forall w, k a w = (w, r)) ->
  exists r, forall w, bind m k w = (w, r).
Proof.
  intros [r Hm] Hk. destruct r as [a|e].
  - destruct (Hk a) as [r' Hr']. exists r'. intros w. unfold bind. now rewrite Hm.
  - exists (Raise e). intros w. unfold bind. now rewrite Hm.
Qed.

Lemma final_result_returns (query : string)
  (doc_result content_result assembly_result : gmap string pyval) :
  returns (BESSOrchestrator.final_result query doc_result content_result assembly_result)
    (snd (BESSOrchestrator.final_result query doc_result content_result assembly_result
            (BESSOrchestrator.registered, []))).
Proof.
  assert (H : exists r, forall w,
             BESSOrchestrator.final_result query doc_result content_result
               assembly_result w = (w, r)).
  { unfold BESSOrchestrator.final_result.
    repeat (apply pure_bind; [eexists; intros w; reflexivity | intros ?]).
    eexists. intros w. reflexivity. }
  destruct H as [r H]. intros s bus. rewrite !H. now exists s, bus.
Qed.

Lemma doc_result_extracted (self : DocumentProcessor.t) (max_docs : Z) :
  getitem (doc_result self max_docs) "extracted_content"
  = Ok (PyList (contents_of (taken self max_docs))).
Proof.
  unfold getitem, doc_result, taken.
  destruct (discovered self) as [|d rest].
  - destruct (max_docs >? 0)%Z; [rewrite take_nil|]; now simplify_map_eq.
  - now simplify_map_eq.
Qed.

Lemma run_pipeline_returns (self : BESSOrchestrator.t) (run_id : string)
  (run_state : RunState.t) :
  returns (BESSOrchestrator._run_pipeline self run_id run_state)
    (pipeline_value self (RunState.query run_state) (RunState.max_docs run_state)).
Proof.
  unfold BESSOrchestrator._run_pipeline, pipeline_value.
  apply returns_reraise.
  eapply returns_bind; [apply returns_set_current_step|].
  pose proof (document_processor_returns (BESSOrchestrator.doc_processor self)
                (RunState.query run_state) (RunState.max_docs run_state)) as Hdoc.
  destruct (DocumentProcessor.found (BESSOrchestrator.doc_processor self)) as [found|e].
  2: { apply returns_bind_raise, returns_on_doc_processor, returns_execute, Hdoc. }
  eapply returns_bind;
    [apply returns_on_doc_processor, returns_execute, Hdoc|].
  eapply returns_bind; [apply returns_set_current_step|].
  rewrite doc_result_extracted.
  eapply returns_bind; [apply returns_lift_result|].
  eapply returns_bind;
    [apply returns_on_content_generator, returns_execute, content_generator_returns|].
  eapply returns_bind; [apply returns_set_current_step|].
  apply (returns_bind_result _ _ _
           (fun a => snd (BESSOrchestrator.final_result (RunState.query run_state)
                            (doc_result (BESSOrchestrator.doc_processor self)
                               (RunState.max_docs run_state))
                            (content_result (BESSOrchestrator.content_generator self)
                               (PyList (contents_of
                                          (taken (BESSOrchestrator.doc_processor self)
                                             (RunState.max_docs run_state))))
                               (RunState.query run_state) BESSOrchestrator.document_type)
                            a (BESSOrchestrator.registered, [])))).
  - apply returns_on_doc_assembler, returns_execute, document_assembler_returns.
  - intros a.
    match goal with |- returns _ ?r => replace r
      with (match r with Ok result => Ok result | Raise e => Raise e end)
      by now destruct r end.
    apply (returns_bind_result _ _ _ (fun result => Ok result)).
    + apply final_result_returns.
    + intros result.
      eapply returns_bind; [apply returns_set_current_step | apply returns_ret].
Qed.

Lemma pipeline_outcome_value (self : BESSOrchestrator.t) (run_id query : string)
  (max_docs now : Z) :
  outcome_of self run_id query max_docs now = pipeline_value self query max_docs.
Proof.
  unfold outcome_of, BESSOrchestrator.pipeline.
  destruct (run_pipeline_returns self run_id (RunState.new run_id query max_docs now)
              BESSOrchestrator.registered []) as (s' & bus' & ->).
  reflexivity.
Qed.

Lemma generated_size (self : ContentGenerator.t) (query : string) :
  size (generated self query ContentGenerator.sections ∅) = 7%nat.
Proof. reflexivity. Qed.

Lemma content_result_lookups (self : ContentGenerator.t) (extracted_content : pyval)
  (query document_type : string) :
  exists sections,
    content_result self extracted_content query document_type !! "sections"
    = Some (PyDict sections)
    /\ size sections = (if truthy extracted_content then 7 else 2)%nat
    /\ content_result self extracted_content query document_type !! "using_mock"
       = Some (PyBool (if truthy extracted_content
                       then ContentGenerator.use_mock self else true)).
Proof.
  unfold content_result. destruct (truthy extracted_content); eexists.
  - split; [apply lookup_insert_eq|]. split; [apply generated_size|].
    now simplify_map_eq.
  - split; [apply lookup_insert_eq|]. split; [reflexivity|].
    now simplify_map_eq.
Qed.

Lemma final_result_ok (query : string) (d c a : gmap string pyval)
  (w : BESSOrchestrator.agents * list act)
  (found processed files sections using_mock markdown html paths metadata : pyval)
  (n : Z) :
  d !! "total_found" = Some found ->
  d !! "total_processed" = Some processed ->
  d !! "processed_files" = Some files ->
  c !! "sections" = Some sections ->
  BESSOrchestrator.py_len sections = Ok n ->
  c !! "using_mock" = Some using_mock ->
  a !! "markdown" = Some markdown ->
  a !! "html" = Some html ->
  a !! "files" = Some paths ->
  a !! "metadata" = Some metadata ->
  snd (BESSOrchestrator.final_result query d c a w)
  = Ok (<["pipeline_completed" := PyBool true]>
       (<["document_processing" :=
            PyDict (<["files_found" := found]>
                   (<["files_processed" := processed]>
                   (<["processed_files" := files]> ∅)))]>
       (<["content_generation" :=
            PyDict (<["sections_generated" := PyInt n]>
                   (<["using_mock" := using_mock]>
                   (<["sections" := sections]> ∅)))]>
       (<["document_assembly" :=
            PyDict (<["markdown" := markdown]>
                   (<["html" := html]>
                   (<["files" := paths]>
                   (<["metadata" := metadata]> ∅))))]>
       (<["summary" :=
            PyDict (<["query" := PyStr query]>
                   (<["document_type" := PyStr BESSOrchestrator.document_type]>
                   (<["source_files_processed" := processed]>
                   (<["sections_generated" := PyInt n]>
                   (<["output_files" := paths]> ∅)))))]> ∅))))).
Proof.
  intros H1 H2 H3 H4 H5 H6 H7 H8 H9 H10.
  unfold BESSOrchestrator.final_result, getitem.
  rewrite H1, H2, H3, H4, H6, H7, H8, H9, H10.
  unfold bind, lift_result, ret. cbn [fst snd]. rewrite H5. reflexivity.
Qed.

Lemma final_result_missing (query : string) (d c a : gmap string pyval)
  (w : BESSOrchestrator.agents * list act) :
  d !! "total_found" = None ->
  snd (BESSOrchestrator.final_result query d c a w) = Raise (KeyError "total_found").
Proof.
  intros H. unfold BESSOrchestrator.final_result, getitem. rewrite H. reflexivity.
Qed.

(** X15. When the extracted contents can be summarized (as
    [_extract_content] returns them), stage 2 of the source does what the
    pipeline model runs, and the outcome of a run's pipeline depends on
    three things only: whether document discovery raises, whether saving
    the files raises, and whether any document was found. If discovery
    raises, the pipeline raises that exception. Else, if saving raises, the
    pipeline raises that exception, also when no document was found (the
    basic template is assembled all the same); else, if no document was
    found, it raises [KeyError('total_found')]; else it returns the final
    result, with the counts of stage 1 and with 2 generated sections,
    flagged as mock, when no file had a readable content, 7 otherwise.
    Unreadable files alone never fail a run. *)
Theorem pipeline_outcome (self : BESSOrchestrator.t) (run_id query : string)
  (max_docs now : Z) :
  forallb summarizable
    (take 5 (contents_of (taken (BESSOrchestrator.doc_processor self) max_docs))) = true ->
  let docs := taken (BESSOrchestrator.doc_processor self) max_docs in
  (forall w,
     ContentGeneration._execute (BESSOrchestrator.content_generator self)
       (contents_of docs) query BESSOrchestrator.document_type w
     = ContentGenerator._execute (BESSOrchestrator.content_generator self)
         (PyList (contents_of docs)) query BESSOrchestrator.document_type w)
  /\ match DocumentProcessor.found (BESSOrchestrator.doc_processor self),
           DocumentAssembler.saved (BESSOrchestrator.doc_assembler self) with
     | Raise e, _ => outcome_of self run_id query max_docs now = Raise e
     | Ok _, Raise e => outcome_of self run_id query max_docs now = Raise e
     | Ok [], Ok _ =>
         outcome_of self run_id query max_docs now = Raise (KeyError "total_found")
     | Ok (_ :: _), Ok file_paths =>
         exists result processing generation summary,
           outcome_of self run_id query max_docs now = Ok result
           /\ result !! "pipeline_completed" = Some (PyBool true)
           /\ result !! "document_processing" = Some (PyDict processing)
           /\ processing !! "files_found" = Some (PyInt (Z.of_nat (length docs)))
           /\ processing !! "files_processed"
              = Some (PyInt (Z.of_nat (length (files_of docs))))
           /\ processing !! "processed_files" = Some (PyList (files_of docs))
           /\ result !! "content_generation" = Some (PyDict generation)
           /\ generation !! "sections_generated"
              = Some (PyInt match contents_of docs with [] => 2 | _ => 7 end)
           /\ generation !! "using_mock"
              = Some (PyBool match contents_of docs with
                             | [] => true
                             | _ => ContentGenerator.use_mock
                                      (BESSOrchestrator.content_generator self)
                             end)
           /\ result !! "summary" = Some (PyDict summary)
           /\ summary !! "query" = Some (PyStr query)
           /\ summary !! "source_files_processed"
              = Some (PyInt (Z.of_nat (length (files_of docs))))
           /\ summary !! "output_files" = Some (PyDict file_paths)
     end.
Proof.
  intros Hok docs. split; [now apply content_generation_agrees|].
  rewrite pipeline_outcome_value. unfold pipeline_value. fold docs.
  destruct (content_result_lookups (BESSOrchestrator.content_generator self)
              (PyList (contents_of docs)) query BESSOrchestrator.document_type)
    as (sections & Hs & Hsize & Hum).
  unfold assembled. rewrite Hs.
  change (default (PyDict ∅) (Some (PyDict sections))) with (PyDict sections).
  assert (Ht : truthy (PyDict sections) = true).
  { simpl. rewrite Hsize. now destruct (truthy _). }
  rewrite Ht.
  unfold doc_result. fold docs. unfold discovered.
  destruct (DocumentProcessor.found (BESSOrchestrator.doc_processor self))
    as [found|e]; [|reflexivity].
  destruct (DocumentAssembler.saved (BESSOrchestrator.doc_assembler self))
    as [file_paths|e]; [|now destruct found].
  destruct found as [|d rest];
    [apply final_result_missing; now simplify_map_eq|].
  destruct (contents_of docs) as [|c0 cs]; cbn [truthy] in Hsize, Hum.
  - eexists _, _, _, _. split.
    + eapply final_result_ok;
        [now simplify_map_eq | now simplify_map_eq | now simplify_map_eq
        | exact Hs | reflexivity | exact Hum
        | now simplify_map_eq | now simplify_map_eq | now simplify_map_eq
        | now simplify_map_eq].
    + rewrite Hsize. repeat split; solve [now simplify_map_eq | reflexivity].
  - eexists _, _, _, _. split.
    + eapply final_result_ok;
        [now simplify_map_eq | now simplify_map_eq | now simplify_map_eq
        | exact Hs | reflexivity | exact Hum
        | now simplify_map_eq | now simplify_map_eq | now simplify_map_eq
        | now simplify_map_eq].
    + rewrite Hsize. repeat split; solve [now simplify_map_eq | reflexivity].
Qed.

Lemma pipeline_outcome_witness :
  let docs := taken (BESSOrchestrator.doc_processor one_document) 10 in
  (forall w,
     ContentGeneration._execute (BESSOrchestrator.content_generator one_document)
       (contents_of docs) "BESS" BESSOrchestrator.document_type w
     = ContentGenerator._execute (BESSOrchestrator.content_generator one_document)
         (PyList (contents_of docs)) "BESS" BESSOrchestrator.document_type w)
  /\ match DocumentProcessor.found (BESSOrchestrator.doc_processor one_document),
           DocumentAssembler.saved (BESSOrchestrator.doc_assembler one_document) with
     | Raise e, _ => outcome_of one_document "run-1" "BESS" 10 0 = Raise e
     | Ok _, Raise e => outcome_of one_document "run-1" "BESS" 10 0 = Raise e
     | Ok [], Ok _ =>
         outcome_of one_document "run-1" "BESS" 10 0 = Raise (KeyError "total_found")
     | Ok (_ :: _), Ok file_paths =>
         exists result processing generation summary,
           outcome_of one_document "run-1" "BESS" 10 0 = Ok result
           /\ result !! "pipeline_completed" = Some (PyBool true)
           /\ result !! "document_processing" = Some (PyDict processing)
           /\ processing !! "files_found" = Some (PyInt (Z.of_nat (length docs)))
           /\ processing !! "files_processed"
              = Some (PyInt (Z.of_nat (length (files_of docs))))
           /\ processing !! "processed_files" = Some (PyList (files_of docs))
           /\ result !! "content_generation" = Some (PyDict generation)
           /\ generation !! "sections_generated"
              = Some (PyInt match contents_of docs with [] => 2 | _ => 7 end)
           /\ generation !! "using_mock"
              = Some (PyBool match contents_of docs with
                             | [] => true
                             | _ => ContentGenerator.use_mock
                                      (BESSOrchestrator.content_generator one_document)
                             end)
           /\ result !! "summary" = Some (PyDict summary)
           /\ summary !! "query" = Some (PyStr "BESS")
           /\ summary !! "source_files_processed"
              = Some (PyInt (Z.of_nat (length (files_of docs))))
           /\ summary !! "output_files" = Some (PyDict file_paths)
     end.
Proof.
  apply (pipeline_outcome one_document "run-1" "BESS" 10 0). reflexivity.
Defined.

(** X16. When the task of a run has ended, the run is finished and its
    status is the one of the pipeline's outcome, whatever cancel requests
    were accepted on the way: Succeeded, with the result stored and
    progress 100, when the pipeline returned (the error text is then
    "Canceled by user" exactly when a cancel request was accepted, and
    unset otherwise); Failed, with [str(e)] as the error and no result,
    when it raised. A canceled run does not stay canceled. *)
Theorem finalization_settles_the_run (self : BESSOrchestrator.t) (run_id query : string)
  (max_docs now : Z) (runs : gmap string RunState.t) (ops : list op) :
  timeline true (BESSOrchestrator.task self run_id query max_docs now) ops ->
  exists rs,
    snapshot run_id query max_docs now runs ops !! run_id = Some rs
    /\ RunState.finished rs = true
    /\ match outcome_of self run_id query max_docs now with
       | Ok result =>
           RunState.status rs = RunStatus.SUCCEEDED
           /\ RunState.result rs = Some (PyDict result)
           /\ RunState.progress rs = 100%Q
           /\ RunState.error rs
              = (if cancel_accepted ops then Some "Canceled by user" else None)
       | Raise e =>
           RunState.status rs = RunStatus.FAILED
           /\ RunState.result rs = None
           /\ RunState.error rs = Some (str_exn e)
       end.
Proof.
  intros Htl. eexists. split; [apply snapshot_lookup|].
  set (s0 := RunState.new run_id query max_docs now).
  pose (Live := fun (pre : list op) (rs : RunState.t) =>
    finalized pre = false
    /\ RunState.result rs = None
    /\ RunState.error rs
       = (if cancel_accepted pre then Some "Canceled by user" else None)
    /\ RunState.finished rs = cancel_accepted pre).
  pose (Inv := fun (ph : phase) (pre : list op) (rs : RunState.t) =>
    match ph with
    | Ended =>
        finalized pre = true
        /\ RunState.finished rs = true
        /\ match outcome_of self run_id query max_docs now with
           | Ok result =>
               RunState.status rs = RunStatus.SUCCEEDED
               /\ RunState.result rs = Some (PyDict result)
               /\ RunState.progress rs = 100%Q
               /\ RunState.error rs
                  = (if cancel_accepted pre then Some "Canceled by user" else None)
           | Raise e =>
               RunState.status rs = RunStatus.FAILED
               /\ RunState.result rs = None
               /\ RunState.error rs = Some (str_exn e)
           end
    | _ => Live pre rs
    end).
  assert (Hcancel : forall pre rs, Live pre rs ->
            Live (pre ++ [CancelRequest])%list (rs_op run_id CancelRequest rs)).
  { intros pre rs (Hf & Hr & He & Hfin). unfold Live.
    rewrite finalized_snoc, cancel_accepted_snoc, Hf, orb_false_r.
    split; [reflexivity|]. cbn [rs_op negb andb]. rewrite orb_true_r.
    destruct (RunState.finished rs) eqn:E.
    - rewrite <- Hfin in He. now repeat split.
    - now repeat split. }
  assert (H : exists ph, Inv ph ops (rs_ops run_id ops s0)).
  { apply (lifetime_invariant self run_id query max_docs now Inv)
      with (ops := ops) (post := []); auto using app_nil_r; unfold Inv.
    - now repeat split.
    - intros pre rs now1 (Hf & Hr & He & Hfin). unfold Live.
      rewrite finalized_snoc, cancel_accepted_snoc, Hf, andb_false_r, !orb_false_r.
      now repeat split.
    - intros pre rs now0 a Hb (Hf & Hr & He & Hfin). unfold Live.
      destruct (rs_act_benign run_id now0 a rs Hb) as (E1 & E2 & E3 & E4 & _).
      rewrite finalized_snoc, cancel_accepted_snoc, Hf, E2, E3, E4.
      replace (match Act now0 a with CancelRequest => true | _ => false end)
        with false by reflexivity.
      rewrite andb_false_r, orb_false_r.
      split; [destruct a; simpl in *; congruence|]. now repeat split.
    - intros pre rs now1 (Hf & Hr & He & Hfin).
      rewrite finalized_snoc, cancel_accepted_snoc, Hf, andb_false_r, orb_false_r.
      split; [reflexivity|]. fold s0.
      change (snd (BESSOrchestrator.pipeline self run_id s0))
        with (outcome_of self run_id query max_docs now).
      destruct (outcome_of self run_id query max_docs now) as [result|e]; simpl.
      + now repeat split.
      + now repeat split.
    - intros ph pre rs HI. destruct ph; [now apply Hcancel | now apply Hcancel |].
      destruct HI as (Hf & Hfin & HI).
      rewrite finalized_snoc, cancel_accepted_snoc, Hf, orb_false_r.
      split; [reflexivity|]. cbn [rs_op negb andb]. rewrite orb_false_r, Hfin.
      now split. }
  pose proof (whole_timeline_finalized _ _ _ _ _ _ Htl) as Hdone.
  destruct H as [ph HI]. destruct ph.
  - destruct HI as (Hf & _). congruence.
  - destruct HI as (Hf & _). congruence.
  - destruct HI as (_ & HI). exact HI.
Qed.

Lemma finalization_settles_the_run_witness :
  exists rs,
    snapshot "run-1" "BESS" 10 0 ∅ canceled_run !! "run-1" = Some rs
    /\ RunState.finished rs = true
    /\ match outcome_of one_document "run-1" "BESS" 10 0 with
       | Ok result =>
           RunState.status rs = RunStatus.SUCCEEDED
           /\ RunState.result rs = Some (PyDict result)
           /\ RunState.progress rs = 100%Q
           /\ RunState.error rs
              = (if cancel_accepted canceled_run then Some "Canceled by user" else None)
       | Raise e =>
           RunState.status rs = RunStatus.FAILED
           /\ RunState.result rs = None
           /\ RunState.error rs = Some (str_exn e)
       end.
Proof.
  apply (finalization_settles_the_run one_document "run-1" "BESS" 10 0 ∅ canceled_run).
  exact canceled_run_timeline.
Defined.

(** ** The event log of a run *)

Lemma tagged_work_ret {A} (a : A) : tagged_work (ret a).
Proof. intros self bus _. exists [], (Ok a). now rewrite app_nil_r. Qed.

Lemma tagged_work_raise {A} (e : exn) : tagged_work (@raise _ A e).
Proof. intros self bus _. exists [], (Raise e). now rewrite app_nil_r. Qed.

Lemma tagged_work_lift_result {A} (r : result A) : tagged_work (lift_result r).
Proof. intros self bus _. exists [], r. now rewrite app_nil_r. Qed.

Lemma tagged_work_bind {A B} (m : BaseAgent.M A) (k : A -> BaseAgent.M B) :
  tagged_work m -> (forall a, tagged_work (k a)) -> tagged_work (bind m k).
Proof.
  intros Hm Hk self bus Hq. unfold bind.
  destruct (Hm self bus Hq) as (new & r & -> & Hnew).
  destruct r as [a|e].
  - destruct (Hk a self (bus ++ new)%list Hq) as (new' & r' & -> & Hnew').
    exists (new ++ new')%list, r'. rewrite app_assoc. split; [reflexivity|].
    now apply Forall_app.
  - now exists new, (Raise e).
Qed.

Lemma tagged_work_try_except {A} (m : BaseAgent.M A) (h : exn -> BaseAgent.M A) :
  tagged_work m -> (forall e, tagged_work (h e)) -> tagged_work (try_except m h).
Proof.
  intros Hm Hh self bus Hq. unfold try_except.
  destruct (Hm self bus Hq) as (new & r & -> & Hnew).
  destruct r as [a|e].
  - now exists new, (Ok a).
  - destruct (Hh e self (bus ++ new)%list Hq) as (new' & r' & -> & Hnew').
    exists (new ++ new')%list, r'. rewrite app_assoc. split; [reflexivity|].
    now apply Forall_app.
Qed.

Lemma tagged_work_sleep : tagged_work BaseAgent.asyncio_sleep.
Proof.
  intros self bus Hq. exists [Await], (Ok tt). split; [now apply sleep_alone|].
  now repeat constructor.
Qed.

Lemma tagged_work_emit_event ty message data error :
  published_kind ty = true ->
  tagged_work (BaseAgent.emit_event ty message data error).
Proof.
  intros Hk self bus _. unfold BaseAgent.emit_event. cbn [fst].
  destruct (BaseAgent.bound_run self) as [run_id|] eqn:E.
  - eexists [_], (Ok tt). split; [reflexivity|].
    constructor; [|constructor]. simpl.
    rewrite E, bool_decide_eq_true_2, String.eqb_refl, Hk; reflexivity.
  - exists [], (Ok tt). now rewrite app_nil_r.
Qed.

Lemma tagged_work_emit_step step_name message :
  tagged_work (BaseAgent.emit_step step_name message).
Proof. now apply tagged_work_emit_event. Qed.

Lemma tagged_work_emit_warning message data :
  tagged_work (BaseAgent.emit_warning message data).
Proof. now apply tagged_work_emit_event. Qed.

Lemma tagged_work_emit_progress current total message :
  tagged_work (BaseAgent.emit_progress current total message).
Proof.
  unfold BaseAgent.emit_progress.
  apply tagged_work_bind; [apply tagged_work_lift_result|]. intros progress.
  now apply tagged_work_emit_event.
Qed.

Ltac tagged_step :=
  first
    [ apply tagged_work_emit_progress
    | apply tagged_work_emit_step
    | apply tagged_work_emit_warning
    | apply tagged_work_sleep
    | apply tagged_work_ret
    | apply tagged_work_raise
    | apply tagged_work_lift_result
    | apply tagged_work_try_except; [|intros ?]
    | apply tagged_work_bind; [|intros ?] ].

Lemma process_tagged_work total_docs doc_files :
  forall i acc, tagged_work (DocumentProcessor.process total_docs i doc_files acc).
Proof.
  induction doc_files as [|doc rest IH]; intros i acc; simpl.
  - apply tagged_work_ret.
  - apply tagged_work_bind; [apply tagged_work_emit_progress|]. intros _.
    apply tagged_work_bind; [repeat tagged_step|]. intros acc'. apply IH.
Qed.

Lemma document_processor_tagged_work self query max_docs :
  tagged_work (DocumentProcessor._execute self query max_docs).
Proof.
  unfold DocumentProcessor._execute.
  apply tagged_work_bind; [apply tagged_work_emit_step|]. intros _.
  apply tagged_work_bind; [apply tagged_work_lift_result|]. intros [|doc rest].
  - repeat tagged_step.
  - apply tagged_work_bind; [now apply tagged_work_emit_event|]. intros _.
    apply tagged_work_bind; [apply process_tagged_work|]. intros acc.
    repeat tagged_step.
Qed.

Lemma generate_llm_section_tagged_work self section_id section_title query :
  tagged_work (ContentGenerator._generate_llm_section self section_id section_title query).
Proof.
  unfold ContentGenerator._generate_llm_section, ContentGenerator._generate_mock_section,
    ContentGenerator._call_anthropic_api, ContentGenerator._call_openrouter_api.
  apply tagged_work_try_except.
  - destruct (ContentGenerator.api_key self) as [k|]; [|apply tagged_work_ret].
    destruct (String.eqb k ""); [apply tagged_work_ret|].
    destruct (ContentGenerator.contains _ _); repeat tagged_step.
  - intros e. repeat tagged_step.
Qed.

Lemma generate_tagged_work self query total todo :
  forall i generated,
    tagged_work (ContentGenerator.generate self query total i todo generated).
Proof.
  induction todo as [|[section_id section_title] rest IH]; intros i generated; simpl.
  - apply tagged_work_ret.
  - apply tagged_work_bind; [apply tagged_work_emit_progress|]. intros _.
    apply tagged_work_bind; [|intros generated'; apply IH].
    apply tagged_work_try_except; [|intros e; repeat tagged_step].
    apply tagged_work_bind; [|intros content; repeat tagged_step].
    destruct (ContentGenerator.use_mock self).
    + unfold ContentGenerator._generate_mock_section. apply tagged_work_ret.
    + apply generate_llm_section_tagged_work.
Qed.

Lemma content_generator_tagged_work self extracted_content query document_type :
  tagged_work (ContentGenerator._execute self extracted_content query document_type).
Proof.
  unfold ContentGenerator._execute.
  apply tagged_work_bind; [apply tagged_work_emit_step|]. intros _.
  destruct (negb (truthy extracted_content)).
  - unfold ContentGenerator._generate_basic_template. repeat tagged_step.
  - apply tagged_work_bind; [apply tagged_work_emit_step|]. intros _.
    apply tagged_work_bind; [apply generate_tagged_work|]. intros generated.
    repeat tagged_step.
Qed.

Lemma document_assembler_tagged_work self generated_sections query document_type :
  tagged_work (DocumentAssembler._execute self generated_sections query document_type).
Proof.
  unfold DocumentAssembler._execute, DocumentAssembler._create_markdown_document,
    DocumentAssembler._create_html_document, DocumentAssembler._save_documents.
  apply tagged_work_bind; [apply tagged_work_emit_step|]. intros _.
  destruct (negb (truthy _)); [apply tagged_work_raise|].
  repeat tagged_step.
Qed.

(** What [execute] publishes for a registered stage belongs to the run. *)
Lemma execute_of_run run_id (work : BaseAgent.M (gmap string pyval)) self bus :
  tagged_work work ->
  alone self ->
  BaseAgent.agent_id self ∈ stage_ids ->
  exists new r,
    BaseAgent.execute run_id work (self, bus) = ((released self, (bus ++ new)%list), r)
    /\ Forall (fun a => act_of_run run_id a = true) new.
Proof.
  intros Hwork Hq Hid.
  assert (Htag : forall self' a,
             BaseAgent.agent_id self' = BaseAgent.agent_id self ->
             BaseAgent.bound_run self' = None \/ BaseAgent.bound_run self' = Some run_id ->
             tagged self' a = true -> act_of_run run_id a = true).
  { intros self' a Ha Hb Ht. destruct a; simpl in *; try reflexivity.
    apply andb_true_iff in Ht as [Ht Hk]. apply andb_true_iff in Ht as [Hr Hg].
    apply bool_decide_eq_true in Hr. apply String.eqb_eq in Hg.
    unfold of_run. rewrite Hk, andb_true_r. apply andb_true_iff. split.
    - apply String.eqb_eq. destruct Hb as [Hb|Hb]; congruence.
    - apply bool_decide_eq_true. congruence. }
  destruct (String.eqb run_id "") eqn:E.
  - apply String.eqb_eq in E. subst run_id.
    destruct (Hwork (bound_to "" self) bus Hq) as (new & r & Hrun & Hnew).
    exists new, r. split; [now apply execute_unbound|].
    eapply Forall_impl; [exact Hnew|]. intros a.
    apply (Htag (bound_to "" self)); [reflexivity | now left].
  - destruct (Hwork (bound_to run_id self)
                (bus ++ [Emit (started_event run_id (BaseAgent.agent_id self))])%list Hq)
      as (new & r & Hrun & Hnew).
    eexists _, r. split; [apply execute_unfold; [now apply String.eqb_neq | eassumption]|].
    assert (Hown : forall e,
               AgentEvent.run_id e = run_id ->
               AgentEvent.agent_id e = BaseAgent.agent_id self ->
               published_kind (AgentEvent.event_type e) = true ->
               of_run run_id e = true).
    { intros e H1 H2 H3. unfold of_run. rewrite H1, H2, H3, String.eqb_refl.
      now rewrite bool_decide_eq_true_2. }
    apply Forall_app. split; [constructor; [now apply Hown | constructor]|].
    apply Forall_app. split.
    + eapply Forall_impl; [exact Hnew|]. intros a.
      apply (Htag (bound_to run_id self)); [reflexivity|]. right.
      unfold bound_to, BaseAgent.bound_run. simpl. now rewrite E.
    + constructor; [|constructor]. destruct r; now apply Hown.
Qed.

Lemma run_traces_ret {A} run_id (a : A) : run_traces run_id (ret a).
Proof. intros s bus Hs Hq. exists s, [], (Ok a). now rewrite app_nil_r. Qed.

Lemma run_traces_raise {A} run_id (e : exn) : run_traces run_id (@raise _ A e).
Proof. intros s bus Hs Hq. exists s, [], (Raise e). now rewrite app_nil_r. Qed.

Lemma run_traces_lift_result {A} run_id (r : result A) : run_traces run_id (lift_result r).
Proof. intros s bus Hs Hq. exists s, [], r. now rewrite app_nil_r. Qed.

Lemma run_traces_bind {A B} run_id (m : BESSOrchestrator.P A)
  (k : A -> BESSOrchestrator.P B) :
  run_traces run_id m -> (forall a, run_traces run_id (k a)) ->
  run_traces run_id (bind m k).
Proof.
  intros Hm Hk s bus Hs Hq. unfold bind.
  destruct (Hm s bus Hs Hq) as (s' & new & r & -> & Hs' & Hq' & Hnew).
  destruct r as [a|e].
  - destruct (Hk a s' (bus ++ new)%list Hs' Hq')
      as (s'' & new' & r' & -> & Hs'' & Hq'' & Hnew').
    exists s'', (new ++ new')%list, r'. rewrite app_assoc. split; [reflexivity|].
    split; [assumption|]. split; [assumption|]. now apply Forall_app.
  - now exists s', new, (Raise e).
Qed.

Lemma run_traces_try_except {A} run_id (m : BESSOrchestrator.P A)
  (h : exn -> BESSOrchestrator.P A) :
  run_traces run_id m -> (forall e, run_traces run_id (h e)) ->
  run_traces run_id (try_except m h).
Proof.
  intros Hm Hh s bus Hs Hq. unfold try_except.
  destruct (Hm s bus Hs Hq) as (s' & new & r & -> & Hs' & Hq' & Hnew).
  destruct r as [a|e].
  - now exists s', new, (Ok a).
  - destruct (Hh e s' (bus ++ new)%list Hs' Hq')
      as (s'' & new' & r' & -> & Hs'' & Hq'' & Hnew').
    exists s'', (new ++ new')%list, r'. rewrite app_assoc. split; [reflexivity|].
    split; [assumption|]. split; [assumption|]. now apply Forall_app.
Qed.

Lemma run_traces_set_current_step run_id label :
  run_traces run_id (BESSOrchestrator.set_current_step label).
Proof.
  intros s bus Hs Hq. exists s, [SetCurrentStep label], (Ok tt).
  split; [reflexivity|]. split; [assumption|]. split; [assumption|].
  now repeat constructor.
Qed.

Lemma run_traces_on_doc_processor run_id (work : BaseAgent.M (gmap string pyval)) :
  tagged_work work ->
  run_traces run_id (BESSOrchestrator.on_doc_processor (BaseAgent.execute run_id work)).
Proof.
  intros Hwork s bus (H1 & H2 & H3) (Q1 & Q2 & Q3). unfold BESSOrchestrator.on_doc_processor. cbn [fst snd].
  destruct (execute_of_run run_id work (BESSOrchestrator.doc_processor_agent s) bus Hwork Q1)
    as (new & r & -> & Hnew).
  { rewrite H1. unfold stage_ids. set_solver. }
  eexists _, new, r. split; [reflexivity|]. split; [now repeat split|].
  split; [now repeat split | exact Hnew].
Qed.

Lemma run_traces_on_content_generator run_id (work : BaseAgent.M (gmap string pyval)) :
  tagged_work work ->
  run_traces run_id (BESSOrchestrator.on_content_generator (BaseAgent.execute run_id work)).
Proof.
  intros Hwork s bus (H1 & H2 & H3) (Q1 & Q2 & Q3). unfold BESSOrchestrator.on_content_generator.
  cbn [fst snd].
  destruct (execute_of_run run_id work (BESSOrchestrator.content_generator_agent s) bus Hwork Q2)
    as (new & r & -> & Hnew).
  { rewrite H2. unfold stage_ids. set_solver. }
  eexists _, new, r. split; [reflexivity|]. split; [now repeat split|].
  split; [now repeat split | exact Hnew].
Qed.

Lemma run_traces_on_doc_assembler run_id (work : BaseAgent.M (gmap string pyval)) :
  tagged_work work ->
  run_traces run_id (BESSOrchestrator.on_doc_assembler (BaseAgent.execute run_id work)).
Proof.
  intros Hwork s bus (H1 & H2 & H3) (Q1 & Q2 & Q3). unfold BESSOrchestrator.on_doc_assembler.
  cbn [fst snd].
  destruct (execute_of_run run_id work (BESSOrchestrator.doc_assembler_agent s) bus Hwork Q3)
    as (new & r & -> & Hnew).
  { rewrite H3. unfold stage_ids. set_solver. }
  eexists _, new, r. split; [reflexivity|]. split; [now repeat split|].
  split; [now repeat split | exact Hnew].
Qed.

Ltac run_trace_step :=
  first
    [ apply run_traces_bind; [|intros ?]
    | apply run_traces_try_except; [|intros ?]
    | apply run_traces_set_current_step
    | apply run_traces_lift_result
    | apply run_traces_ret
    | apply run_traces_raise ].

Lemma run_pipeline_of_run self run_id run_state :
  run_traces run_id (BESSOrchestrator._run_pipeline self run_id run_state).
Proof.
  unfold BESSOrchestrator._run_pipeline, BESSOrchestrator.final_result.
  apply run_traces_try_except; [|intros e; repeat run_trace_step].
  apply run_traces_bind; [apply run_traces_set_current_step|]. intros _.
  apply run_traces_bind;
    [apply run_traces_on_doc_processor, document_processor_tagged_work|].
  intros doc_result.
  apply run_traces_bind; [apply run_traces_set_current_step|]. intros _.
  apply run_traces_bind; [apply run_traces_lift_result|]. intros extracted_content.
  apply run_traces_bind;
    [apply run_traces_on_content_generator, content_generator_tagged_work|].
  intros content_result.
  apply run_traces_bind; [apply run_traces_set_current_step|]. intros _.
  apply run_traces_bind;
    [apply run_traces_on_doc_assembler, document_assembler_tagged_work|].
  intros assembly_result.
  repeat run_trace_step.
Qed.

Lemma task_of_run (agents : BESSOrchestrator.agents) (self : BESSOrchestrator.t)
  (run_id query : string) (max_docs now : Z) :
  named agents -> alone_agents agents ->
  Forall (fun a => act_of_run run_id a = true)
    (BESSOrchestrator.task_on agents self run_id query max_docs now).
Proof.
  intros Hs Hq.
  unfold BESSOrchestrator.task_on, AgentOrchestrator._execute_run,
    BESSOrchestrator.pipeline_on.
  destruct (run_pipeline_of_run self run_id (RunState.new run_id query max_docs now)
              agents [] Hs Hq) as (s' & new & r & -> & _ & _ & Hnew).
  constructor; [reflexivity|]. apply Forall_app. split; [exact Hnew|].
  now repeat constructor.
Qed.

Lemma emitted_app (l1 l2 : list op) : emitted (l1 ++ l2) = (emitted l1 ++ emitted l2)%list.
Proof. unfold emitted. apply omap_app. Qed.

Lemma rs_op_events (run_id : string) (o : op) (rs : RunState.t) :
  op_of_run run_id o ->
  RunState.events (rs_op run_id o rs) = (RunState.events rs ++ emitted [o])%list.
Proof.
  intros Ho. destruct o as [now a|]; simpl in *.
  - destruct a; simpl; try now rewrite app_nil_r.
    + unfold of_run in Ho. apply andb_true_iff in Ho as [Ho _].
      apply andb_true_iff in Ho as [Ho _]. rewrite Ho.
      now destruct (handle_on_run_keeps now event rs) as (_ & _ & _ & _ & ->).
    + destruct outcome; simpl; now rewrite app_nil_r.
  - rewrite app_nil_r. now destruct (RunState.finished rs).
Qed.

Lemma rs_ops_events (run_id : string) (ops : list op) :
  forall rs,
    Forall (op_of_run run_id) ops ->
    RunState.events (rs_ops run_id ops rs) = (RunState.events rs ++ emitted ops)%list.
Proof.
  induction ops as [|o rest IH]; intros rs Hops.
  - simpl. now rewrite app_nil_r.
  - apply Forall_cons in Hops as [Ho Hrest].
    change (rs_ops run_id (o :: rest) rs) with (rs_ops run_id rest (rs_op run_id o rs)).
    rewrite (IH _ Hrest), (rs_op_events _ _ _ Ho).
    change (o :: rest) with ([o] ++ rest)%list. now rewrite emitted_app, app_assoc.
Qed.

Lemma emitted_of_run (run_id : string) (ops : list op) :
  Forall (op_of_run run_id) ops ->
  Forall (fun e => of_run run_id e = true) (emitted ops).
Proof.
  induction 1 as [|o rest Ho _ IH]; [constructor|].
  change (o :: rest) with ([o] ++ rest)%list. rewrite emitted_app.
  apply Forall_app. split; [|exact IH].
  destruct o as [now []|]; simpl in *; repeat constructor; assumption.
Qed.

Lemma lifetime_ops (agents : BESSOrchestrator.agents) (self : BESSOrchestrator.t)
  (run_id query : string) (max_docs now : Z) (ops : list op) :
  named agents -> alone_agents agents ->
  timeline true (BESSOrchestrator.task_on agents self run_id query max_docs now) ops ->
  Forall (op_of_run run_id) ops.
Proof.
  intros Hs Hq Htl.
  apply (timeline_ops _ _ _ _ Htl (task_of_run agents self run_id query max_docs now Hs Hq)).
Qed.

(** X17. For a run that has the three agents to itself (no other run is
    on them while it runs; they are shared by all the runs of the
    orchestrator): at every point of the run's lifetime its event log is
    exactly the sequence of events its task has published so far, in
    publication order: nothing is dropped, duplicated or reordered, and a
    later snapshot only extends the log of an earlier one, cancel requests
    and the finalization included. Every logged event carries the run's
    identifier, the identifier of one of the three registered stages and
    one of the six kinds the agents publish. The events route returns this
    log. *)
Theorem event_log_is_what_was_published (agents : BESSOrchestrator.agents)
  (self : BESSOrchestrator.t)
  (run_id query : string) (max_docs now : Z) (runs : gmap string RunState.t)
  (ops pre mid post : list op) :
  named agents ->
  alone_agents agents ->
  timeline true (BESSOrchestrator.task_on agents self run_id query max_docs now) ops ->
  ops = (pre ++ mid ++ post)%list ->
  exists earlier later,
    snapshot run_id query max_docs now runs pre !! run_id = Some earlier
    /\ snapshot run_id query max_docs now runs (pre ++ mid) !! run_id = Some later
    /\ RunState.events earlier = emitted pre
    /\ RunState.events later = (RunState.events earlier ++ emitted mid)%list
    /\ Forall (fun e => of_run run_id e = true) (RunState.events later)
    /\ Routes.get_run_events run_id (snapshot run_id query max_docs now runs pre)
       = (snapshot run_id query max_docs now runs pre,
          Ok (<["run_id" := PyStr run_id]>
             (<["events" :=
                  PyList (map (fun e => PyDict (AgentOrchestrator.event_to_dict e))
                            (emitted pre))]> ∅))).
Proof.
  intros Hnamed Halone Htl Hsplit. eexists _, _.
  split; [apply snapshot_lookup|]. split; [apply snapshot_lookup|].
  pose proof (lifetime_ops _ _ _ _ _ _ _ Hnamed Halone Htl) as Hops.
  rewrite Hsplit in Hops. apply Forall_app in Hops as [Hpre Hrest].
  apply Forall_app in Hrest as [Hmid _].
  assert (E1 : RunState.events (rs_ops run_id pre (RunState.new run_id query max_docs now))
               = emitted pre)
    by (now rewrite rs_ops_events).
  split; [exact E1|].
  split; [rewrite rs_ops_app; now apply rs_ops_events|].
  split.
  - rewrite rs_ops_app, rs_ops_events, E1, <- emitted_app by assumption.
    apply emitted_of_run, Forall_app. now split.
  - unfold Routes.get_run_events, AgentOrchestrator.get_run_events.
    now rewrite snapshot_lookup, E1.
Qed.

Lemma event_log_is_what_was_published_witness :
  exists earlier later,
    snapshot "run-1" "BESS" 10 0 ∅ (through_cancel canceled_run) !! "run-1" = Some earlier
    /\ snapshot "run-1" "BESS" 10 0 ∅ (through_cancel canceled_run ++ after_cancel canceled_run)
         !! "run-1" = Some later
    /\ RunState.events earlier = emitted (through_cancel canceled_run)
    /\ RunState.events later
       = (RunState.events earlier ++ emitted (after_cancel canceled_run))%list
    /\ Forall (fun e => of_run "run-1" e = true) (RunState.events later)
    /\ Routes.get_run_events "run-1"
         (snapshot "run-1" "BESS" 10 0 ∅ (through_cancel canceled_run))
       = (snapshot "run-1" "BESS" 10 0 ∅ (through_cancel canceled_run),
          Ok (<["run_id" := PyStr "run-1"]>
             (<["events" :=
                  PyList (map (fun e => PyDict (AgentOrchestrator.event_to_dict e))
                            (emitted (through_cancel canceled_run)))]> ∅))).
Proof.
  apply (event_log_is_what_was_published BESSOrchestrator.registered one_document
           "run-1" "BESS" 10 0 ∅
           canceled_run (through_cancel canceled_run) (after_cancel canceled_run) []).
  - now repeat split.
  - now repeat split.
  - exact canceled_run_timeline.
  - rewrite app_nil_r. apply through_and_after_cancel.
Defined.

Lemma count_kind_unpublished (run_id : string) (ty : EventType.t)
  (events : list AgentEvent.t) :
  published_kind ty = false ->
  Forall (fun e => of_run run_id e = true) events ->
  Summary.count_kind ty events = 0%Z.
Proof.
  intros Hty Hev. unfold Summary.count_kind.
  induction Hev as [|e rest He _ IH]; [reflexivity|].
  rewrite filter_cons_False; [exact IH|].
  intros E. unfold of_run in He. apply andb_true_iff in He as [_ He].
  rewrite E, Hty in He. discriminate.
Qed.

Lemma agents_involved_of_run (run_id : string) (events : list AgentEvent.t) :
  Forall (fun e => of_run run_id e = true) events ->
  (0 <= Summary.agents_involved events <= 3)%Z.
Proof.
  intros Hev. unfold Summary.agents_involved. split; [lia|].
  change 3%Z with (Z.of_nat (size (list_to_set stage_ids : gset string))).
  apply inj_le, subseteq_size.
  intros agent_id Hin. apply elem_of_list_to_set in Hin. apply elem_of_list_to_set.
  apply list_elem_of_fmap in Hin as (e & -> & Hin).
  rewrite Forall_forall in Hev. specialize (Hev e Hin).
  unfold of_run in Hev. apply andb_true_iff in Hev as [Hev _].
  apply andb_true_iff in Hev as [_ Hev]. now apply bool_decide_eq_true in Hev.
Qed.

(** X18. For a run that has the three agents to itself (no other run is
    on them while it runs; they are shared by all the runs of the
    orchestrator): at every point of the run's lifetime the summary route
    answers with a summary whose [total_events] is the number of events
    the run's task has published so far, whose [errors] and
    [steps_completed] are 0 (no stage publishes an Error or a StepCompleted
    event; a failing stage shows as a Failed event) and whose
    [agents_involved] is at most 3. *)
Theorem summary_of_a_run (agents0 : BESSOrchestrator.agents) (self : BESSOrchestrator.t)
  (run_id query : string)
  (max_docs now : Z) (runs : gmap string RunState.t) (ops pre post : list op) :
  named agents0 ->
  alone_agents agents0 ->
  timeline true (BESSOrchestrator.task_on agents0 self run_id query max_docs now) ops ->
  ops = (pre ++ post)%list ->
  exists d s agents,
    RunRoutes.get_run_summary run_id (snapshot run_id query max_docs now runs pre)
    = (snapshot run_id query max_docs now runs pre, Ok d)
    /\ d !! "summary" = Some (PyDict s)
    /\ s !! "total_events" = Some (PyInt (Z.of_nat (length (emitted pre))))
    /\ s !! "errors" = Some (PyInt 0)
    /\ s !! "steps_completed" = Some (PyInt 0)
    /\ s !! "agents_involved" = Some (PyInt agents)
    /\ (0 <= agents <= 3)%Z.
Proof.
  intros Hnamed Halone Htl Hsplit.
  pose proof (lifetime_ops _ _ _ _ _ _ _ Hnamed Halone Htl) as Hops.
  rewrite Hsplit in Hops. apply Forall_app in Hops as [Hpre _].
  set (rs := rs_ops run_id pre (RunState.new run_id query max_docs now)).
  assert (E : RunState.events rs = emitted pre) by (now apply rs_ops_events).
  assert (Hev : Forall (fun e => of_run run_id e = true) (RunState.events rs))
    by (rewrite E; now apply emitted_of_run).
  assert (N : (size (<["summary" := PyDict (Summary.summary (RunState.events rs))]>
                        (AgentOrchestrator.to_dict rs)) =? 0)%nat = false).
  { apply Nat.eqb_neq. intros H. apply map_size_empty_iff in H.
    apply (f_equal (fun m => m !! "summary")) in H.
    rewrite lookup_insert_eq, lookup_empty in H. discriminate. }
  unfold RunRoutes.get_run_summary, Summary.get_run_summary.
  rewrite snapshot_lookup. fold rs. cbn [Routes.not_status]. rewrite N.
  eexists _, _, _. split; [reflexivity|].
  split; [apply lookup_insert_eq|].
  unfold Summary.summary.
  rewrite (count_kind_unpublished run_id EventType.ERROR) by (reflexivity || assumption).
  rewrite (count_kind_unpublished run_id EventType.STEP_COMPLETED)
    by (reflexivity || assumption).
  rewrite E.
  split; [reflexivity|]. split; [reflexivity|]. split; [reflexivity|].
  split; [reflexivity|]. rewrite <- E. now apply (agents_involved_of_run run_id).
Qed.

Lemma summary_of_a_run_witness :
  exists d s agents,
    RunRoutes.get_run_summary "run-1" (snapshot "run-1" "BESS" 10 0 ∅ canceled_run)
    = (snapshot "run-1" "BESS" 10 0 ∅ canceled_run, Ok d)
    /\ d !! "summary" = Some (PyDict s)
    /\ s !! "total_events" = Some (PyInt (Z.of_nat (length (emitted canceled_run))))
    /\ s !! "errors" = Some (PyInt 0)
    /\ s !! "steps_completed" = Some (PyInt 0)
    /\ s !! "agents_involved" = Some (PyInt agents)
    /\ (0 <= agents <= 3)%Z.
Proof.
  apply (summary_of_a_run BESSOrchestrator.registered one_document "run-1" "BESS" 10 0 ∅
           canceled_run canceled_run []).
  - now repeat split.
  - now repeat split.
  - exact canceled_run_timeline.
  - symmetry. apply app_nil_r.
Defined.

(** ** The progress stream *)

(** X19. The progress stream of an unknown run is the single frame
    [{"error": "Run not found"}]. The stream of a known run opens with the
    status snapshot; when the run is already finished it ends there,
    however the registry changes later, and otherwise it goes on polling
    from the length of the log at subscription. *)
Theorem stream_opening (run_id : string) (runs : gmap string RunState.t)
  (wakeups : list (gmap string RunState.t)) :
  match runs !! run_id with
  | None =>
      RunRoutes.event_generator run_id runs wakeups
      = [Data (PyDict (<["error" := PyStr "Run not found"]> ∅))]
  | Some rs =>
      exists rest,
        RunRoutes.event_generator run_id runs wakeups
        = Data (PyDict (AgentOrchestrator.to_dict rs)) :: rest
        /\ if RunState.finished rs then rest = []
           else rest = RunRoutes.poll run_id (length (RunState.events rs)) wakeups
  end.
Proof.
  unfold RunRoutes.event_generator, AgentOrchestrator.get_run_status,
    AgentOrchestrator.get_run_events.
  destruct (runs !! run_id) as [rs|]; [|reflexivity].
  cbn [Routes.not_status Routes.status_get]. rewrite to_dict_not_empty, to_dict_finished.
  eexists. split; [reflexivity|]. cbn [default from_option id truthy].
  destruct (RunState.finished rs); [reflexivity|]. now rewrite length_map.
Qed.

Lemma relayed_app (l1 l2 : list frame) : relayed (l1 ++ l2) = (relayed l1 ++ relayed l2)%list.
Proof. unfold relayed. apply omap_app. Qed.

Lemma updates_app (l1 l2 : list frame) : updates (l1 ++ l2) = (updates l1 ++ updates l2)%list.
Proof. unfold updates. apply omap_app. Qed.

Lemma relayed_agent_events (events : list pyval) :
  relayed (map (Named "agent_event") events) = events
  /\ updates (map (Named "agent_event") events) = [].
Proof. induction events as [|e rest [IH1 IH2]]; simpl; [easy|]. now rewrite IH1. Qed.

Lemma poll_relays (run_id : string) (wakeups : list (gmap string RunState.t)) :
  forall log,
    growing run_id log wakeups ->
    exists new,
      caught_up run_id log wakeups = (log ++ new)%list
      /\ relayed (RunRoutes.poll run_id (length log) wakeups) = new
      /\ updates (RunRoutes.poll run_id (length log) wakeups)
         = map (fun runs =>
                  PyDict (default ∅ (AgentOrchestrator.get_run_status runs run_id)))
             (polled run_id wakeups).
Proof.
  induction wakeups as [|runs rest IH]; intros log Hgrow.
  - exists []. unfold caught_up. simpl. now rewrite app_nil_r.
  - destruct Hgrow as ([rs Hrs] & [new Hnew] & Hrest).
    destruct (IH _ Hrest) as (new' & Hcaught & Hrel & Hupd).
    assert (Hpoll :
      RunRoutes.poll run_id (length log) (runs :: rest)
      = (map (Named "agent_event") new
         ++ [Named "status_update" (PyDict (AgentOrchestrator.to_dict rs))]
         ++ if RunState.finished rs then []
            else RunRoutes.poll run_id
                   (length (AgentOrchestrator.get_run_events runs run_id)) rest)%list).
    { set (ev := AgentOrchestrator.get_run_events runs run_id) in *.
      assert (F1 : (if (length log <? length ev)%nat then drop (length log) ev else [])
                   = new).
      { rewrite Hnew, length_app.
        destruct (length log <? length log + length new)%nat eqn:Hlt.
        - apply drop_app_length.
        - apply Nat.ltb_ge in Hlt. destruct new; simpl in *; [reflexivity | lia]. }
      assert (F2 : (if (length log <? length ev)%nat then length ev else length log)
                   = length ev).
      { rewrite Hnew, length_app.
        destruct (length log <? length log + length new)%nat eqn:Hlt; [reflexivity|].
        apply Nat.ltb_ge in Hlt. lia. }
      cbn [RunRoutes.poll]. fold ev. unfold AgentOrchestrator.get_run_status.
      rewrite Hrs. cbn [Routes.not_status Routes.status_get].
      rewrite to_dict_not_empty, to_dict_finished, F1, F2.
      reflexivity. }
    rewrite Hpoll, !relayed_app, !updates_app.
    destruct (relayed_agent_events new) as [-> ->].
    assert (Hst : default ∅ (AgentOrchestrator.get_run_status runs run_id)
                  = AgentOrchestrator.to_dict rs)
      by (unfold AgentOrchestrator.get_run_status; now rewrite Hrs).
    unfold caught_up in *. cbn [polled]. rewrite Hrs.
    destruct (RunState.finished rs).
    + exists new. cbn [last map]. rewrite Hst, Hnew. simpl. now rewrite app_nil_r.
    + exists (new ++ new')%list. rewrite app_assoc, <- Hnew. split.
      * rewrite last_cons. destruct (last (polled run_id rest)); exact Hcaught.
      * cbn [map]. rewrite Hst, Hrel, Hupd. now split.
Qed.

(** X20. While the registry keeps the run and only appends to its log,
    the stream of an unfinished run relays every event exactly once and in
    order: the log at subscription followed by the relayed [agent_event]
    payloads is the log at the last wake-up the stream got to. It sends one
    [status_update] per wake-up and stops at the first wake-up that finds
    the run finished. *)
Theorem stream_relays_each_event_once (run_id : string) (runs : gmap string RunState.t)
  (rs : RunState.t) (wakeups : list (gmap string RunState.t)) :
  runs !! run_id = Some rs ->
  RunState.finished rs = false ->
  growing run_id (AgentOrchestrator.get_run_events runs run_id) wakeups ->
  (AgentOrchestrator.get_run_events runs run_id
   ++ relayed (RunRoutes.event_generator run_id runs wakeups))%list
  = caught_up run_id (AgentOrchestrator.get_run_events runs run_id) wakeups
  /\ updates (RunRoutes.event_generator run_id runs wakeups)
     = map (fun runs => PyDict (default ∅ (AgentOrchestrator.get_run_status runs run_id)))
         (polled run_id wakeups).
Proof.
  intros Hrs Hfin Hgrow.
  destruct (poll_relays run_id wakeups _ Hgrow) as (new & Hcaught & Hrel & Hupd).
  assert (Hgen : RunRoutes.event_generator run_id runs wakeups
                 = Data (PyDict (AgentOrchestrator.to_dict rs))
                   :: RunRoutes.poll run_id
                        (length (AgentOrchestrator.get_run_events runs run_id)) wakeups).
  { unfold RunRoutes.event_generator, AgentOrchestrator.get_run_status. rewrite Hrs.
    cbn [Routes.not_status Routes.status_get].
    now rewrite to_dict_not_empty, to_dict_finished, Hfin. }
  rewrite Hgen, Hcaught. split.
  - f_equal. exact Hrel.
  - exact Hupd.
Qed.

Lemma stream_relays_each_event_once_witness :
  (AgentOrchestrator.get_run_events sample_runs "run-1"
   ++ relayed (RunRoutes.event_generator "run-1" sample_runs sample_wakeups))%list
  = caught_up "run-1" (AgentOrchestrator.get_run_events sample_runs "run-1") sample_wakeups
  /\ updates (RunRoutes.event_generator "run-1" sample_runs sample_wakeups)
     = map (fun runs => PyDict (default ∅ (AgentOrchestrator.get_run_status runs "run-1")))
         (polled "run-1" sample_wakeups).
Proof.
  apply (stream_relays_each_event_once "run-1" sample_runs sample_run sample_wakeups).
  - reflexivity.
  - reflexivity.
  - split; [eexists; vm_compute; reflexivity|]. split; [apply prefix_nil|].
    split; [eexists; vm_compute; reflexivity|]. split; [|exact I].
    exists []. vm_compute. reflexivity.
Defined.

(** ** The events of document processing *)

Lemma emit_event_bound (self : BaseAgent.t) (bus : list act) (run_id : string)
  (ty : EventType.t) (message : string) (data : gmap string pyval)
  (error : option string) :
  BaseAgent.bound_run self = Some run_id ->
  BaseAgent.emit_event ty message data error (self, bus)
  = ((self, (bus ++ [Emit (AgentEvent.mk run_id (BaseAgent.agent_id self) ty
                             message data error)])%list), Ok tt).
Proof. intros H. unfold BaseAgent.emit_event. cbn [fst]. now rewrite H. Qed.

Lemma emit_progress_bound (self : BaseAgent.t) (bus : list act) (run_id : string)
  (current total : Z) (message : string) :
  BaseAgent.bound_run self = Some run_id ->
  (0 <= current <= total)%Z ->
  exists event,
    BaseAgent.emit_progress current total message (self, bus)
    = ((self, (bus ++ [Emit event])%list), Ok tt)
    /\ AgentEvent.event_type event = EventType.PROGRESS.
Proof.
  intros Hb H. unfold BaseAgent.emit_progress.
  destruct (percentage_bounded current total H) as [progress ->].
  unfold bind, lift_result. rewrite (emit_event_bound _ _ run_id) by exact Hb.
  now eexists.
Qed.

Lemma count_events_one (ty : EventType.t) (event : AgentEvent.t) :
  count_events ty [Emit event]
  = if bool_decide (AgentEvent.event_type event = ty) then 1%nat else 0%nat.
Proof.
  unfold count_events. rewrite filter_cons. simpl.
  destruct (bool_decide (AgentEvent.event_type event = ty)) eqn:E.
  - now rewrite decide_True.
  - now rewrite decide_False.
Qed.

Lemma count_events_emit (ty ty' : EventType.t) (run_id agent_id message : string)
  (data : gmap string pyval) (error : option string) :
  count_events ty [Emit (AgentEvent.mk run_id agent_id ty' message data error)]
  = if bool_decide (ty' = ty) then 1%nat else 0%nat.
Proof. apply count_events_one. Qed.

Lemma count_events_await (ty : EventType.t) : count_events ty [Await] = 0%nat.
Proof. reflexivity. Qed.

Lemma process_events (self : BaseAgent.t) (run_id : string) (total_docs : Z)
  (docs : list DocumentProcessor.doc_file) :
  BaseAgent.bound_run self = Some run_id ->
  alone self ->
  forall i acc bus,
    (0 <= i)%Z -> (i + Z.of_nat (length docs) <= total_docs)%Z ->
    exists new acc',
      DocumentProcessor.process total_docs i docs acc (self, bus)
      = ((self, (bus ++ new)%list), Ok acc')
      /\ count_events EventType.WARNING new
         = length (filter (fun d => unreadable d = true) docs)
      /\ count_events EventType.PROGRESS new = length docs
      /\ count_events EventType.STEP_STARTED new = 0%nat.
Proof.
  intros Hb Hq. induction docs as [|d rest IH]; intros i acc bus Hi Hlen.
  - exists [], acc. simpl. now rewrite app_nil_r.
  - cbn [DocumentProcessor.process]. cbn [length] in Hlen. unfold bind at 1.
    destruct (emit_progress_bound self bus run_id i total_docs
                ("Processing " ++ DocumentProcessor.name d) Hb) as (ev & -> & Hev);
      [lia|].
    unfold BaseAgent.emit_warning.
    unfold bind at 1. unfold try_except. unfold bind at 1. unfold lift_result at 1.
    rewrite filter_cons.
    assert (Hun : unreadable d
                  = match DocumentProcessor.extracted d with
                    | Raise _ => true
                    | Ok _ => false
                    end) by reflexivity.
    destruct (DocumentProcessor.extracted d) as [content|e].
    + unfold bind at 1. rewrite sleep_alone by exact Hq. unfold ret at 1.
      match goal with
      | |- context [DocumentProcessor.process _ _ _ ?acc' (_, ?bus')] =>
          destruct (IH (i + 1)%Z acc' bus') as (new & r & -> & Hw & Hp & Hs); [lia | lia |]
      end.
      eexists (_ :: Await :: new), r. split; [now rewrite <- !app_assoc|].
      rewrite decide_False by (rewrite Hun; discriminate).
      change (?a :: Await :: new) with ([a] ++ [Await] ++ new)%list.
      rewrite !count_events_app, !count_events_one, !count_events_await, Hev, Hw, Hp, Hs.
      repeat split.
    + unfold bind at 1. rewrite (emit_event_bound _ _ run_id) by exact Hb.
      unfold ret at 1.
      match goal with
      | |- context [DocumentProcessor.process _ _ _ ?acc' (_, ?bus')] =>
          destruct (IH (i + 1)%Z acc' bus') as (new & r & -> & Hw & Hp & Hs); [lia | lia |]
      end.
      eexists (_ :: _ :: new), r. split; [now rewrite <- !app_assoc|].
      rewrite decide_True by exact Hun.
      change (?a :: ?b :: new) with ([a] ++ [b] ++ new)%list.
      rewrite !count_events_app, !count_events_one, Hev, Hw, Hp, Hs. repeat split.
Qed.

Lemma document_processor_counts (cfg : DocumentProcessor.t) (query : string)
  (max_docs : Z) (self : BaseAgent.t) (run_id : string) (bus : list act) :
  BaseAgent.bound_run self = Some run_id ->
  alone self ->
  exists new r,
    DocumentProcessor._execute cfg query max_docs (self, bus)
    = ((self, (bus ++ new)%list), r)
    /\ count_events EventType.STEP_STARTED new = 1%nat
    /\ count_events EventType.WARNING new
       = match DocumentProcessor.found cfg with
         | Raise _ => 0%nat
         | Ok [] => 1%nat
         | Ok _ => length (filter (fun d => unreadable d = true) (taken cfg max_docs))
         end
    /\ count_events EventType.PROGRESS new
       = match DocumentProcessor.found cfg with
         | Raise _ | Ok [] => 0%nat
         | Ok _ => (length (taken cfg max_docs) + 2)%nat
         end.
Proof.
  intros Hb Hq. unfold DocumentProcessor._execute.
  unfold BaseAgent.emit_step, BaseAgent.emit_warning.
  unfold bind at 1. rewrite (emit_event_bound _ _ run_id) by exact Hb.
  unfold taken, discovered. unfold bind at 1. unfold lift_result at 1.
  destruct (DocumentProcessor.found cfg) as [[|d rest]|e].
  - unfold bind at 1. rewrite (emit_event_bound _ _ run_id) by exact Hb.
    unfold ret. eexists [_; _], _. split; [now rewrite <- app_assoc|].
    change [?a; ?b] with ([a] ++ [b])%list.
    rewrite !count_events_app, !count_events_emit. repeat split.
  - set (docs' := if (max_docs >? 0)%Z then take (Z.to_nat max_docs) (d :: rest)
                  else d :: rest).
    unfold bind at 1. rewrite (emit_event_bound _ _ run_id) by exact Hb.
    unfold bind at 1.
    match goal with
    | |- context [DocumentProcessor.process ?t ?i _ ?acc (_, ?bus')] =>
        destruct (process_events self run_id t docs' Hb Hq i acc bus')
          as (new & acc1 & -> & Hw & Hp & Hs); [lia | lia |]
    end.
    unfold bind at 1.
    match goal with
    | |- context [BaseAgent.emit_progress ?c ?t ?m (_, ?bus')] =>
        destruct (emit_progress_bound self bus' run_id c t m Hb) as (ev & -> & Hev); [lia|]
    end.
    unfold ret.
    eexists (_ :: _ :: new ++ [_])%list, _.
    split; [now rewrite <- !app_assoc|].
    change (?a :: ?b :: new ++ [?c])%list with ([a] ++ [b] ++ new ++ [c])%list.
    rewrite !count_events_app, !count_events_emit, !count_events_one, Hev, Hw, Hp, Hs.
    repeat split; simpl; lia.
  - eexists [_], _. split; [reflexivity|].
    rewrite !count_events_emit. repeat split.
Qed.

(** X21. Inside an invocation (the agent bound to a run, and no other run
    on the agent meanwhile) document processing publishes exactly one
    StepStarted event. When document discovery raises, it publishes
    nothing more and raises the exception of the discovery. When no file
    was found, it publishes one Warning and no Progress event. Otherwise it
    publishes one Warning event per file whose extraction raises and, first
    the count of the files to work on, then one Progress event per file
    worked on and one at the end: the number of files plus two Progress
    events. In the last two cases it returns its result. *)
Theorem document_processor_events (cfg : DocumentProcessor.t) (query : string)
  (max_docs : Z) (self : BaseAgent.t) (run_id : string) (bus : list act) :
  BaseAgent.bound_run self = Some run_id ->
  alone self ->
  exists new,
    DocumentProcessor._execute cfg query max_docs (self, bus)
    = ((self, (bus ++ new)%list),
       match DocumentProcessor.found cfg with
       | Ok _ => Ok (doc_result cfg max_docs)
       | Raise e => Raise e
       end)
    /\ count_events EventType.STEP_STARTED new = 1%nat
    /\ count_events EventType.WARNING new
       = match DocumentProcessor.found cfg with
         | Raise _ => 0%nat
         | Ok [] => 1%nat
         | Ok _ => length (filter (fun d => unreadable d = true) (taken cfg max_docs))
         end
    /\ count_events EventType.PROGRESS new
       = match DocumentProcessor.found cfg with
         | Raise _ | Ok [] => 0%nat
         | Ok _ => (length (taken cfg max_docs) + 2)%nat
         end.
Proof.
  intros Hb Hq.
  destruct (document_processor_counts cfg query max_docs self run_id bus Hb Hq)
    as (new & r & Heq & Hcounts).
  destruct (document_processor_returns cfg query max_docs self bus) as (s' & bus' & Hret).
  exists new. split; [|exact Hcounts].
  rewrite Heq in Hret |- *. congruence.
Qed.

Lemma document_processor_events_witness :
  exists new,
    DocumentProcessor._execute (DocumentProcessor.mk (Ok [sample_doc; sample_broken_doc]))
      "BESS" 10 (bound_to "run-1" (BaseAgent.new "document_processor"), [])
    = ((bound_to "run-1" (BaseAgent.new "document_processor"), ([] ++ new)%list),
       match DocumentProcessor.found
               (DocumentProcessor.mk (Ok [sample_doc; sample_broken_doc])) with
       | Ok _ =>
           Ok (doc_result (DocumentProcessor.mk (Ok [sample_doc; sample_broken_doc])) 10)
       | Raise e => Raise e
       end)
    /\ count_events EventType.STEP_STARTED new = 1%nat
    /\ count_events EventType.WARNING new
       = match DocumentProcessor.found
                 (DocumentProcessor.mk (Ok [sample_doc; sample_broken_doc])) with
         | Raise _ => 0%nat
         | Ok [] => 1%nat
         | Ok _ =>
             length (filter (fun d => unreadable d = true)
                       (taken (DocumentProcessor.mk (Ok [sample_doc; sample_broken_doc]))
                          10))
         end
    /\ count_events EventType.PROGRESS new
       = match DocumentProcessor.found
                 (DocumentProcessor.mk (Ok [sample_doc; sample_broken_doc])) with
         | Raise _ | Ok [] => 0%nat
         | Ok _ =>
             (length (taken (DocumentProcessor.mk (Ok [sample_doc; sample_broken_doc])) 10)
              + 2)%nat
         end.
Proof.
  apply (document_processor_events
           (DocumentProcessor.mk (Ok [sample_doc; sample_broken_doc]))
           "BESS" 10 (bound_to "run-1" (BaseAgent.new "document_processor")) "run-1" []).
  - reflexivity.
  - reflexivity.
Defined.
